(** * ocrd_tesserocr: crop, deskew and line segmentation processors

    A shallow embedding of [ocrd_tesserocr/crop.py], [ocrd_tesserocr/deskew.py]
    and [ocrd_tesserocr/segment_line.py], and the properties of these three
    processors that the specification states.

    The processors are glue around libraries that live elsewhere: Pillow
    images, the tesserocr engine, the OCR-D framework and the helpers of
    [ocrd_tesserocr/common.py].  Those are interfaces here (type classes);
    the Python code of the three modules is translated statement by
    statement into a state-and-exception monad over a world that records
    the log, the calls made to the outside and the engine's configuration. *)

From Stdlib Require Import ZArith List String Ascii Bool Lia.
From Stdlib Require Import Floats.SpecFloat.
From Stdlib Require DecimalString DecimalN DecimalPos.
Import ListNotations.
Local Open Scope string_scope.
Local Open Scope Z_scope.

Set Implicit Arguments.

(* ===================================================================== *)
(** * Python values *)
(* ===================================================================== *)

Module Py.

(** ** Exceptions the three modules can raise by themselves *)

Inductive Exn :=
| UnboundLocalError (var : string)
| AssertionError (msg : string)
| ZeroDivisionError
| ValueError
| OverflowError
| KeyError (key : string)
| TypeError.

(** ** Floats: IEEE 754 binary64, as CPython's [float] *)

Definition float := spec_float.
Definition prec : Z := 53.
Definition emax : Z := 1024.

Definition isnan (f : float) : bool :=
  match f with S754_nan => true | _ => false end.

Definition fadd : float -> float -> float := SFadd prec emax.
Definition fsub : float -> float -> float := SFsub prec emax.
Definition fmul : float -> float -> float := SFmul prec emax.
Definition fdiv : float -> float -> float := SFdiv prec emax.
Definition fneg : float -> float := SFopp.

Definition fis_zero (f : float) : bool :=
  match f with S754_zero _ => true | _ => false end.

Definition fsign (f : float) : bool :=
  match f with
  | S754_zero s | S754_infinity s | S754_finite s _ _ => s
  | S754_nan => false
  end.

(** [float(z)]: the nearest double, ties to even.  CPython raises
    OverflowError from 2**1024 on; the three modules only convert small
    literals and pixel counts. *)
Definition float_of_Z (z : Z) : float := binary_normalize prec emax z 0 false.

(** [a / b] on two ints: the correctly rounded quotient. *)
Definition Z_truediv (a b : Z) : option float :=
  if b =? 0 then None
  else Some (match a with
             | Z0 => S754_zero (b <? 0)
             | Zpos p => fdiv (S754_finite false p 0)
                              (S754_finite (b <? 0) (Z.to_pos (Z.abs b)) 0)
             | Zneg p => fdiv (S754_finite true p 0)
                              (S754_finite (b <? 0) (Z.to_pos (Z.abs b)) 0)
             end).

(** The exact order between an int and a float, as CPython compares them
    (no conversion of the int). [None]: the float is NaN. *)
Definition Z_compare_float (z : Z) (f : float) : option comparison :=
  match f with
  | S754_nan => None
  | S754_infinity s => Some (if s then Gt else Lt)
  | S754_zero _ => Some (z ?= 0)
  | S754_finite s m e =>
      let v := if s then Zneg m else Zpos m in
      Some (if 0 <=? e then z ?= v * 2 ^ e
            else z * 2 ^ (- e) ?= v)
  end.

(** [z < f] *)
Definition Z_lt_float (z : Z) (f : float) : bool :=
  match Z_compare_float z f with Some Lt => true | _ => false end.

(** [f <= z] *)
Definition float_le_Z (f : float) (z : Z) : bool :=
  match Z_compare_float z f with Some (Gt | Eq) => true | _ => false end.

(** [f < z] *)
Definition float_lt_Z (f : float) (z : Z) : bool :=
  match Z_compare_float z f with Some Gt => true | _ => false end.

(** [f != z] *)
Definition float_ne_Z (f : float) (z : Z) : bool :=
  match Z_compare_float z f with Some Eq => false | _ => true end.

(** [int(f)]: truncation towards zero. *)
Definition int_of_float (f : float) : Exn + Z :=
  match f with
  | S754_nan => inl ValueError
  | S754_infinity _ => inl OverflowError
  | S754_zero _ => inr 0
  | S754_finite s m e =>
      let a := if 0 <=? e then Zpos m * 2 ^ e else Zpos m / 2 ^ (- e) in
      inr (if s then - a else a)
  end.

(** [round(f)] with one argument: the nearest int, ties to even. *)
Definition round (f : float) : Exn + Z :=
  match f with
  | S754_nan => inl ValueError
  | S754_infinity _ => inl OverflowError
  | S754_zero _ => inr 0
  | S754_finite s m e =>
      let a :=
        if 0 <=? e then Zpos m * 2 ^ e
        else
          let d := 2 ^ (- e) in
          let q := Zpos m / d in
          let r := Zpos m mod d in
          match 2 * r ?= d with
          | Lt => q
          | Gt => q + 1
          | Eq => if Z.even q then q else q + 1
          end in
      inr (if s then - a else a)
  end.

(** C's [fmod] on two finite, nonzero doubles: exact, with the sign of [x]. *)
Definition fmod_finite (sx : bool) (mx : positive) (ex : Z)
                       (my : positive) (ey : Z) : float :=
  let e := Z.min ex ey in
  let X := Zpos mx * 2 ^ (ex - e) in
  let Y := Zpos my * 2 ^ (ey - e) in
  let R := X mod Y in
  binary_normalize prec emax (if sx then - R else R) e sx.

(** [x % y] on floats (CPython's float_rem). *)
Definition fmod (x y : float) : Exn + float :=
  match y with
  | S754_zero _ => inl ZeroDivisionError
  | S754_nan => inr S754_nan
  | _ =>
      let m :=
        match x, y with
        | S754_nan, _ => S754_nan
        | S754_infinity _, _ => S754_nan
        | S754_zero _, _ => x
        | S754_finite _ _ _, S754_infinity _ => x
        | S754_finite sx mx ex, S754_finite _ my ey => fmod_finite sx mx ex my ey
        | _, _ => S754_nan
        end in
      inr (if isnan m then m
           else if fis_zero m then S754_zero (fsign y)
           else if Bool.eqb (fsign y) (fsign m) then m
           else fadd m y)
  end.

(** Literals of the source. *)
Definition f2_54 : float :=
  Eval vm_compute in
    match Z_truediv 254 100 with Some f => f | None => S754_nan end.

(** [math.pi] *)
Definition pi : float := S754_finite false 7074237752028440 (-51).

(** ** Numbers that are an int or a float at run time *)

Inductive num := NInt (z : Z) | NFloat (f : float).

Definition to_float (n : num) : float :=
  match n with NInt z => float_of_Z z | NFloat f => f end.

(** truth value of a number: nonzero (NaN is true) *)
Definition num_truth (n : num) : bool :=
  match n with NInt z => negb (z =? 0) | NFloat f => negb (fis_zero f) end.

(** [z != n] for an int [z] *)
Definition Z_ne_num (z : Z) (n : num) : bool :=
  match n with NInt z' => negb (z =? z') | NFloat f => float_ne_Z f z end.

(** [a / b] *)
Definition truediv (a b : num) : Exn + float :=
  match a, b with
  | NInt x, NInt y =>
      match Z_truediv x y with
      | Some f => inr f
      | None => inl ZeroDivisionError
      end
  | _, _ =>
      if fis_zero (to_float b) then inl ZeroDivisionError
      else inr (fdiv (to_float a) (to_float b))
  end.

(** ** Values passed to the logger, to [%]-formatting and as parameters *)

Inductive val :=
| VInt (z : Z)
| VFloat (f : float)
| VStr (s : string)
| VBool (b : bool).

Definition val_of_num (n : num) : val :=
  match n with NInt z => VInt z | NFloat f => VFloat f end.

(** The values a parameter of the three tools can take by its JSON schema:
    an integer ([padding]), a string ([operation_level]) or a boolean
    ([overwrite_lines]). *)
Inductive param :=
| PInt (z : Z)
| PStr (s : string)
| PBool (b : bool).

Definition val_of_param (p : param) : val :=
  match p with PInt z => VInt z | PStr s => VStr s | PBool b => VBool b end.

(** truth value of a parameter *)
Definition param_truth (p : param) : bool :=
  match p with
  | PInt z => negb (z =? 0)
  | PStr s => negb (String.length s =? 0)%nat
  | PBool b => b
  end.

(** a parameter used as an int operand: bools are ints, a string is a
    TypeError *)
Definition param_int (p : param) : Exn + Z :=
  match p with
  | PInt z => inr z
  | PBool b => inr (Z.b2z b)
  | PStr _ => inl TypeError
  end.

(** [p == s] for a string literal [s] *)
Definition param_eq_str (p : param) (s : string) : bool :=
  match p with PStr s' => String.eqb s' s | _ => false end.

(** the double quote character, for messages that contain it *)
Definition dq : string := String (ascii_of_nat 34) EmptyString.

(** ** Strings *)

(** [str(z)] and [%d] / [%i] *)
Definition str_of_Z (z : Z) : string :=
  DecimalString.NilZero.string_of_int (Z.to_int z).

Fixpoint zeros (n : nat) : string :=
  match n with O => "" | S n' => String "0" (zeros n') end.

(** ["%04d" % z] *)
Definition fmt_04d (z : Z) : string :=
  let digits := DecimalString.NilZero.string_of_uint (N.to_uint (Z.to_N (Z.abs z))) in
  let sign := if z <? 0 then "-" else "" in
  let used := (String.length sign + String.length digits)%nat in
  sign ++ zeros (4 - used) ++ digits.

(** [s.replace(old, new)]: every non-overlapping occurrence, left to right.
    [skip] counts the characters of a matched occurrence still to drop. *)
Fixpoint replace_from (old new s : string) (skip : nat) : string :=
  match s with
  | EmptyString => ""
  | String c s' =>
      match skip with
      | S k => replace_from old new s' k
      | O =>
          if String.prefix old s
          then new ++ replace_from old new s' (String.length old - 1)
          else String c (replace_from old new s' 0)
      end
  end.

Fixpoint intersperse (new s : string) : string :=
  match s with
  | EmptyString => ""
  | String c s' => String c (new ++ intersperse new s')
  end.

Definition replace (s old new : string) : string :=
  match old with
  | EmptyString => new ++ intersperse new s
  | _ => replace_from old new s 0
  end.

Definition ends_with_slash (s : string) : bool :=
  match String.get (String.length s - 1) s with
  | Some c => Ascii.eqb c "/"
  | None => false
  end.

(** [os.path.join(a, b)] (posixpath) *)
Definition os_path_join (a b : string) : string :=
  if String.prefix "/" b then b
  else if (String.length a =? 0)%nat || ends_with_slash a then a ++ b
  else a ++ "/" ++ b.

(** an optional string tested for truth: [x or y] *)
Definition str_or (x : option string) (y : string) : string :=
  match x with
  | Some s => if (String.length s =? 0)%nat then y else s
  | None => y
  end.

End Py.

(* ===================================================================== *)
(** * The PAGE document (ocrd_models.ocrd_page) *)
(* ===================================================================== *)

(** The generated PAGE classes, with the attributes and children the three
    processors read or write.  What they never touch of an element is kept
    in its [_other] field. *)
Module Page.

Record LabelType := { label_type : string; label_value : Py.param }.
Record LabelsType := { Label : list LabelType }.
Record MetadataItemType := {
  mi_type : string; mi_name : string; mi_value : string;
  mi_Labels : list LabelsType }.

Record AlternativeImageType := { filename : string; comments : string }.

(** [Coords] is its [points] attribute. *)
Record TextLineType := { tl_id : string; tl_Coords : string; tl_other : string }.

Record TextRegionType := {
  tr_id : string;
  tr_Coords : string;
  tr_TextLine : list TextLineType;
  tr_AlternativeImage : list AlternativeImageType;
  tr_orientation : option Py.float;
  tr_primaryScript : option string;
  tr_readingDirection : option string;
  tr_textLineOrder : option string;
  tr_other : string }.

Record TableRegionType := {
  tb_id : string;
  tb_Coords : string;
  tb_AlternativeImage : list AlternativeImageType;
  tb_orientation : option Py.float;
  tb_other : string }.

(** [Border] is the points of its Coords, when the page has one. *)
Record PageType := {
  imageFilename : string;
  Border : option string;
  TextRegion : list TextRegionType;
  TableRegion : list TableRegionType;
  pg_AlternativeImage : list AlternativeImageType;
  pg_orientation : option Py.float;
  pg_primaryScript : option string;
  pg_readingDirection : option string;
  pg_textLineOrder : option string;
  pg_other : string }.

Record PcGts := { Metadata : list MetadataItemType; Page : PageType }.

(** *** Setters and adders of the generated classes *)

Definition add_MetadataItem (d : PcGts) (m : MetadataItemType) : PcGts :=
  {| Metadata := Metadata d ++ [m]; Page := Page d |}.

Definition set_Page (d : PcGts) (p : PageType) : PcGts :=
  {| Metadata := Metadata d; Page := p |}.

Definition set_Border (p : PageType) (b : string) : PageType :=
  {| imageFilename := imageFilename p; Border := Some b;
     TextRegion := TextRegion p; TableRegion := TableRegion p;
     pg_AlternativeImage := pg_AlternativeImage p;
     pg_orientation := pg_orientation p;
     pg_primaryScript := pg_primaryScript p;
     pg_readingDirection := pg_readingDirection p;
     pg_textLineOrder := pg_textLineOrder p; pg_other := pg_other p |}.

Definition set_TextRegion (p : PageType) (l : list TextRegionType) : PageType :=
  {| imageFilename := imageFilename p; Border := Border p;
     TextRegion := l; TableRegion := TableRegion p;
     pg_AlternativeImage := pg_AlternativeImage p;
     pg_orientation := pg_orientation p;
     pg_primaryScript := pg_primaryScript p;
     pg_readingDirection := pg_readingDirection p;
     pg_textLineOrder := pg_textLineOrder p; pg_other := pg_other p |}.

Definition set_TableRegion (p : PageType) (l : list TableRegionType) : PageType :=
  {| imageFilename := imageFilename p; Border := Border p;
     TextRegion := TextRegion p; TableRegion := l;
     pg_AlternativeImage := pg_AlternativeImage p;
     pg_orientation := pg_orientation p;
     pg_primaryScript := pg_primaryScript p;
     pg_readingDirection := pg_readingDirection p;
     pg_textLineOrder := pg_textLineOrder p; pg_other := pg_other p |}.

Definition pg_add_AlternativeImage (p : PageType) (a : AlternativeImageType)
  : PageType :=
  {| imageFilename := imageFilename p; Border := Border p;
     TextRegion := TextRegion p; TableRegion := TableRegion p;
     pg_AlternativeImage := pg_AlternativeImage p ++ [a];
     pg_orientation := pg_orientation p;
     pg_primaryScript := pg_primaryScript p;
     pg_readingDirection := pg_readingDirection p;
     pg_textLineOrder := pg_textLineOrder p; pg_other := pg_other p |}.

Definition pg_set_orientation (p : PageType) (a : Py.float) : PageType :=
  {| imageFilename := imageFilename p; Border := Border p;
     TextRegion := TextRegion p; TableRegion := TableRegion p;
     pg_AlternativeImage := pg_AlternativeImage p;
     pg_orientation := Some a;
     pg_primaryScript := pg_primaryScript p;
     pg_readingDirection := pg_readingDirection p;
     pg_textLineOrder := pg_textLineOrder p; pg_other := pg_other p |}.

Definition pg_set_primaryScript (p : PageType) (s : string) : PageType :=
  {| imageFilename := imageFilename p; Border := Border p;
     TextRegion := TextRegion p; TableRegion := TableRegion p;
     pg_AlternativeImage := pg_AlternativeImage p;
     pg_orientation := pg_orientation p;
     pg_primaryScript := Some s;
     pg_readingDirection := pg_readingDirection p;
     pg_textLineOrder := pg_textLineOrder p; pg_other := pg_other p |}.

Definition pg_set_readingDirection (p : PageType) (s : string) : PageType :=
  {| imageFilename := imageFilename p; Border := Border p;
     TextRegion := TextRegion p; TableRegion := TableRegion p;
     pg_AlternativeImage := pg_AlternativeImage p;
     pg_orientation := pg_orientation p;
     pg_primaryScript := pg_primaryScript p;
     pg_readingDirection := Some s;
     pg_textLineOrder := pg_textLineOrder p; pg_other := pg_other p |}.

Definition pg_set_textLineOrder (p : PageType) (s : string) : PageType :=
  {| imageFilename := imageFilename p; Border := Border p;
     TextRegion := TextRegion p; TableRegion := TableRegion p;
     pg_AlternativeImage := pg_AlternativeImage p;
     pg_orientation := pg_orientation p;
     pg_primaryScript := pg_primaryScript p;
     pg_readingDirection := pg_readingDirection p;
     pg_textLineOrder := Some s; pg_other := pg_other p |}.

Definition tr_set_TextLine (r : TextRegionType) (l : list TextLineType)
  : TextRegionType :=
  {| tr_id := tr_id r; tr_Coords := tr_Coords r; tr_TextLine := l;
     tr_AlternativeImage := tr_AlternativeImage r;
     tr_orientation := tr_orientation r;
     tr_primaryScript := tr_primaryScript r;
     tr_readingDirection := tr_readingDirection r;
     tr_textLineOrder := tr_textLineOrder r; tr_other := tr_other r |}.

Definition tr_add_TextLine (r : TextRegionType) (l : TextLineType)
  : TextRegionType :=
  tr_set_TextLine r (tr_TextLine r ++ [l]).

Definition tr_add_AlternativeImage (r : TextRegionType)
  (a : AlternativeImageType) : TextRegionType :=
  {| tr_id := tr_id r; tr_Coords := tr_Coords r; tr_TextLine := tr_TextLine r;
     tr_AlternativeImage := tr_AlternativeImage r ++ [a];
     tr_orientation := tr_orientation r;
     tr_primaryScript := tr_primaryScript r;
     tr_readingDirection := tr_readingDirection r;
     tr_textLineOrder := tr_textLineOrder r; tr_other := tr_other r |}.

Definition tr_set_orientation (r : TextRegionType) (a : Py.float)
  : TextRegionType :=
  {| tr_id := tr_id r; tr_Coords := tr_Coords r; tr_TextLine := tr_TextLine r;
     tr_AlternativeImage := tr_AlternativeImage r;
     tr_orientation := Some a;
     tr_primaryScript := tr_primaryScript r;
     tr_readingDirection := tr_readingDirection r;
     tr_textLineOrder := tr_textLineOrder r; tr_other := tr_other r |}.

Definition tr_set_primaryScript (r : TextRegionType) (s : string)
  : TextRegionType :=
  {| tr_id := tr_id r; tr_Coords := tr_Coords r; tr_TextLine := tr_TextLine r;
     tr_AlternativeImage := tr_AlternativeImage r;
     tr_orientation := tr_orientation r;
     tr_primaryScript := Some s;
     tr_readingDirection := tr_readingDirection r;
     tr_textLineOrder := tr_textLineOrder r; tr_other := tr_other r |}.

Definition tr_set_readingDirection (r : TextRegionType) (s : string)
  : TextRegionType :=
  {| tr_id := tr_id r; tr_Coords := tr_Coords r; tr_TextLine := tr_TextLine r;
     tr_AlternativeImage := tr_AlternativeImage r;
     tr_orientation := tr_orientation r;
     tr_primaryScript := tr_primaryScript r;
     tr_readingDirection := Some s;
     tr_textLineOrder := tr_textLineOrder r; tr_other := tr_other r |}.

Definition tr_set_textLineOrder (r : TextRegionType) (s : string)
  : TextRegionType :=
  {| tr_id := tr_id r; tr_Coords := tr_Coords r; tr_TextLine := tr_TextLine r;
     tr_AlternativeImage := tr_AlternativeImage r;
     tr_orientation := tr_orientation r;
     tr_primaryScript := tr_primaryScript r;
     tr_readingDirection := tr_readingDirection r;
     tr_textLineOrder := Some s; tr_other := tr_other r |}.

Definition tb_add_AlternativeImage (r : TableRegionType)
  (a : AlternativeImageType) : TableRegionType :=
  {| tb_id := tb_id r; tb_Coords := tb_Coords r;
     tb_AlternativeImage := tb_AlternativeImage r ++ [a];
     tb_orientation := tb_orientation r; tb_other := tb_other r |}.

Definition tb_set_orientation (r : TableRegionType) (a : Py.float)
  : TableRegionType :=
  {| tb_id := tb_id r; tb_Coords := tb_Coords r;
     tb_AlternativeImage := tb_AlternativeImage r;
     tb_orientation := Some a; tb_other := tb_other r |}.

End Page.

(* ===================================================================== *)
(** * The outside: images, engine, workspace *)
(* ===================================================================== *)

(** A bounding box [(left, top, right, bottom)]. *)
Definition BBox : Type := Z * Z * Z * Z.

(** The [{'x':, 'y':, 'w':, 'h':}] dicts of tesserocr and of common.py. *)
Record XYWH := { xy_x : Z; xy_y : Z; xy_w : Z; xy_h : Z }.

(** A Pillow image, named by how it was obtained: handed over by the
    workspace, the engine or a helper, or derived by [Image.crop] or
    [Image.rotate].  What can be observed of an image (size, bounding box
    of its non-zero pixels, metadata) is asked of the [External] interface. *)
Inductive Image :=
| Pixels (name : string)
| Cropped (i : Image) (box : BBox)
| Rotated (i : Image) (angle : Py.float) (expand : bool) (fillcolor : string).

(** [Image.crop(box)].  Pillow refuses a box whose right is less than its
    left, or whose lower is less than its upper, with a ValueError; any other
    box gives the cropped image. *)
Definition Image_crop (i : Image) (box : BBox) : Py.Exn + Image :=
  let '(left_, upper, right_, lower) := box in
  if right_ <? left_ then inl Py.ValueError
  else if lower <? upper then inl Py.ValueError
  else inr (Cropped i box).

(** tesserocr's enumerations *)
Inductive PSM :=
| OSD_ONLY | AUTO_OSD | AUTO_ONLY | AUTO | SINGLE_COLUMN
| SINGLE_BLOCK_VERT_TEXT | SINGLE_BLOCK | SINGLE_LINE | SINGLE_WORD
| CIRCLE_WORD | SINGLE_CHAR | SPARSE_TEXT | SPARSE_TEXT_OSD | RAW_LINE.
Inductive OEM := TESSERACT_ONLY | LSTM_ONLY | TESSERACT_LSTM_COMBINED | DEFAULT.
Inductive RIL := BLOCK | PARA | TEXTLINE | WORD | SYMBOL.
Inductive Orientation := PAGE_UP | PAGE_RIGHT | PAGE_DOWN | PAGE_LEFT.
Inductive WritingDirection :=
| WD_LEFT_TO_RIGHT | WD_RIGHT_TO_LEFT | WD_TOP_TO_BOTTOM.
Inductive TextlineOrder :=
| TO_LEFT_TO_RIGHT | TO_RIGHT_TO_LEFT | TO_TOP_TO_BOTTOM.

(** The engine instance: how it was created and what has been set on it. *)
Record TessBaseAPI := {
  ts_path : string;
  ts_lang : option string;
  ts_oem : option OEM;
  ts_psm : PSM;
  ts_variables : list (string * string);
  ts_image : option Image }.

Definition ts_SetVariable (t : TessBaseAPI) (name value : string) : TessBaseAPI :=
  {| ts_path := ts_path t; ts_lang := ts_lang t; ts_oem := ts_oem t;
     ts_psm := ts_psm t;
     ts_variables := ts_variables t ++ [(name, value)];
     ts_image := ts_image t |}.

Definition ts_SetImage (t : TessBaseAPI) (i : Image) : TessBaseAPI :=
  {| ts_path := ts_path t; ts_lang := ts_lang t; ts_oem := ts_oem t;
     ts_psm := ts_psm t; ts_variables := ts_variables t;
     ts_image := Some i |}.

Definition ts_SetPageSegMode (t : TessBaseAPI) (m : PSM) : TessBaseAPI :=
  {| ts_path := ts_path t; ts_lang := ts_lang t; ts_oem := ts_oem t;
     ts_psm := m; ts_variables := ts_variables t;
     ts_image := ts_image t |}.

(** One item of [GetComponentImages]: [(image, xywh, index, para)]. *)
Record Component := {
  c_image : Image; c_xywh : XYWH; c_index : Z; c_para : Z }.

(** The dict of [DetectOrientationScript]. *)
Record OSR := {
  orient_deg : Z; orient_conf : Py.float;
  script_name : string; script_conf : Py.float }.

(** The tuple of [layout.Orientation()]. *)
Record LayoutOrientation := {
  lo_orientation : Orientation;
  lo_writing_direction : WritingDirection;
  lo_textline_order : TextlineOrder;
  lo_deskew_angle : Py.float }.

(** A file of the workspace (an OcrdFile), also the arguments of
    [workspace.add_file]. *)
Record OcrdFile := {
  ID : string;
  pageId : option string;
  file_grp : string;
  mimetype : string;
  local_filename : string;
  content : string }.

(** What OcrdExif tells about an image. *)
Record Exif := { xResolution : Py.num; resolutionUnit : string }.

(** The segment handed to deskew's [_process_segment]. *)
Inductive Segment :=
| SegPage (p : Page.PageType)
| SegTextRegion (r : Page.TextRegionType)
| SegTableRegion (r : Page.TableRegionType).

(** Everything the three modules import and do not define.  Each function
    stands for the result of the call of that name; calls with an effect on
    the engine or the workspace are also recorded in the world below. *)
Class External := {
  (** Python *)
  str_of_float : Py.float -> string;
  (** PIL.Image *)
  width : Image -> Z;
  height : Image -> Z;
  getbbox : Image -> option BBox;
  info_dpi : Image -> option (Py.num * Py.num);
  (** tesserocr, on the instance as configured *)
  GetComponentImages : TessBaseAPI -> RIL -> bool -> bool -> list Component;
  DetectOrientationScript : TessBaseAPI -> option OSR;
  AnalyseLayout : TessBaseAPI -> option LayoutOrientation;
  (** ocrd, ocrd_models, ocrd_modelfactory, ocrd_utils *)
  download_file : OcrdFile -> OcrdFile;
  page_from_file : OcrdFile -> Page.PcGts;
  resolve_image_as_pil : string -> Image;
  OcrdExif : Image -> Exif;
  to_xml : Page.PcGts -> string;
  concat_padded : string -> Z -> string;
  points_from_xywh : XYWH -> string;
  membername_Orientation : Orientation -> string;
  membername_WritingDirection : WritingDirection -> string;
  membername_TextlineOrder : TextlineOrder -> string;
  MIMETYPE_PAGE : string;
  (** ocrd_tesserocr.config *)
  TESSDATA_PREFIX : string;
  (** ocrd_tesserocr.common *)
  bbox_from_points : string -> BBox;
  points_from_bbox : Z -> Z -> Z -> Z -> string;
  bbox_from_xywh : XYWH -> BBox;
  save_image_file : Image -> string -> option string -> string -> string;
  image_from_page_info : Page.PageType -> string -> Image * XYWH * Exif;
  image_from_page : Page.PageType -> Image -> string -> Image * XYWH;
  image_from_segment : Segment -> Image -> XYWH -> Image * XYWH;
  image_from_region : Page.TextRegionType -> Image -> XYWH -> Image * XYWH }.

(** ** The world *)

Inductive Level := DEBUG | INFO | WARNING | ERROR.

(** A log record: level, format string, arguments (formatted lazily). *)
Record LogRecord := { lr_level : Level; lr_msg : string; lr_args : list Py.val }.

(** Calls that act on the engine or on the workspace. *)
Inductive Call :=
| TessInit (t : TessBaseAPI)
| TessEnd
| TessSetVariable (name value : string)
| TessSetImage (i : Image)
| TessSetPageSegMode (m : PSM)
| TessGetComponentImages (level : RIL) (text_only raw_image : bool)
| TessDetectOrientationScript
| TessAnalyseLayout
| WsDownloadFile (f : OcrdFile)
| WsAddFile (f : OcrdFile)
| SaveImageFile (i : Image) (file_id : string) (page_id : option string)
                (grp : string).

Record World := {
  log : list LogRecord;
  calls : list Call;
  tessapi : TessBaseAPI }.

(** The processor object: [self]. [step0] is [self.ocrd_tool['steps'][0]]. *)
Record Processor := {
  parameter : list (string * Py.param);
  input_file_grp : string;
  output_file_grp : string;
  input_files : list OcrdFile;
  step0 : string }.

(** ** The monad: state that survives an exception *)

Definition M (A : Type) : Type := World -> World * (Py.Exn + A).

Definition ret {A} (a : A) : M A := fun w => (w, inr a).

Definition bind {A B} (m : M A) (k : A -> M B) : M B :=
  fun w =>
    match m w with
    | (w', inr a) => k a w'
    | (w', inl e) => (w', inl e)
    end.

Definition raise {A} (e : Py.Exn) : M A := fun w => (w, inl e).

Definition lift {A} (r : Py.Exn + A) : M A := fun w => (w, r).

Declare Scope monad_scope.
Delimit Scope monad_scope with monad.
Notation "x <- c1 ;; c2" := (bind c1 (fun x => c2))
  (at level 61, c1 at next level, right associativity) : monad_scope.
Notation "' pat <- c1 ;; c2" := (bind c1 (fun x => match x with pat => c2 end))
  (at level 61, pat pattern, c1 at next level, right associativity) : monad_scope.
Notation "c1 ;; c2" := (bind c1 (fun _ => c2))
  (at level 61, right associativity) : monad_scope.
Local Open Scope monad_scope.

Definition LOG (l : Level) (msg : string) (args : list Py.val) : M unit :=
  fun w =>
    ({| log := log w ++ [{| lr_level := l; lr_msg := msg; lr_args := args |}];
        calls := calls w; tessapi := tessapi w |}, inr tt).

Definition call (c : Call) : M unit :=
  fun w => ({| log := log w; calls := calls w ++ [c]; tessapi := tessapi w |},
            inr tt).

Definition get_tessapi : M TessBaseAPI := fun w => (w, inr (tessapi w)).

Definition set_tessapi (t : TessBaseAPI) : M unit :=
  fun w => ({| log := log w; calls := calls w; tessapi := t |}, inr tt).

(** [for x in l: s = body(x, s)] *)
Fixpoint for_each {A S} (l : list A) (s : S) (body : A -> S -> M S) : M S :=
  match l with
  | [] => ret s
  | x :: l' => s' <- body x s ;; for_each l' s' body
  end.

(** [for (n, x) in enumerate(l)], counting from [n] *)
Fixpoint for_enumerate {A S} (n : Z) (l : list A) (s : S)
    (body : Z -> A -> S -> M S) : M S :=
  match l with
  | [] => ret s
  | x :: l' => s' <- body n x s ;; for_enumerate (n + 1) l' s' body
  end.

(** [for x in l] where the body mutates [x] in place: each element is
    replaced by what the body made of it *)
Fixpoint for_update {A} (l : list A) (body : A -> M A) : M (list A) :=
  match l with
  | [] => ret []
  | x :: l' => x' <- body x ;; l'' <- for_update l' body ;; ret (x' :: l'')
  end.

(** [m] only makes calls that satisfy [P]. *)
Definition emits {A} (P : Call -> Prop) (m : M A) : Prop :=
  forall w, exists l, calls (fst (m w)) = (calls w ++ l)%list /\ Forall P l.

(** [with PyTessBaseAPI(...) as tessapi: body]: the instance is ended on the
    way out, whether the body returns or raises. *)
Definition with_PyTessBaseAPI {A} (t : TessBaseAPI) (body : M A) : M A :=
  fun w =>
    let '(w1, _) := (call (TessInit t) ;; set_tessapi t) w in
    let '(w2, r) := body w1 in
    let '(w3, _) := call TessEnd w2 in
    (w3, r).

(** *** The engine's methods *)

Definition SetVariable (name value : string) : M unit :=
  t <- get_tessapi ;;
  call (TessSetVariable name value) ;;
  set_tessapi (ts_SetVariable t name value).

Definition SetImage (i : Image) : M unit :=
  t <- get_tessapi ;;
  call (TessSetImage i) ;;
  set_tessapi (ts_SetImage t i).

Definition SetPageSegMode (m : PSM) : M unit :=
  t <- get_tessapi ;;
  call (TessSetPageSegMode m) ;;
  set_tessapi (ts_SetPageSegMode t m).

(** *** Python helpers in the monad *)

Definition num_truediv (a b : Py.num) : M Py.float := lift (Py.truediv a b).

Definition str_of_num `{External} (n : Py.num) : string :=
  match n with Py.NInt z => Py.str_of_Z z | Py.NFloat f => str_of_float f end.

(** [n != 1] *)
Definition num_ne_1 (n : Py.num) : bool := Py.Z_ne_num 1 n.

Fixpoint getitem (d : list (string * Py.param)) (k : string) : M Py.param :=
  match d with
  | [] => raise (Py.KeyError k)
  | (k', v) :: d' => if String.eqb k' k then ret v else getitem d' k
  end.

(** The MetadataItem every processor adds first. *)
Definition processing_step (self : Processor) (TOOL : string)
  : Page.MetadataItemType :=
  {| Page.mi_type := "processingStep";
     Page.mi_name := step0 self;
     Page.mi_value := TOOL;
     Page.mi_Labels :=
       [ {| Page.Label :=
              map (fun kv => {| Page.label_type := fst kv;
                                Page.label_value := snd kv |})
                  (parameter self) |} ] |}.

(** The document of an input file, with the processing step added to its
    metadata (lines 58-69 of crop.py, the same in the other two). *)
Definition open_page `{External} (self : Processor) (TOOL : string)
    (input_file : OcrdFile) : Page.PcGts :=
  Page.add_MetadataItem (page_from_file (download_file input_file))
                        (processing_step self TOOL).

(** The head of each iteration: log the file, fetch and open it. *)
Definition fetch `{External} (self : Processor) (TOOL : string) (n : Z)
    (input_file : OcrdFile) : M Page.PcGts :=
  let page_id := Py.str_or (pageId input_file) (ID input_file) in
  LOG INFO "INPUT FILE %i / %s" [Py.VInt n; Py.VStr page_id] ;;
  call (WsDownloadFile input_file) ;;
  ret (open_page self TOOL input_file).

(** The arguments of [workspace.add_file] at the end of each iteration. *)
Definition output_file `{External} (self : Processor) (n : Z)
    (input_file : OcrdFile) (pcgts : Page.PcGts) : OcrdFile :=
  let file_id := Py.replace (ID input_file) (input_file_grp self)
                            (output_file_grp self) in
  let file_id := if String.eqb file_id (ID input_file)
                 then concat_padded (output_file_grp self) n
                 else file_id in
  {| ID := file_id;
     file_grp := output_file_grp self;
     pageId := pageId input_file;
     mimetype := MIMETYPE_PAGE;
     local_filename :=
       Py.os_path_join (output_file_grp self) (file_id ++ ".xml");
     content := to_xml pcgts |}.

Definition add_output_file `{External} (self : Processor) (n : Z)
    (input_file : OcrdFile) (pcgts : Page.PcGts) : M unit :=
  call (WsAddFile (output_file self n input_file pcgts)).

(* ===================================================================== *)
(** * crop.py *)
(* ===================================================================== *)

Module Crop.
Section Crop.
Context `{External}.

Definition TOOL : string := "ocrd-tesserocr-crop".
Definition FILEGRP_IMG : string := "OCR-D-IMG-CROP".

(** The four running values [min_x], [min_y], [max_x], [max_y]. *)
Record Extent := { min_x : Z; min_y : Z; max_x : Z; max_y : Z }.

Definition update (e : Extent) (b : BBox) : Extent :=
  let '(left_, top, right_, bottom) := b in
  {| min_x := Z.min (min_x e) left_; min_y := Z.min (min_y e) top;
     max_x := Z.max (max_x e) right_; max_y := Z.max (max_y e) bottom |}.

(** [min_x < max_x and min_y < max_y] *)
Definition valid (e : Extent) : bool :=
  (min_x e <? max_x e) && (min_y e <? max_y e).

(** Lines 76-89: the extent of the TextRegions already in the page.  The
    local variable [image] is only assigned in the loop over the engine's
    blocks further down (line 116), so [image] is what an earlier input
    file left there, if any. *)
Definition existing_regions_extent (image : option Image)
    (regions : list Page.TextRegionType) : M unit :=
  match regions with
  | [] => ret tt
  | _ :: _ =>
      match image with
      | None => raise (Py.UnboundLocalError "image")
      | Some image =>
          e <- for_each regions
                 {| min_x := width image; min_y := height image;
                    max_x := 0; max_y := 0 |}
                 (fun region e =>
                    ret (update e (bbox_from_points (Page.tr_Coords region)))) ;;
          LOG WARNING "Ignoring extent from existing TextRegions: %i:%i,%i:%i"
              [Py.VInt (min_x e); Py.VInt (max_x e);
               Py.VInt (min_y e); Py.VInt (max_y e)]
      end
  end.

(** Lines 93-100: [zoom], and the dpi told to the engine. *)
Definition resolution_zoom (page_image_info : Exif) : M Py.num :=
  if num_ne_1 (xResolution page_image_info) then
    let dpi := xResolution page_image_info in
    dpi <- (if String.eqb (resolutionUnit page_image_info) "cm"
            then z <- lift (Py.round (Py.fmul (Py.to_float dpi) Py.f2_54)) ;;
                 ret (Py.NInt z)
            else ret dpi) ;;
    SetVariable "user_defined_dpi" (str_of_num dpi) ;;
    zoom <- num_truediv (Py.NInt 300) dpi ;;
    ret (Py.NFloat zoom)
  else ret (Py.NInt 1).

(** Lines 116-144: one detected block.  The state is the local [image]
    and the running extent. *)
Definition block_step (zoom : Py.num) (component : Component)
    (st : option Image * Extent) : M (option Image * Extent) :=
  let image := c_image component in
  let xywh := c_xywh component in
  let index := c_index component in
  let e := snd st in
  let ID_ := "region" ++ Py.fmt_04d index in
  let '(left_, top, right_, bottom) := bbox_from_xywh xywh in
  LOG DEBUG "Detected text region '%s': %i:%i,%i:%i"
      [Py.VStr ID_; Py.VInt left_; Py.VInt right_; Py.VInt top; Py.VInt bottom] ;;
  match getbbox image with
  | None =>
      LOG DEBUG "Ignoring region '%s' because its binarization is empty"
          [Py.VStr ID_] ;;
      ret (Some image, e)
  | Some (b0, b1, b2, b3) =>
      let width := b2 - b0 in
      t <- num_truediv (Py.NInt 25) zoom ;;
      if Py.Z_lt_float width t then
        LOG DEBUG "Ignoring region '%s' because its width is too small (%d)"
            [Py.VStr ID_; Py.VInt width] ;;
        ret (Some image, e)
      else
        let height := b3 - b1 in
        t <- num_truediv (Py.NInt 25) zoom ;;
        if Py.Z_lt_float height t then
          LOG DEBUG "Ignoring region '%s' because its height is too small (%d)"
              [Py.VStr ID_; Py.VInt height] ;;
          ret (Some image, e)
        else
          let e := update e (left_, top, right_, bottom) in
          LOG DEBUG "Updated page border: %i:%i,%i:%i"
              [Py.VInt (min_x e); Py.VInt (max_x e);
               Py.VInt (min_y e); Py.VInt (max_y e)] ;;
          ret (Some image, e)
  end.

(** Lines 109-144: the extent over all blocks of the page image. *)
Definition detect_extent (zoom : Py.num) (page_image : Image)
    (image : option Image) : M (option Image * Extent) :=
  t <- get_tessapi ;;
  call (TessGetComponentImages BLOCK true false) ;;
  for_each (GetComponentImages t BLOCK true false)
    (image, {| min_x := width page_image; min_y := height page_image;
               max_x := 0; max_y := 0 |})
    (block_step zoom).

(** The padded border of lines 151-154. *)
Definition padded (e : Extent) (padding : Z) (page_image : Image) : Extent :=
  {| min_x := Z.max (min_x e - padding) 0;
     max_x := Z.min (max_x e + padding) (width page_image);
     min_y := Z.max (min_y e - padding) 0;
     max_y := Z.min (max_y e + padding) (height page_image) |}.

(** Lines 149-174: annotate the border and the cropped image, or log.  The
    padded box is handed to [Image.crop] as it is, which raises on a box
    that is inverted. *)
Definition set_border (self : Processor) (padding : Py.param) (n : Z)
    (input_file : OcrdFile) (page_id : string) (page : Page.PageType)
    (page_image : Image) (e : Extent) : M Page.PageType :=
  if valid e then
    padding <- lift (Py.param_int padding) ;;
    let e := padded e padding page_image in
    LOG DEBUG "Padded page border: %i:%i,%i:%i"
        [Py.VInt (min_x e); Py.VInt (max_x e);
         Py.VInt (min_y e); Py.VInt (max_y e)] ;;
    let page := Page.set_Border page
                  (points_from_bbox (min_x e) (min_y e) (max_x e) (max_y e)) in
    page_image <- lift (Image_crop page_image
                          (min_x e, min_y e, max_x e, max_y e)) ;;
    let file_id := Py.replace (ID input_file) (input_file_grp self) FILEGRP_IMG in
    let file_id := if String.eqb file_id (ID input_file)
                   then concat_padded FILEGRP_IMG n else file_id in
    call (SaveImageFile page_image file_id (Some page_id) FILEGRP_IMG) ;;
    let file_path := save_image_file page_image file_id (Some page_id)
                                     FILEGRP_IMG in
    ret (Page.pg_add_AlternativeImage page
           {| Page.filename := file_path; Page.comments := "cropped" |})
  else
    LOG ERROR "Cannot find valid extent for page '%s'" [Py.VStr page_id] ;;
    ret page.

(** Lines 70-144: from the opened document to the extent of the blocks of
    its page.  Returns the document, the page image and the state of the
    block loop. *)
Definition detect_page (image : option Image) (pcgts : Page.PcGts)
    : M (Page.PcGts * Image * (option Image * Extent)) :=
  let page := Page.Page pcgts in
  match Page.Border page with
  | Some points =>
      let '(left_, top, right_, bottom) := bbox_from_points points in
      LOG WARNING "Overwriting existing Border: %i:%i,%i:%i"
          [Py.VInt left_; Py.VInt top; Py.VInt right_; Py.VInt bottom]
  | None => ret tt
  end ;;
  existing_regions_extent image (Page.TextRegion page) ;;
  let page_image := resolve_image_as_pil (Page.imageFilename page) in
  let page_image_info := OcrdExif page_image in
  zoom <- resolution_zoom page_image_info ;;
  LOG DEBUG "Cropping with tesseract" [] ;;
  SetImage page_image ;;
  SetPageSegMode SPARSE_TEXT ;;
  st <- detect_extent zoom page_image image ;;
  ret (pcgts, page_image, st).

(** Lines 56-144: the same from the input file. *)
Definition detect (self : Processor) (n : Z) (input_file : OcrdFile)
    (image : option Image) : M (Page.PcGts * Image * (option Image * Extent)) :=
  pcgts <- fetch self TOOL n input_file ;;
  detect_page image pcgts.

(** Lines 70-174: the document as it will be serialised, and the local
    [image] as the iteration leaves it. *)
Definition annotate_page (self : Processor) (padding : Py.param) (n : Z)
    (input_file : OcrdFile) (image : option Image) (pcgts : Page.PcGts)
    : M (option Image * Page.PcGts) :=
  d <- detect_page image pcgts ;;
  let '(pcgts, page_image, st) := d in
  let page_id := Py.str_or (pageId input_file) (ID input_file) in
  page <- set_border self padding n input_file page_id (Page.Page pcgts)
            page_image (snd st) ;;
  ret (fst st, Page.set_Page pcgts page).

(** Lines 56-174: the same from the input file. *)
Definition annotate (self : Processor) (padding : Py.param) (n : Z)
    (input_file : OcrdFile) (image : option Image)
    : M (option Image * Page.PcGts) :=
  pcgts <- fetch self TOOL n input_file ;;
  annotate_page self padding n input_file image pcgts.

(** Lines 56-188: one iteration of the loop over the input files.  The
    state carried from one iteration to the next is the local [image]. *)
Definition process_file (self : Processor) (padding : Py.param) (n : Z)
    (input_file : OcrdFile) (image : option Image) : M (option Image) :=
  r <- annotate self padding n input_file image ;;
  add_output_file self n input_file (snd r) ;;
  ret (fst r).

(** The engine instance of line 49. *)
Definition engine : TessBaseAPI :=
  {| ts_path := TESSDATA_PREFIX; ts_lang := None; ts_oem := None;
     ts_psm := AUTO; ts_variables := []; ts_image := None |}.

(** [TesserocrCrop.process] *)
Definition process (self : Processor) : M unit :=
  padding <- getitem (parameter self) "padding" ;;
  with_PyTessBaseAPI engine
    (SetVariable "textord_tabfind_find_tables" "0" ;;
     _ <- for_enumerate 0 (input_files self) None (process_file self padding) ;;
     ret tt).

End Crop.
End Crop.

(* ===================================================================== *)
(** * deskew.py *)
(* ===================================================================== *)

Module Deskew.
Section Deskew.
Context `{External}.

Definition TOOL : string := "ocrd-tesserocr-deskew".
Definition FILEGRP_IMG : string := "OCR-D-IMG-DESKEW".

(** [isinstance(segment, PageType)] *)
Definition is_PageType (s : Segment) : bool :=
  match s with SegPage _ => true | _ => false end.

(** [isinstance(segment, (TextRegionType, PageType))] *)
Definition is_TextRegion_or_Page (s : Segment) : bool :=
  match s with SegPage _ | SegTextRegion _ => true | SegTableRegion _ => false end.

Definition get_AlternativeImage (s : Segment) : list Page.AlternativeImageType :=
  match s with
  | SegPage p => Page.pg_AlternativeImage p
  | SegTextRegion r => Page.tr_AlternativeImage r
  | SegTableRegion r => Page.tb_AlternativeImage r
  end.

Definition add_AlternativeImage (s : Segment) (a : Page.AlternativeImageType)
  : Segment :=
  match s with
  | SegPage p => SegPage (Page.pg_add_AlternativeImage p a)
  | SegTextRegion r => SegTextRegion (Page.tr_add_AlternativeImage r a)
  | SegTableRegion r => SegTableRegion (Page.tb_add_AlternativeImage r a)
  end.

Definition set_orientation (s : Segment) (a : Py.float) : Segment :=
  match s with
  | SegPage p => SegPage (Page.pg_set_orientation p a)
  | SegTextRegion r => SegTextRegion (Page.tr_set_orientation r a)
  | SegTableRegion r => SegTableRegion (Page.tb_set_orientation r a)
  end.

(** The three setters below are only called on a page or a text region. *)
Definition set_primaryScript (s : Segment) (v : string) : Segment :=
  match s with
  | SegPage p => SegPage (Page.pg_set_primaryScript p v)
  | SegTextRegion r => SegTextRegion (Page.tr_set_primaryScript r v)
  | SegTableRegion _ => s
  end.

Definition set_readingDirection (s : Segment) (v : string) : Segment :=
  match s with
  | SegPage p => SegPage (Page.pg_set_readingDirection p v)
  | SegTextRegion r => SegTextRegion (Page.tr_set_readingDirection r v)
  | SegTableRegion _ => s
  end.

Definition set_textLineOrder (s : Segment) (v : string) : Segment :=
  match s with
  | SegPage p => SegPage (Page.pg_set_textLineOrder p v)
  | SegTextRegion r => SegTextRegion (Page.tr_set_textLineOrder r v)
  | SegTableRegion _ => s
  end.

(** [d.get(k, default)] on a dict written as a literal *)
Fixpoint dict_get (d : list (string * string)) (k default : string) : string :=
  match d with
  | [] => default
  | (k', v) :: d' => if String.eqb k' k then v else dict_get d' k default
  end.

(** The dict of lines 159-201. *)
Definition scripts : list (string * string) :=
  [ ("Arabic", "Arab - Arabic");
    ("Armenian", "Armn - Armenian");
    ("Bengali", "Armn - Armenian");
    ("Canadian_Aboriginal", "Cans - Unified Canadian Aboriginal Syllabics");
    ("Cherokee", "Cher - Cherokee");
    ("Common", "Latn - Latin");
    ("Cyrillic", "Cyrl - Cyrillic");
    ("Devanagari", "Deva - Devanagari (Nagari)");
    ("Ethiopic", "Ethi - Ethiopic");
    ("Fraktur", "Latf - Latin (Fraktur variant)");
    ("Georgian", "Geor - Georgian (Mkhedruli)");
    ("Greek", "Grek - Greek");
    ("Gujarati", "Gujr - Gujarati");
    ("Gurmukhi", "Guru - Gurmukhi");
    ("Han", "Hant - Han (Traditional variant)");
    ("Hangul", "Hang - Hangul");
    ("Hangul_vert", "Hang - Hangul");
    ("HanS", "Hans - Han (Simplified variant)");
    ("HanS_vert", "Hans - Han (Simplified variant)");
    ("HanT", "Hant - Han (Traditional variant)");
    ("HanT_vert", "Hant - Han (Traditional variant)");
    ("Hebrew", "Hebr - Hebrew");
    ("Hiragana", "Jpan - Japanese");
    ("Japanese", "Jpan - Japanese");
    ("Japanese_vert", "Jpan - Japanese");
    ("Kannada", "Knda - Kannada");
    ("Katakana", "Jpan - Japanese");
    ("Khmer", "Khmr - Khmer");
    ("Lao", "Laoo - Lao");
    ("Latin", "Latn - Latin");
    ("Malayalam", "Mlym - Malayalam");
    ("Myanmar", "Mymr - Myanmar (Burmese)");
    ("Oriya", "Orya - Oriya");
    ("Sinhala", "Sinh - Sinhala");
    ("Syriac", "Syrc - Syriac");
    ("Tamil", "Taml - Tamil");
    ("Telugu", "Telu - Telugu");
    ("Thaana", "Thaa - Thaana");
    ("Thai", "Thai - Thai");
    ("Tibetan", "Tibt - Tibetan");
    ("Vietnamese", "Tavt - Tai Viet") ].

Definition orient_failed : string :=
  "orientation detection failed (Tesseract probably compiled without legacy OEM, or osd model not installed)".
Definition script_failed : string :=
  "script detection failed (Tesseract probably compiled without legacy OEM, or osd model not installed)".

(** [assert cond, msg] *)
Definition assert (cond : bool) (msg : string) : M unit :=
  if cond then ret tt else raise (Py.AssertionError msg).

(** Lines 126-130 *)
Definition initial_comments (segment : Segment) (xywh : XYWH) : string :=
  if is_PageType segment && (xy_x xywh =? 0) && (xy_y xywh =? 0)
  then "" else "cropped".

(** Lines 137-203: orientation and script detection.  The state is
    [(segment, comments, angle)]. *)
Definition apply_osd (where_ : string) (osr : option OSR)
    (st : Segment * string * Py.num) : M (Segment * string * Py.num) :=
  let '(segment, comments, angle) := st in
  match osr with
  | Some osr =>
      assert (negb (Py.isnan (orient_conf osr))) orient_failed ;;
      ca <- (if Py.float_lt_Z (orient_conf osr) 10 then
               LOG INFO "ignoring OSD orientation result %d° due to low confidence %.0f in %s"
                   [Py.VInt (orient_deg osr); Py.VFloat (orient_conf osr);
                    Py.VStr where_] ;;
               ret (comments, angle)
             else
               LOG INFO "applying OSD orientation result %d° with high confidence %.0f in %s"
                   [Py.VInt (orient_deg osr); Py.VFloat (orient_conf osr);
                    Py.VStr where_] ;;
               let angle := Py.NInt (orient_deg osr) in
               ret (if Py.num_truth angle
                    then comments ++ ",rotated-" ++ Py.str_of_Z (orient_deg osr)
                    else comments, angle)) ;;
      assert (negb (Py.isnan (script_conf osr))) script_failed ;;
      segment <- (if Py.float_lt_Z (script_conf osr) 10 then
                    LOG INFO ("ignoring OSD script result " ++ Py.dq ++ "%s"
                              ++ Py.dq ++ " due to low confidence %.0f in %s")
                        [Py.VStr (script_name osr); Py.VFloat (script_conf osr);
                         Py.VStr where_] ;;
                    ret segment
                  else
                    LOG INFO ("applying OSD script  result " ++ Py.dq ++ "%s"
                              ++ Py.dq ++ " with high confidence %.0f in %s")
                        [Py.VStr (script_name osr); Py.VFloat (script_conf osr);
                         Py.VStr where_] ;;
                    ret (if is_TextRegion_or_Page segment
                         then set_primaryScript segment
                                (dict_get scripts (script_name osr) "Latn - Latin")
                         else segment)) ;;
      ret (segment, fst ca, snd ca)
  | None =>
      LOG WARNING "no OSD result in %s" [Py.VStr where_] ;;
      ret (segment, comments, angle)
  end.

(** Lines 219-223 *)
Definition angle2_of (o : Orientation) : Z :=
  match o with
  | PAGE_RIGHT => 270
  | PAGE_DOWN => 180
  | PAGE_LEFT => 90
  | PAGE_UP => 0
  end.

Definition readingDirection_of (d : WritingDirection) : string :=
  match d with
  | WD_LEFT_TO_RIGHT => "left-to-right"
  | WD_RIGHT_TO_LEFT => "right-to-left"
  | WD_TOP_TO_BOTTOM => "top-to-bottom"
  end.

Definition textLineOrder_of (d : TextlineOrder) : string :=
  match d with
  | TO_LEFT_TO_RIGHT => "left-to-right"
  | TO_RIGHT_TO_LEFT => "right-to-left"
  | TO_TOP_TO_BOTTOM => "top-to-bottom"
  end.

(** Line 210: [deskew_angle *= - 180 / math.pi] *)
Definition degrees (deskew_angle : Py.float) : Py.float :=
  Py.fmul deskew_angle (Py.fdiv (Py.float_of_Z (-180)) Py.pi).

(** [180 - (180 - angle) % 360] *)
Definition normalize_angle (angle : Py.float) : M Py.float :=
  m <- lift (Py.fmod (Py.fsub (Py.float_of_Z 180) angle) (Py.float_of_Z 360)) ;;
  ret (Py.fsub (Py.float_of_Z 180) m).

(** Lines 207-266: layout analysis.  The state is
    [(segment, comments, image)]. *)
Definition apply_layout (where_ : string) (layout : option LayoutOrientation)
    (angle : Py.num) (st : Segment * string * Image)
    : M (Segment * string * Image) :=
  let '(segment, comments, image) := st in
  match layout with
  | Some lo =>
      let orientation := lo_orientation lo in
      let writing_direction := lo_writing_direction lo in
      let textline_order := lo_textline_order lo in
      let deskew_angle := degrees (lo_deskew_angle lo) in
      i <- lift (Py.int_of_float deskew_angle) ;;
      let comments := if i =? 0 then comments else comments ++ ",deskewed" in
      LOG INFO "orientation/deskewing for %s: %s / %s / %s / %.3f°"
          [Py.VStr where_;
           Py.VStr (membername_Orientation orientation);
           Py.VStr (membername_WritingDirection writing_direction);
           Py.VStr (membername_TextlineOrder textline_order);
           Py.VFloat deskew_angle] ;;
      let angle2 := angle2_of orientation in
      (if Py.Z_ne_num angle2 angle then
         LOG WARNING "inconsistent angles from layout analysis (%d) and orientation detection (%d) in %s"
             [Py.VInt angle2; Py.val_of_num angle; Py.VStr where_]
       else ret tt) ;;
      let angle := Py.fadd (Py.to_float angle) deskew_angle in
      si <- (if negb (Py.fis_zero angle) then
               LOG DEBUG "About to rotate %s by %.2f° clockwise"
                   [Py.VStr where_; Py.VFloat angle] ;;
               let image := Rotated image (Py.fneg angle) true "white" in
               angle <- normalize_angle angle ;;
               ret (set_orientation segment angle, image)
             else ret (segment, image)) ;;
      let segment := fst si in
      let segment :=
        if is_TextRegion_or_Page segment
        then set_textLineOrder
               (set_readingDirection segment
                  (readingDirection_of writing_direction))
               (textLineOrder_of textline_order)
        else segment in
      ret (segment, comments, snd si)
  | None => ret (segment, comments, image)
  end.

(** [TesserocrDeskew._process_segment] *)
Definition _process_segment (segment : Segment) (image : Image) (xywh : XYWH)
    (where_ : string) (page_id : option string) (file_id : string)
    : M Segment :=
  let comments := initial_comments segment xywh in
  let angle := Py.NFloat (S754_zero false) in
  SetImage image ;;
  t <- get_tessapi ;;
  call TessDetectOrientationScript ;;
  sca <- apply_osd where_ (DetectOrientationScript t) (segment, comments, angle) ;;
  let '(segment, comments, angle) := sca in
  t <- get_tessapi ;;
  call TessAnalyseLayout ;;
  sci <- apply_layout where_ (AnalyseLayout t) angle (segment, comments, image) ;;
  let '(segment, comments, image) := sci in
  call (SaveImageFile image file_id page_id FILEGRP_IMG) ;;
  let file_path := save_image_file image file_id page_id FILEGRP_IMG in
  ret (add_AlternativeImage segment
         {| Page.filename := file_path; Page.comments := comments |}).

(** Lines 104-109 on a text region and on a table region *)
Definition process_text_region (page_image : Image) (page_xywh : XYWH)
    (input_file : OcrdFile) (file_id : string) (region : Page.TextRegionType)
    : M Page.TextRegionType :=
  let '(region_image, region_xywh) :=
    image_from_segment (SegTextRegion region) page_image page_xywh in
  s <- _process_segment (SegTextRegion region) region_image region_xywh
         ("region '" ++ Page.tr_id region ++ "'") (pageId input_file)
         (file_id ++ "_" ++ Page.tr_id region) ;;
  ret (match s with SegTextRegion r => r | _ => region end).

Definition process_table_region (page_image : Image) (page_xywh : XYWH)
    (input_file : OcrdFile) (file_id : string) (region : Page.TableRegionType)
    : M Page.TableRegionType :=
  let '(region_image, region_xywh) :=
    image_from_segment (SegTableRegion region) page_image page_xywh in
  s <- _process_segment (SegTableRegion region) region_image region_xywh
         ("region '" ++ Page.tb_id region ++ "'") (pageId input_file)
         (file_id ++ "_" ++ Page.tb_id region) ;;
  ret (match s with SegTableRegion r => r | _ => region end).

(** Lines 96-109: the page, or its text regions and then its table regions *)
Definition process_page (oplevel : Py.param) (input_file : OcrdFile)
    (page_id file_id : string) (page : Page.PageType)
    (page_image : Image) (page_xywh : XYWH) : M Page.PageType :=
  if Py.param_eq_str oplevel "page" then
    s <- _process_segment (SegPage page) page_image page_xywh
           ("page '" ++ page_id ++ "'") (pageId input_file) file_id ;;
    ret (match s with SegPage p => p | _ => page end)
  else
    match Page.TextRegion page, Page.TableRegion page with
    | [], [] => LOG WARNING "Page '%s' contains no text regions" [Py.VStr page_id]
    | _, _ => ret tt
    end ;;
    texts <- for_update (Page.TextRegion page)
               (process_text_region page_image page_xywh input_file file_id) ;;
    tables <- for_update (Page.TableRegion page)
                (process_table_region page_image page_xywh input_file file_id) ;;
    ret (Page.set_TableRegion (Page.set_TextRegion page texts) tables).

(** Lines 86-109: the document as it will be serialised *)
Definition annotate_page (oplevel : Py.param) (input_file : OcrdFile)
    (file_id : string) (pcgts : Page.PcGts) : M Page.PcGts :=
  let page_id := Py.str_or (pageId input_file) (ID input_file) in
  let page := Page.Page pcgts in
  let '(page_image, page_xywh, page_image_info) :=
    image_from_page_info page page_id in
  (if num_ne_1 (xResolution page_image_info) then
     let dpi := xResolution page_image_info in
     dpi <- (if String.eqb (resolutionUnit page_image_info) "cm"
             then z <- lift (Py.round (Py.fmul (Py.to_float dpi) Py.f2_54)) ;;
                  ret (Py.NInt z)
             else ret dpi) ;;
     SetVariable "user_defined_dpi" (str_of_num dpi)
   else ret tt) ;;
  LOG INFO "Deskewing on '%s' level in page '%s'"
      [Py.val_of_param oplevel; Py.VStr page_id] ;;
  page <- process_page oplevel input_file page_id file_id page
            page_image page_xywh ;;
  ret (Page.set_Page pcgts page).

(** Lines 71-109: the same from the input file *)
Definition annotate (self : Processor) (oplevel : Py.param) (n : Z)
    (input_file : OcrdFile) : M Page.PcGts :=
  let file_id := Py.replace (ID input_file) (input_file_grp self) FILEGRP_IMG in
  pcgts <- fetch self TOOL n input_file ;;
  annotate_page oplevel input_file file_id pcgts.

(** Lines 71-123: one iteration of the loop over the input files *)
Definition process_file (self : Processor) (oplevel : Py.param) (n : Z)
    (input_file : OcrdFile) (_ : unit) : M unit :=
  pcgts <- annotate self oplevel n input_file ;;
  add_output_file self n input_file pcgts.

(** The engine instance of lines 64-69. *)
Definition engine : TessBaseAPI :=
  {| ts_path := TESSDATA_PREFIX; ts_lang := Some "osd";
     ts_oem := Some TESSERACT_LSTM_COMBINED;
     ts_psm := AUTO_OSD; ts_variables := []; ts_image := None |}.

(** [TesserocrDeskew.process] *)
Definition process (self : Processor) : M unit :=
  oplevel <- getitem (parameter self) "operation_level" ;;
  with_PyTessBaseAPI engine
    (for_enumerate 0 (input_files self) tt (process_file self oplevel)).

End Deskew.
End Deskew.

(* ===================================================================== *)
(** * segment_line.py *)
(* ===================================================================== *)

Module SegmentLine.
Section SegmentLine.
Context `{External}.

Definition TOOL : string := "ocrd-tesserocr-segment-line".

(** Lines 94-95: the line's box moved by the region's offset *)
Definition translate (line_xywh region_xywh : XYWH) : XYWH :=
  {| xy_x := xy_x line_xywh + xy_x region_xywh;
     xy_y := xy_y line_xywh + xy_y region_xywh;
     xy_w := xy_w line_xywh;
     xy_h := xy_h line_xywh |}.

(** Lines 92-98: one detected line *)
Definition line_step (region_xywh : XYWH) (line_no : Z) (component : Component)
    (region : Page.TextRegionType) : M Page.TextRegionType :=
  let line_id := Page.tr_id region ++ "_line" ++ Py.fmt_04d line_no in
  let line_xywh := c_xywh component in
  let line_xywh := translate line_xywh region_xywh in
  let line_points := points_from_xywh line_xywh in
  ret (Page.tr_add_TextLine region
         {| Page.tl_id := line_id; Page.tl_Coords := line_points;
            Page.tl_other := "" |}).

(** Lines 81-86: what happens to the lines a region already has *)
Definition clear_lines (overwrite_lines : Py.param)
    (region : Page.TextRegionType) : M Page.TextRegionType :=
  match Page.tr_TextLine region with
  | _ :: _ =>
      if Py.param_truth overwrite_lines then
        LOG INFO ("removing existing TextLines in region " ++ Py.dq ++ "%s" ++ Py.dq)
            [Py.VStr (Page.tr_id region)] ;;
        ret (Page.tr_set_TextLine region [])
      else
        LOG WARNING ("keeping existing TextLines in region " ++ Py.dq ++ "%s" ++ Py.dq)
            [Py.VStr (Page.tr_id region)] ;;
        ret region
  | [] => ret region
  end.

(** Lines 81-98: one text region *)
Definition process_region (overwrite_lines : Py.param) (page_image : Image)
    (page_xywh : XYWH) (region : Page.TextRegionType)
    : M Page.TextRegionType :=
  region <- clear_lines overwrite_lines region ;;
  LOG DEBUG "Detecting lines in region '%s'" [Py.VStr (Page.tr_id region)] ;;
  let '(region_image, region_xywh) :=
    image_from_region region page_image page_xywh in
  SetImage region_image ;;
  t <- get_tessapi ;;
  call (TessGetComponentImages TEXTLINE true true) ;;
  for_enumerate 0 (GetComponentImages t TEXTLINE true true) region
    (line_step region_xywh).

(** Lines 72-98: the document as it will be serialised *)
Definition annotate_page (overwrite_lines : Py.param) (input_file : OcrdFile)
    (pcgts : Page.PcGts) : M Page.PcGts :=
  let page_id := Py.str_or (pageId input_file) (ID input_file) in
  let page := Page.Page pcgts in
  let page_image := resolve_image_as_pil (Page.imageFilename page) in
  let dpi := match info_dpi page_image with
             | Some d => fst d
             | None => Py.NInt 0
             end in
  (if Py.num_truth dpi then SetVariable "user_defined_dpi" (str_of_num dpi)
   else ret tt) ;;
  let '(page_image, page_xywh) := image_from_page page page_image page_id in
  regions <- for_update (Page.TextRegion page)
               (process_region overwrite_lines page_image page_xywh) ;;
  ret (Page.set_Page pcgts (Page.set_TextRegion page regions)).

(** Lines 58-98: the same from the input file *)
Definition annotate (self : Processor) (overwrite_lines : Py.param) (n : Z)
    (input_file : OcrdFile) : M Page.PcGts :=
  pcgts <- fetch self TOOL n input_file ;;
  annotate_page overwrite_lines input_file pcgts.

(** Lines 58-112: one iteration of the loop over the input files *)
Definition process_file (self : Processor) (overwrite_lines : Py.param) (n : Z)
    (input_file : OcrdFile) (_ : unit) : M unit :=
  pcgts <- annotate self overwrite_lines n input_file ;;
  add_output_file self n input_file pcgts.

(** The engine instance of lines 53-56. *)
Definition engine : TessBaseAPI :=
  {| ts_path := TESSDATA_PREFIX; ts_lang := None; ts_oem := None;
     ts_psm := SINGLE_BLOCK; ts_variables := []; ts_image := None |}.

(** [TesserocrSegmentLine.process] *)
Definition process (self : Processor) : M unit :=
  overwrite_lines <- getitem (parameter self) "overwrite_lines" ;;
  with_PyTessBaseAPI engine
    (for_enumerate 0 (input_files self) tt (process_file self overwrite_lines)).

End SegmentLine.
End SegmentLine.

(* ===================================================================== *)
(** * A sample environment *)
(* ===================================================================== *)

(** A concrete [External] on which the processors can be run: the helpers
    of common.py and ocrd_utils as plain box arithmetic, and an engine that
    answers from tables keyed by the name of the image it was given. *)
Module Sample.

Definition fmt_point (x y : Z) : string :=
  Py.str_of_Z x ++ "," ++ Py.str_of_Z y.

Definition box_points (minx miny maxx maxy : Z) : string :=
  fmt_point minx miny ++ " " ++ fmt_point maxx miny ++ " " ++
  fmt_point maxx maxy ++ " " ++ fmt_point minx maxy.

Definition xywh_bbox (b : XYWH) : BBox :=
  (xy_x b, xy_y b, xy_x b + xy_w b, xy_y b + xy_h b).

Definition xywh_points (b : XYWH) : string :=
  box_points (xy_x b) (xy_y b) (xy_x b + xy_w b) (xy_y b + xy_h b).

Fixpoint split (c : ascii) (s : string) : list string :=
  match s with
  | EmptyString => [EmptyString]
  | String a s' =>
      if Ascii.eqb a c then EmptyString :: split c s'
      else match split c s' with
           | h :: t => String a h :: t
           | [] => [String a EmptyString]
           end
  end.

Definition int (s : string) : Z :=
  match DecimalString.NilZero.int_of_string s with
  | Some d => Z.of_int d
  | None => 0
  end.

Definition point (s : string) : Z * Z :=
  match split "," s with
  | x :: y :: _ => (int x, int y)
  | _ => (0, 0)
  end.

Definition points_bbox (points : string) : BBox :=
  match map point (split " " points) with
  | [] => (0, 0, 0, 0)
  | (x, y) :: ps =>
      fold_left (fun b p => let '(l, t, r, d) := b in
                            (Z.min l (fst p), Z.min t (snd p),
                             Z.max r (fst p), Z.max d (snd p)))
                ps (x, y, x, y)
  end.

Definition xywh_from_points (points : string) : XYWH :=
  let '(l, t, r, b) := points_bbox points in
  {| xy_x := l; xy_y := t; xy_w := r - l; xy_h := b - t |}.

(** The name of an image: of a derived image, that of its source. *)
Fixpoint name_of (i : Image) : string :=
  match i with
  | Pixels name => name
  | Cropped i _ => name_of i
  | Rotated i _ _ _ => name_of i
  end.

(** What the tables of a scene tell. *)
Record Scene := {
  sc_size : string -> Z * Z;
  sc_getbbox : string -> option BBox;
  sc_exif : string -> Exif;
  sc_components : string -> RIL -> list Component;
  sc_osd : string -> option OSR;
  sc_layout : string -> option LayoutOrientation;
  sc_page : string -> Page.PcGts }.

Definition image_name (t : TessBaseAPI) : string :=
  match ts_image t with Some i => name_of i | None => "" end.

Definition segment_id (s : Segment) : string :=
  match s with
  | SegPage _ => "page"
  | SegTextRegion r => Page.tr_id r
  | SegTableRegion r => Page.tb_id r
  end.

Definition segment_points (s : Segment) : string :=
  match s with
  | SegPage _ => ""
  | SegTextRegion r => Page.tr_Coords r
  | SegTableRegion r => Page.tb_Coords r
  end.

Definition external (sc : Scene) : External :=
  {| str_of_float := fun _ => "float";
     width := fun i => match i with
                       | Cropped _ (l, _, r, _) => r - l
                       | _ => fst (sc_size sc (name_of i))
                       end;
     height := fun i => match i with
                        | Cropped _ (_, t, _, b) => b - t
                        | _ => snd (sc_size sc (name_of i))
                        end;
     getbbox := fun i => sc_getbbox sc (name_of i);
     info_dpi := fun i => match xResolution (sc_exif sc (name_of i)) with
                          | Py.NInt 1 => None
                          | d => Some (d, d)
                          end;
     GetComponentImages := fun t level _ _ => sc_components sc (image_name t) level;
     DetectOrientationScript := fun t => sc_osd sc (image_name t);
     AnalyseLayout := fun t => sc_layout sc (image_name t);
     download_file := fun f => f;
     page_from_file := fun f => sc_page sc (ID f);
     resolve_image_as_pil := fun filename => Pixels filename;
     OcrdExif := fun i => sc_exif sc (name_of i);
     to_xml := fun d => "<pc:PcGts imageFilename='" ++
                        Page.imageFilename (Page.Page d) ++ "'/>";
     concat_padded := fun base n => base ++ "_" ++ Py.fmt_04d (n + 1);
     points_from_xywh := xywh_points;
     membername_Orientation := fun o =>
       match o with
       | PAGE_UP => "PAGE_UP" | PAGE_RIGHT => "PAGE_RIGHT"
       | PAGE_DOWN => "PAGE_DOWN" | PAGE_LEFT => "PAGE_LEFT"
       end;
     membername_WritingDirection := fun d =>
       match d with
       | WD_LEFT_TO_RIGHT => "LEFT_TO_RIGHT" | WD_RIGHT_TO_LEFT => "RIGHT_TO_LEFT"
       | WD_TOP_TO_BOTTOM => "TOP_TO_BOTTOM"
       end;
     membername_TextlineOrder := fun d =>
       match d with
       | TO_LEFT_TO_RIGHT => "LEFT_TO_RIGHT" | TO_RIGHT_TO_LEFT => "RIGHT_TO_LEFT"
       | TO_TOP_TO_BOTTOM => "TOP_TO_BOTTOM"
       end;
     MIMETYPE_PAGE := "application/vnd.prima.page+xml";
     TESSDATA_PREFIX := "/usr/share/tesseract-ocr/4.00/tessdata";
     bbox_from_points := points_bbox;
     points_from_bbox := box_points;
     bbox_from_xywh := xywh_bbox;
     save_image_file := fun _ file_id _ grp => Py.os_path_join grp (file_id ++ ".png");
     image_from_page_info := fun page _ =>
       (Pixels (Page.imageFilename page),
        {| xy_x := 0; xy_y := 0;
           xy_w := fst (sc_size sc (Page.imageFilename page));
           xy_h := snd (sc_size sc (Page.imageFilename page)) |},
        sc_exif sc (Page.imageFilename page));
     image_from_page := fun page page_image _ =>
       (page_image,
        {| xy_x := 0; xy_y := 0;
           xy_w := fst (sc_size sc (name_of page_image));
           xy_h := snd (sc_size sc (name_of page_image)) |});
     image_from_segment := fun s _ _ =>
       (Pixels (segment_id s), xywh_from_points (segment_points s));
     image_from_region := fun r _ _ =>
       (Pixels (Page.tr_id r), xywh_from_points (Page.tr_Coords r)) |}.

(** ** A scene: two pages *)

Definition line0 : Page.TextLineType :=
  {| Page.tl_id := "r1_l0"; Page.tl_Coords := "110,210 590,210 590,250 110,250";
     Page.tl_other := "<TextEquiv/>" |}.

Definition region1 : Page.TextRegionType :=
  {| Page.tr_id := "r1";
     Page.tr_Coords := "100,200 600,200 600,500 100,500";
     Page.tr_TextLine := [line0];
     Page.tr_AlternativeImage := [];
     Page.tr_orientation := None; Page.tr_primaryScript := None;
     Page.tr_readingDirection := None; Page.tr_textLineOrder := None;
     Page.tr_other := "" |}.

Definition page_of (image : string) (regions : list Page.TextRegionType)
  : Page.PcGts :=
  {| Page.Metadata := [];
     Page.Page :=
       {| Page.imageFilename := image; Page.Border := None;
          Page.TextRegion := regions; Page.TableRegion := [];
          Page.pg_AlternativeImage := [];
          Page.pg_orientation := None; Page.pg_primaryScript := None;
          Page.pg_readingDirection := None; Page.pg_textLineOrder := None;
          Page.pg_other := "" |} |}.

Definition file_a : OcrdFile :=
  {| ID := "OCR-D-IMG_0001"; pageId := Some "PHYS_0001"; file_grp := "OCR-D-IMG";
     mimetype := "application/vnd.prima.page+xml";
     local_filename := "OCR-D-IMG/OCR-D-IMG_0001.xml"; content := "" |}.

Definition file_b : OcrdFile :=
  {| ID := "OCR-D-IMG_0002"; pageId := Some "PHYS_0002"; file_grp := "OCR-D-IMG";
     mimetype := "application/vnd.prima.page+xml";
     local_filename := "OCR-D-IMG/OCR-D-IMG_0002.xml"; content := "" |}.

Definition file_c : OcrdFile :=
  {| ID := "OCR-D-IMG_0003"; pageId := Some "PHYS_0003"; file_grp := "OCR-D-IMG";
     mimetype := "application/vnd.prima.page+xml";
     local_filename := "OCR-D-IMG/OCR-D-IMG_0003.xml"; content := "" |}.

Definition block (name : string) (x y w h : Z) (index : Z) : Component :=
  {| c_image := Pixels name;
     c_xywh := {| xy_x := x; xy_y := y; xy_w := w; xy_h := h |};
     c_index := index; c_para := 0 |}.

Definition f15 : Py.float := Py.float_of_Z 15.
Definition f20 : Py.float := Py.float_of_Z 20.

(** Page a.png (1000 x 1500, 300 dpi): no regions yet; the engine finds a
    text block, a block whose binarization is empty and a speck.
    Page b.png (1000 x 1500, 118 dots per cm): one region with one line;
    the engine finds no block, two lines in the region, and its OSD fails.
    Page c.png (1000 x 1500, no resolution): nothing found at all. *)
Definition scene : Scene :=
  {| sc_size := fun name =>
       if String.eqb name "block1" then (500, 300)
       else if String.eqb name "block2" then (5, 5)
       else if String.eqb name "block3" then (10, 10)
       else (1000, 1500);
     sc_getbbox := fun name =>
       if String.eqb name "block1" then Some (0, 0, 500, 300)
       else if String.eqb name "block2" then None
       else if String.eqb name "block3" then Some (0, 0, 10, 10)
       else Some (0, 0, 1000, 1500);
     sc_exif := fun name =>
       if String.eqb name "a.png"
       then {| xResolution := Py.NInt 300; resolutionUnit := "inches" |}
       else if String.eqb name "b.png"
       then {| xResolution := Py.NInt 118; resolutionUnit := "cm" |}
       else {| xResolution := Py.NInt 1; resolutionUnit := "inches" |};
     sc_components := fun name level =>
       match level with
       | BLOCK =>
           if String.eqb name "a.png"
           then [block "block1" 100 200 500 300 0;
                 block "block2" 10 10 5 5 1;
                 block "block3" 900 1400 10 10 2]
           else []
       | TEXTLINE =>
           if String.eqb name "r1"
           then [block "line1" 10 10 480 40 0; block "line2" 10 60 300 40 1]
           else []
       | _ => []
       end;
     sc_osd := fun name =>
       if String.eqb name "a.png"
       then Some {| orient_deg := 90; orient_conf := f15;
                    script_name := "Fraktur"; script_conf := f20 |}
       else if String.eqb name "b.png"
       then Some {| orient_deg := 0; orient_conf := S754_nan;
                    script_name := ""; script_conf := S754_nan |}
       else None;
     sc_layout := fun name =>
       if String.eqb name "a.png"
       then Some {| lo_orientation := PAGE_LEFT;
                    lo_writing_direction := WD_LEFT_TO_RIGHT;
                    lo_textline_order := TO_TOP_TO_BOTTOM;
                    lo_deskew_angle := S754_zero false |}
       else None;
     sc_page := fun id =>
       if String.eqb id "OCR-D-IMG_0001" then page_of "a.png" []
       else if String.eqb id "OCR-D-IMG_0002" then page_of "b.png" [region1]
       else page_of "c.png" [] |}.

Definition ext : External := external scene.

Definition processor (params : list (string * Py.param))
    (files : list OcrdFile) (out : string) : Processor :=
  {| parameter := params; input_file_grp := "OCR-D-IMG";
     output_file_grp := out; input_files := files;
     step0 := "preprocessing/optimization" |}.

Definition crop (files : list OcrdFile) : Processor :=
  processor [("padding", Py.PInt 4)] files "OCR-D-SEG-PAGE".

Definition segment_line (overwrite : bool) (files : list OcrdFile) : Processor :=
  processor [("overwrite_lines", Py.PBool overwrite)] files "OCR-D-SEG-LINE".

(** A processor object that carries the parameters of all three tools. *)
Definition any_tool (files : list OcrdFile) : Processor :=
  processor [("padding", Py.PInt 4); ("operation_level", Py.PStr "page");
             ("overwrite_lines", Py.PBool true)] files "OCR-D-OUT".

Definition page_a : Page.PageType := Page.Page (page_of "a.png" []).
Definition page_b : Page.PageType := Page.Page (page_of "b.png" [region1]).

Definition whole_page : XYWH :=
  {| xy_x := 0; xy_y := 0; xy_w := 1000; xy_h := 1500 |}.

Definition no_extent : Crop.Extent :=
  {| Crop.min_x := 1000; Crop.min_y := 1500; Crop.max_x := 0; Crop.max_y := 0 |}.

(** The world before a run. *)
Definition w0 : World :=
  {| log := []; calls := [];
     tessapi := {| ts_path := ""; ts_lang := None; ts_oem := None;
                   ts_psm := AUTO; ts_variables := []; ts_image := None |} |}.

(** A world in which the engine has been given the image of page a. *)
Definition w_a : World :=
  {| log := []; calls := [];
     tessapi := ts_SetImage (tessapi w0) (Pixels "a.png") |}.

(** The world after crop has looked for blocks on page c, first of a run. *)
Definition detected_c : World :=
  Eval vm_compute in
    fst (@Crop.detect ext (crop [file_c; file_a]) 0 file_c None w0).

(** The world and the loop state after crop has gone through the blocks
    of page a. *)
Definition detected_a : World :=
  Eval vm_compute in
    fst (@Crop.detect_extent ext (Py.NFloat (Py.float_of_Z 1)) (Pixels "a.png")
           None w_a).

Definition extent_a : Crop.Extent :=
  {| Crop.min_x := 100; Crop.min_y := 200; Crop.max_x := 600; Crop.max_y := 500 |}.

End Sample.


(* ===================================================================== *)
(** * What the specification says, in the terms of the model *)
(* ===================================================================== *)

Module Spec.
Section Spec.
Context `{External}.

(** ** crop: the size filter *)

(** Both sides of the binarized bounding box are at least [t]. *)
Definition large_enough (t : Py.float) (b : BBox) : bool :=
  let '(b0, b1, b2, b3) := b in
  Py.float_le_Z t (b2 - b0) && Py.float_le_Z t (b3 - b1).

(** The first record [block_step] logs. *)
Definition detected (c : Component) : LogRecord :=
  let '(left_, top, right_, bottom) := bbox_from_xywh (c_xywh c) in
  {| lr_level := DEBUG;
     lr_msg := "Detected text region '%s': %i:%i,%i:%i";
     lr_args := [Py.VStr ("region" ++ Py.fmt_04d (c_index c));
                 Py.VInt left_; Py.VInt right_; Py.VInt top; Py.VInt bottom] |}.




(** The box lies within the image: its left and top are not negative, its
    right and bottom not beyond the image's width and height. *)
Definition within (b : BBox) (i : Image) : Prop :=
  let '(left_, top, right_, bottom) := b in
  0 <= left_ /\ right_ <= width i /\ 0 <= top /\ bottom <= height i.

(** The running extent stays inside the image. *)
Definition extent_in (e : Crop.Extent) (i : Image) : Prop :=
  (0 <= Crop.min_x e <= width i /\ 0 <= Crop.max_x e <= width i) /\
  (0 <= Crop.min_y e <= height i /\ 0 <= Crop.max_y e <= height i).

(** ** segment-line: the lines added to a region *)

(** The region as lines 81-86 leave it. *)
Definition cleared (overwrite_lines : Py.param) (region : Page.TextRegionType)
  : Page.TextRegionType :=
  match Page.tr_TextLine region with
  | _ :: _ => if Py.param_truth overwrite_lines
              then Page.tr_set_TextLine region [] else region
  | [] => region
  end.

(** The line for the [n]-th component [c] of a region: the engine's box,
    [x] and [y] moved by the region's offset, [w] and [h] as they are. *)
Definition line_of (region_id : string) (region_xywh : XYWH) (n : Z)
    (c : Component) : Page.TextLineType :=
  {| Page.tl_id := region_id ++ "_line" ++ Py.fmt_04d n;
     Page.tl_Coords :=
       points_from_xywh
         {| xy_x := xy_x (c_xywh c) + xy_x region_xywh;
            xy_y := xy_y (c_xywh c) + xy_y region_xywh;
            xy_w := xy_w (c_xywh c);
            xy_h := xy_h (c_xywh c) |};
     Page.tl_other := "" |}.

Fixpoint new_lines (region_id : string) (region_xywh : XYWH) (n : Z)
    (comps : list Component) : list Page.TextLineType :=
  match comps with
  | [] => []
  | c :: cs => line_of region_id region_xywh n c
               :: new_lines region_id region_xywh (n + 1) cs
  end.

(** The components the engine reports for a region, and the region's
    offset, as [process_region] obtains them in world [w]. *)
Definition region_xywh_of (overwrite_lines : Py.param) (page_image : Image)
    (page_xywh : XYWH) (region : Page.TextRegionType) : XYWH :=
  snd (image_from_region (cleared overwrite_lines region) page_image page_xywh).

Definition detected_lines (overwrite_lines : Py.param) (page_image : Image)
    (page_xywh : XYWH) (region : Page.TextRegionType) (w : World)
  : list Component :=
  GetComponentImages
    (ts_SetImage (tessapi w)
       (fst (image_from_region (cleared overwrite_lines region)
                               page_image page_xywh)))
    TEXTLINE true true.

(** The records a computation added to the log. *)
Definition logged {A} (m : M A) (w : World) : list LogRecord :=
  skipn (List.length (log w)) (log (fst (m w))).

(** The calls a computation added. *)
Definition called {A} (m : M A) (w : World) : list Call :=
  skipn (List.length (calls w)) (calls (fst (m w))).

(** ** deskew: what a segment keeps, and the comments of its image *)

(** [l'] is [l] with something appended. *)
Definition extends {A} (l l' : list A) : Prop := exists t, l' = (l ++ t)%list.

(** The second segment is the first with, at most, AlternativeImages
    appended and the attributes orientation, primaryScript,
    readingDirection and textLineOrder set. *)
Definition page_kept (p p' : Page.PageType) : Prop :=
  Page.imageFilename p' = Page.imageFilename p /\
  Page.Border p' = Page.Border p /\
  Page.TextRegion p' = Page.TextRegion p /\
  Page.TableRegion p' = Page.TableRegion p /\
  Page.pg_other p' = Page.pg_other p /\
  extends (Page.pg_AlternativeImage p) (Page.pg_AlternativeImage p').

Definition text_region_kept (r r' : Page.TextRegionType) : Prop :=
  Page.tr_id r' = Page.tr_id r /\
  Page.tr_Coords r' = Page.tr_Coords r /\
  Page.tr_TextLine r' = Page.tr_TextLine r /\
  Page.tr_other r' = Page.tr_other r /\
  extends (Page.tr_AlternativeImage r) (Page.tr_AlternativeImage r').

Definition table_region_kept (r r' : Page.TableRegionType) : Prop :=
  Page.tb_id r' = Page.tb_id r /\
  Page.tb_Coords r' = Page.tb_Coords r /\
  Page.tb_other r' = Page.tb_other r /\
  extends (Page.tb_AlternativeImage r) (Page.tb_AlternativeImage r').

Definition segment_kept (s s' : Segment) : Prop :=
  match s, s' with
  | SegPage p, SegPage p' => page_kept p p'
  | SegTextRegion r, SegTextRegion r' => text_region_kept r r'
  | SegTableRegion r, SegTableRegion r' => table_region_kept r r'
  | _, _ => False
  end.

(** The setters leave the AlternativeImages and the class alone. *)
Definition same_images (s s' : Segment) : Prop :=
  Deskew.get_AlternativeImage s' = Deskew.get_AlternativeImage s /\
  Deskew.is_PageType s' = Deskew.is_PageType s /\
  Deskew.is_TextRegion_or_Page s' = Deskew.is_TextRegion_or_Page s.

(** The world after a computation that only logs. *)
Definition only_logs (w w' : World) : Prop :=
  calls w' = calls w /\ tessapi w' = tessapi w.

(** [180 - (180 - angle) % 360], which never fails: 360 is not zero. *)
Definition normalized (angle : Py.float) : Py.float :=
  match Py.fmod (Py.fsub (Py.float_of_Z 180) angle) (Py.float_of_Z 360) with
  | inr m => Py.fsub (Py.float_of_Z 180) m
  | inl _ => angle
  end.

(** What orientation detection appends to the comments (lines 141-149). *)
Definition osd_comment (osr : option OSR) : string :=
  match osr with
  | Some osr =>
      if Py.float_lt_Z (orient_conf osr) 10 then ""
      else if orient_deg osr =? 0 then ""
           else ",rotated-" ++ Py.str_of_Z (orient_deg osr)
  | None => ""
  end.

(** What layout analysis appends to the comments (lines 211-212). *)
Definition layout_comment (layout : option LayoutOrientation) : string :=
  match layout with
  | Some lo =>
      match Py.int_of_float (Deskew.degrees (lo_deskew_angle lo)) with
      | inr 0 => ""
      | _ => ",deskewed"
      end
  | None => ""
  end.

(** Orientation and script detection did not fail: no result, or a result
    whose two confidences are numbers. *)
Definition osd_ok (osr : option OSR) : Prop :=
  match osr with
  | Some osr => Py.isnan (orient_conf osr) = false /\
                Py.isnan (script_conf osr) = false
  | None => True
  end.

(** The deskew angle of the layout analysis, if any, is one that line 211
    can take: in degrees, that is times [-180 / math.pi], it is a number
    [int()] converts, neither NaN nor infinite.  This leaves out a NaN, an
    infinite angle, and a finite angle so large that the product
    overflows. *)
Definition layout_ok (layout : option LayoutOrientation) : Prop :=
  match layout with
  | Some lo => exists i, Py.int_of_float (Deskew.degrees (lo_deskew_angle lo)) = inr i
  | None => True
  end.

(** [_process_segment] went through: it returned the segment with one
    AlternativeImage more, for the image it saved, and made these calls. *)
Definition went_through (segment : Segment) (image : Image) (xywh : XYWH)
    (page_id : option string) (file_id : string) (w : World)
    (r : World * (Py.Exn + Segment)) : Prop :=
  let t := ts_SetImage (tessapi w) image in
  exists w' segment' image',
    r = (w', inr segment') /\
    Deskew.get_AlternativeImage segment'
    = (Deskew.get_AlternativeImage segment ++
       [{| Page.filename :=
             save_image_file image' file_id page_id Deskew.FILEGRP_IMG;
           Page.comments :=
             Deskew.initial_comments segment xywh ++
             osd_comment (DetectOrientationScript t) ++
             layout_comment (AnalyseLayout t) |}])%list /\
    calls w' = (calls w ++
                [TessSetImage image; TessDetectOrientationScript;
                 TessAnalyseLayout;
                 SaveImageFile image' file_id page_id Deskew.FILEGRP_IMG])%list /\
    segment_kept segment segment'.

(** The segment is a region, or a page with a nonzero x or y offset. *)
Definition region_or_offset (segment : Segment) (xywh : XYWH) : Prop :=
  Deskew.is_PageType segment = false \/ xy_x xywh <> 0 \/ xy_y xywh <> 0.

(** ** One engine instance for the run *)

(** A call made while one input file is being handled, other than
    fetching it and adding its output. *)
Definition inner (c : Call) : Prop :=
  match c with
  | TessInit _ | TessEnd | WsDownloadFile _ | WsAddFile _ => False
  | _ => True
  end.

(** [handled files completed trace]: the calls of [trace] handle the input
    files one after the other, in order, each from its download to the
    addition of its output file; when [completed] is false, the trace stops
    within the handling of one of them and the files after it are not
    touched. *)
Inductive handled : list OcrdFile -> bool -> list Call -> Prop :=
| handled_all : handled [] true []
| handled_next f fs completed l output trace :
    Forall inner l ->
    handled fs completed trace ->
    handled (f :: fs) completed
            (WsDownloadFile f :: l ++ WsAddFile output :: trace)
| handled_stop f fs l :
    Forall inner l ->
    handled (f :: fs) false (WsDownloadFile f :: l).

Definition is_init (c : Call) : bool :=
  match c with TessInit _ => true | _ => false end.

Definition returned {A} (r : World * (Py.Exn + A)) : bool :=
  match snd r with inr _ => true | inl _ => false end.

(** The calls of a run [m] from world [w]: one engine instance [engine] is
    opened first and ended last, and in between, after some setting up, the
    input files are handled one at a time; all of them when the run
    returns. *)
Definition one_engine_run (engine : TessBaseAPI) (files : list OcrdFile)
    (m : M unit) (w : World) : Prop :=
  (exists setup trace,
      called m w = (TessInit engine :: setup ++ trace ++ [TessEnd])%list /\
      Forall inner setup /\
      handled files (returned (m w)) trace) /\
  List.length (filter is_init (called m w)) = 1%nat.

(** ** What each processor keeps of the page *)

(** crop: everything but the Border and the AlternativeImages; either both
    are as they were, or the Border is a new one and one AlternativeImage
    has been appended. *)
Definition crop_kept (p p' : Page.PageType) : Prop :=
  (p' = p \/
   exists points a,
     p' = Page.pg_add_AlternativeImage (Page.set_Border p points) a).

(** segment-line, on a region: everything but the TextLines; the lines
    the region had come first, unless [overwrite_lines] is set, then they
    are gone; new lines follow. *)
Definition lines_kept (overwrite_lines : Py.param)
    (r r' : Page.TextRegionType) : Prop :=
  exists new,
    r' = Page.tr_set_TextLine r
           ((if Py.param_truth overwrite_lines then [] else Page.tr_TextLine r)
            ++ new).

Definition line_page_kept (overwrite_lines : Py.param)
    (p p' : Page.PageType) : Prop :=
  exists regions,
    p' = Page.set_TextRegion p regions /\
    Forall2 (lines_kept overwrite_lines) (Page.TextRegion p) regions.

(** deskew: on page level, the page as [page_kept] says; on region
    level, the page is untouched but for its text and table regions, which
    are as [text_region_kept] and [table_region_kept] say. *)
Definition deskew_kept (oplevel : Py.param) (p p' : Page.PageType) : Prop :=
  if Py.param_eq_str oplevel "page" then page_kept p p'
  else exists texts tables,
      p' = Page.set_TableRegion (Page.set_TextRegion p texts) tables /\
      Forall2 text_region_kept (Page.TextRegion p) texts /\
      Forall2 table_region_kept (Page.TableRegion p) tables.

(** "Every element of the input document is still there, unmodified", for
    the TextLines of one input file of segment-line. *)
Definition lines_still_present (self : Processor) (overwrite_lines : Py.param)
    (n : Z) (input_file : OcrdFile) (w : World) : Prop :=
  forall w' d',
    SegmentLine.annotate self overwrite_lines n input_file w = (w', inr d') ->
    forall r, In r (Page.TextRegion
                      (Page.Page (page_from_file (download_file input_file)))) ->
    exists r', In r' (Page.TextRegion (Page.Page d')) /\
               Page.tr_id r' = Page.tr_id r /\
               forall l, In l (Page.tr_TextLine r) -> In l (Page.tr_TextLine r').

(** ** deskew: the claim that does not hold as the specification words it *)

(** "Every segment processed gets exactly one AlternativeImage, whatever
    the engine returns", at one call. *)
Definition gets_one_image (segment : Segment) (image : Image) (xywh : XYWH)
    (where_ : string) (page_id : option string) (file_id : string)
    (w : World) : Prop :=
  exists w' segment' a,
    Deskew._process_segment segment image xywh where_ page_id file_id w
    = (w', inr segment') /\
    Deskew.get_AlternativeImage segment'
    = (Deskew.get_AlternativeImage segment ++ [a])%list.

(** ** crop: claims that do not hold as the specification words them *)

(** "A region whose binarization is empty is skipped with a warning", at
    one block: the step leaves the extent alone and logs at warning level. *)
Definition skipped_with_warning (zoom : Py.num) (c : Component)
    (st : option Image * Crop.Extent) (w : World) : Prop :=
  getbbox (c_image c) = None ->
  snd (Crop.block_step zoom c st w) = inr (Some (c_image c), snd st) /\
  exists r, In r (logged (Crop.block_step zoom c st) w) /\
            lr_level r = WARNING.

Definition is_add_file (c : Call) : bool :=
  match c with WsAddFile _ => true | _ => false end.

(** "Every input file whose document already has a TextRegion makes the run
    fail, and neither it nor a later file gets an output file", at one run:
    if the [k]-th input file has a TextRegion, the run raises and adds at
    most [k] files. *)
Definition regions_abort_run (self : Processor) (w : World) : Prop :=
  forall k f,
    nth_error (input_files self) k = Some f ->
    Page.TextRegion (Page.Page (page_from_file (download_file f))) <> [] ->
    (exists e, snd (Crop.process self w) = inl e) /\
    (List.length (filter is_add_file (called (Crop.process self) w)) <= k)%nat.

End Spec.
End Spec.

(* ===================================================================== *)
(** * What the loops compute, in closed form *)
(* ===================================================================== *)

(** Pure counterparts of what the processors compute step by step, and
    what can be read off a trace of calls; the further properties below
    are stated with them. *)
Module Pure.

(** [old in s] *)
Fixpoint occurs (old s : string) : bool :=
  match s with
  | EmptyString => String.prefix old s
  | String _ s' => String.prefix old s || occurs old s'
  end.

(** Reading a decimal index back, leading zeros included. *)
Definition read_index (s : string) : option N :=
  option_map N.of_uint (DecimalString.NilEmpty.uint_of_string s).

(** The files that the calls of [workspace.add_file] among [l] add, in
    order.  These are the processor's own additions; the image files that
    [save_image_file] adds on its way are the next definition's. *)
Definition added (l : list Call) : list OcrdFile :=
  flat_map (fun c => match c with WsAddFile f => [f] | _ => [] end) l.

(** The ids under which the calls of [save_image_file] among [l] save (and
    add to the workspace) image files, in order. *)
Definition saved_ids (l : list Call) : list string :=
  flat_map (fun c => match c with SaveImageFile _ id _ _ => [id] | _ => [] end) l.

(** The calls that go to the engine. *)
Definition to_engine (c : Call) : Prop :=
  match c with
  | TessSetVariable _ _ | TessSetImage _ | TessSetPageSegMode _
  | TessGetComponentImages _ _ _ | TessDetectOrientationScript
  | TessAnalyseLayout => True
  | _ => False
  end.


(** The dpi crop tells the engine for a page image, if any (lines 93-98). *)
Definition crop_dpi (info : Exif) : option Py.num :=
  if num_ne_1 (xResolution info) then
    if String.eqb (resolutionUnit info) "cm"
    then match Py.round (Py.fmul (Py.to_float (xResolution info)) Py.f2_54) with
         | inr k => Some (Py.NInt k)
         | inl _ => None
         end
    else Some (xResolution info)
  else None.

(** ** crop *)

(** The box lies within the extent. *)
Definition spanned (b : BBox) (e : Crop.Extent) : Prop :=
  let '(left_, top, right_, bottom) := b in
  Crop.min_x e <= left_ /\ right_ <= Crop.max_x e /\
  Crop.min_y e <= top /\ bottom <= Crop.max_y e.

(** The extent [e'] contains the extent [e]. *)
Definition grown (e e' : Crop.Extent) : Prop :=
  Crop.min_x e' <= Crop.min_x e /\ Crop.max_x e <= Crop.max_x e' /\
  Crop.min_y e' <= Crop.min_y e /\ Crop.max_y e <= Crop.max_y e'.

(** The box has a positive width and height. *)
Definition proper (b : BBox) : Prop :=
  let '(left_, top, right_, bottom) := b in left_ < right_ /\ top < bottom.

(** ** deskew *)

(** The attributes of a segment; a table region has [orientation] only. *)
Definition get_orientation (s : Segment) : option Py.float :=
  match s with
  | SegPage p => Page.pg_orientation p
  | SegTextRegion r => Page.tr_orientation r
  | SegTableRegion r => Page.tb_orientation r
  end.

Definition get_primaryScript (s : Segment) : option string :=
  match s with
  | SegPage p => Page.pg_primaryScript p
  | SegTextRegion r => Page.tr_primaryScript r
  | SegTableRegion _ => None
  end.

Definition get_readingDirection (s : Segment) : option string :=
  match s with
  | SegPage p => Page.pg_readingDirection p
  | SegTextRegion r => Page.tr_readingDirection r
  | SegTableRegion _ => None
  end.

Definition get_textLineOrder (s : Segment) : option string :=
  match s with
  | SegPage p => Page.pg_textLineOrder p
  | SegTextRegion r => Page.tr_textLineOrder r
  | SegTableRegion _ => None
  end.

(** The script annotated for the engine's script name (lines 159-201). *)
Definition script_of (name : string) : string :=
  Deskew.dict_get Deskew.scripts name "Latn - Latin".

(** [angle] after lines 138-149, from [angle] before. *)
Definition osd_angle (osr : option OSR) (angle : Py.num) : Py.num :=
  match osr with
  | Some o => if Py.float_lt_Z (orient_conf o) 10 then angle
              else Py.NInt (orient_deg o)
  | None => angle
  end.

(** [angle] after line 244: the orientation applied, plus the skew in
    degrees. *)
Definition rotation (osr : option OSR) (lo : LayoutOrientation) : Py.float :=
  Py.fadd (Py.to_float (osd_angle osr (Py.NFloat (S754_zero false))))
          (Deskew.degrees (lo_deskew_angle lo)).

(** The image as lines 245-253 leave it. *)
Definition rotated (image : Image) (a : Py.float) : Image :=
  if Py.fis_zero a then image else Rotated image (Py.fneg a) true "white".

(** Orientation detection gave nothing to apply: no result, or one of low
    confidence. *)
Definition no_orientation (osr : option OSR) : Prop :=
  match osr with
  | Some o => Py.float_lt_Z (orient_conf o) 10 = true
  | None => True
  end.

Section Pure.
Context `{External}.

(** The block passes the filter of lines 125-139 at threshold [t]. *)
Definition passes (t : Py.float) (c : Component) : bool :=
  match getbbox (c_image c) with
  | Some b => Spec.large_enough t b
  | None => false
  end.

(** The extent before any block: lines 109-112. *)
Definition no_block (page_image : Image) : Crop.Extent :=
  {| Crop.min_x := width page_image; Crop.min_y := height page_image;
     Crop.max_x := 0; Crop.max_y := 0 |}.

(** The extent after the blocks [comps], as a fold. *)
Definition block_extent (t : Py.float) (comps : list Component)
    (e : Crop.Extent) : Crop.Extent :=
  fold_left (fun e c => if passes t c
                        then Crop.update e (bbox_from_xywh (c_xywh c)) else e)
            comps e.

(** The dpi segment-line reads off the page image (line 74). *)
Definition image_dpi (pcgts : Page.PcGts) : Py.num :=
  match info_dpi (resolve_image_as_pil (Page.imageFilename (Page.Page pcgts))) with
  | Some d => fst d
  | None => Py.NInt 0
  end.

End Pure.
End Pure.

(* ===================================================================== *)
(** * More sample pages *)
(* ===================================================================== *)

(** Pages at the corners of what the processors handle. *)
Module Corner.

(** 2^1023 rad: a finite float whose value in degrees is not. *)
Definition huge : Py.float := S754_finite false 4503599627370496 971.

(** 0.01 rad, about 0.57 degrees *)
Definition skew : Py.float :=
  Eval vm_compute in
    match Py.Z_truediv 1 100 with Some f => f | None => S754_nan end.

(** Page d.png records a resolution of 0; on page e.png the engine is sure
    the page is upside down but its layout analysis gives nothing; page
    f.png is skewed by half a degree and the engine detects no orientation. *)
Definition scene : Sample.Scene :=
  {| Sample.sc_size := fun _ => (1000, 1500);
     Sample.sc_getbbox := fun _ => Some (0, 0, 1000, 1500);
     Sample.sc_exif := fun name =>
       if String.eqb name "d.png"
       then {| xResolution := Py.NInt 0; resolutionUnit := "cm" |}
       else {| xResolution := Py.NInt 1; resolutionUnit := "inches" |};
     Sample.sc_components := fun _ _ => [];
     Sample.sc_osd := fun name =>
       if String.eqb name "e.png"
       then Some {| orient_deg := 180; orient_conf := Sample.f15;
                    script_name := "Latin"; script_conf := Sample.f20 |}
       else None;
     Sample.sc_layout := fun name =>
       if String.eqb name "f.png"
       then Some {| lo_orientation := PAGE_UP;
                    lo_writing_direction := WD_LEFT_TO_RIGHT;
                    lo_textline_order := TO_TOP_TO_BOTTOM;
                    lo_deskew_angle := skew |}
       else None;
     Sample.sc_page := fun id =>
       if String.eqb id "OCR-D-IMG_0004" then Sample.page_of "d.png" []
       else if String.eqb id "OCR-D-IMG_0005" then Sample.page_of "e.png" []
       else Sample.page_of "f.png" [] |}.

Definition ext : External := Sample.external scene.

Definition file_d : OcrdFile :=
  {| ID := "OCR-D-IMG_0004"; pageId := Some "PHYS_0004"; file_grp := "OCR-D-IMG";
     mimetype := "application/vnd.prima.page+xml";
     local_filename := "OCR-D-IMG/OCR-D-IMG_0004.xml"; content := "" |}.

(** A file whose ID does not name its file group. *)
Definition file_p : OcrdFile :=
  {| ID := "PAGE_0003"; pageId := None; file_grp := "OCR-D-IMG";
     mimetype := "application/vnd.prima.page+xml";
     local_filename := "OCR-D-IMG/PAGE_0003.xml"; content := "" |}.

Definition page_e : Page.PageType := Page.Page (Sample.page_of "e.png" []).
Definition page_f : Page.PageType := Page.Page (Sample.page_of "f.png" []).

End Corner.

(* ===================================================================== *)
(** * The model at work *)
(* ===================================================================== *)

(** The float literal 2.54 is the double 0x1.451eb851eb852p+1. *)
Example literal_2_54 : Py.f2_54 = S754_finite false 5719571526760530 (-51).
Proof. reflexivity. Qed.

(** [round(25 * 2.54)] is 64 (63.5, tie to even) and [round(118 * 2.54)]
    is 300. *)
Example round_dots_per_cm :
  Py.round (Py.fmul (Py.float_of_Z 25) Py.f2_54) = inr 64 /\
  Py.round (Py.fmul (Py.float_of_Z 118) Py.f2_54) = inr 300.
Proof. split; vm_compute; reflexivity. Qed.

(** At 72 dpi the zoom is 300 / 72 and the threshold 25 / zoom is 6.0. *)
Example threshold_at_72_dpi :
  exists zoom, Py.truediv (Py.NInt 300) (Py.NInt 72) = inr zoom /\
               Py.truediv (Py.NInt 25) (Py.NFloat zoom) = inr (Py.float_of_Z 6).
Proof. eexists. split; vm_compute; reflexivity. Qed.

(** [180 - (180 - 270.5) % 360] is -89.5, and [int(-7.5)] is -7. *)
Example angle_270_5 :
  forall a, Py.truediv (Py.NInt 541) (Py.NInt 2) = inr a ->
  Py.truediv (Py.NInt (-179)) (Py.NInt 2) = inr (Spec.normalized a).
Proof. intros a E. vm_compute in E. injection E as <-. vm_compute. reflexivity. Qed.

Example int_truncates :
  forall a, Py.truediv (Py.NInt (-15)) (Py.NInt 2) = inr a ->
  Py.int_of_float a = inr (-7).
Proof. intros a E. vm_compute in E. now injection E as <-. Qed.

Example fmt_04d_pads :
  Py.fmt_04d 7 = "0007" /\ Py.fmt_04d (-5) = "-005" /\ Py.fmt_04d 12345 = "12345".
Proof. repeat split. Qed.

Example replace_all :
  Py.replace "OCR-D-IMG_0001" "OCR-D-IMG" "OCR-D-IMG-CROP" = "OCR-D-IMG-CROP_0001" /\
  Py.replace "aaa" "aa" "b" = "ba" /\
  Py.replace "abc" "" "-" = "-a-b-c-".
Proof. repeat split; vm_compute; reflexivity. Qed.

(** deskew on page level, page a of the sample: OSD says 90 degrees with
    confidence 15, the layout analysis reports no skew; the page gets one
    image, rotated. *)
Example deskew_page_a :
  exists w' p,
    @Deskew._process_segment Sample.ext (SegPage Sample.page_a) (Pixels "a.png")
      Sample.whole_page "page 'PHYS_0001'" (Some "PHYS_0001")
      "OCR-D-IMG-DESKEW_0001" Sample.w0 = (w', inr (SegPage p)) /\
    Page.pg_AlternativeImage p
    = [{| Page.filename := "OCR-D-IMG-DESKEW/OCR-D-IMG-DESKEW_0001.png";
          Page.comments := ",rotated-90" |}] /\
    Page.pg_orientation p = Some (Py.float_of_Z 90) /\
    Page.pg_primaryScript p = Some "Latf - Latin (Fraktur variant)" /\
    Page.pg_readingDirection p = Some "left-to-right".
Proof. do 2 eexists. repeat split; vm_compute; reflexivity. Qed.

(** crop over the three pages of the sample: the run returns; page a gets
    its border, pages b and c do not. *)
Example crop_three_pages :
  snd (@Crop.process Sample.ext
         (Sample.crop [Sample.file_a; Sample.file_b; Sample.file_c]) Sample.w0)
  = inr tt /\
  filter Spec.is_add_file
    (@Spec.called unit
       (@Crop.process Sample.ext
          (Sample.crop [Sample.file_a; Sample.file_b; Sample.file_c]))
       Sample.w0)
  = map WsAddFile
      (map (fun i =>
              {| ID := "OCR-D-SEG-PAGE_000" ++ i;
                 pageId := Some ("PHYS_000" ++ i);
                 file_grp := "OCR-D-SEG-PAGE";
                 mimetype := "application/vnd.prima.page+xml";
                 local_filename := "OCR-D-SEG-PAGE/OCR-D-SEG-PAGE_000" ++ i ++ ".xml";
                 content := "<pc:PcGts imageFilename='" ++
                            match i with "1" => "a" | "2" => "b" | _ => "c" end
                            ++ ".png'/>" |})
           ["1"; "2"; "3"]).
Proof. split; vm_compute; reflexivity. Qed.

(* ===================================================================== *)
(** * Facts about the monad *)
(* ===================================================================== *)

Lemma bind_inr {A B} (m : M A) (k : A -> M B) w w' a :
  m w = (w', inr a) -> bind m k w = k a w'.
Proof. intros E. unfold bind. now rewrite E. Qed.

Lemma bind_inl {A B} (m : M A) (k : A -> M B) w w' e :
  m w = (w', inl e) -> bind m k w = (w', inl e).
Proof. intros E. unfold bind. now rewrite E. Qed.

Lemma bind_returns {A B} (m : M A) (k : A -> M B) w w'' b :
  bind m k w = (w'', inr b) ->
  exists w' a, m w = (w', inr a) /\ k a w' = (w'', inr b).
Proof.
  unfold bind. destruct (m w) as [w' [e | a]]; intros E.
  - discriminate.
  - eauto.
Qed.

Lemma skipn_app_length {A} (l t : list A) :
  skipn (List.length l) (l ++ t)%list = t.
Proof. induction l; simpl; auto. Qed.

(** Unfolding one monadic step. *)
Ltac mred :=
  cbv beta iota delta [bind ret raise lift LOG call get_tessapi set_tessapi
                       SetImage SetVariable SetPageSegMode fst snd].

Tactic Notation "mred" "in" hyp(H) :=
  cbv beta iota delta [ret raise lift num_truediv] in H.

(** A loop whose body keeps an invariant keeps it. *)
Lemma for_each_invariant {A S} (I : S -> Prop) (body : A -> S -> M S) :
  forall (l : list A),
  (forall x s w w' s', In x l -> I s -> body x s w = (w', inr s') -> I s') ->
  forall s w w' s', I s -> for_each l s body w = (w', inr s') -> I s'.
Proof.
  induction l as [| x l IH]; intros Hb s w w' s' Hs E; simpl in E.
  - unfold ret in E. now inversion E; subst.
  - apply bind_returns in E. destruct E as (w1 & s1 & E1 & E2).
    eapply IH; [ | | exact E2 ].
    + intros; eapply Hb; eauto. now right.
    + eapply Hb; eauto. now left.
Qed.

(** One more iteration once the first has returned. *)
Lemma for_each_step {A S} (x : A) (l : list A) (body : A -> S -> M S)
    s w w' s' :
  body x s w = (w', inr s') ->
  for_each (x :: l) s body w = for_each l s' body w'.
Proof. intros E. simpl. unfold bind. now rewrite E. Qed.

Lemma for_enumerate_step {A S} n (x : A) (l : list A)
    (body : Z -> A -> S -> M S) s w w' s' :
  body n x s w = (w', inr s') ->
  for_enumerate n (x :: l) s body w = for_enumerate (n + 1) l s' body w'.
Proof. intros E. simpl. unfold bind. now rewrite E. Qed.

(** A loop whose body only computes is a fold. *)
Lemma for_each_pure {A S} (f : A -> S -> S) (l : list A) :
  forall s w,
    for_each l s (fun x s => ret (f x s)) w
    = (w, inr (fold_left (fun s x => f x s) l s)).
Proof.
  induction l as [| x l IH]; intros s w; simpl.
  - reflexivity.
  - exact (IH (f x s) w).
Qed.

(** What a loop that updates its elements made of them. *)
Lemma for_update_Forall2 {A} (R : A -> A -> Prop) (body : A -> M A) :
  (forall x w w' x', body x w = (w', inr x') -> R x x') ->
  forall l w w' l', for_update l body w = (w', inr l') -> Forall2 R l l'.
Proof.
  intros Hb. induction l as [| x l IH]; intros w w' l' E; simpl in E.
  - unfold ret in E. injection E as _ <-. constructor.
  - apply bind_returns in E. destruct E as (w1 & x' & E1 & E).
    apply bind_returns in E. destruct E as (w2 & l'' & E2 & E).
    unfold ret in E. injection E as _ <-.
    constructor; eauto.
Qed.

Lemma for_enumerate_stop {A S} n (x : A) (l : list A)
    (body : Z -> A -> S -> M S) s w w' e :
  body n x s w = (w', inl e) ->
  for_enumerate n (x :: l) s body w = (w', inl e).
Proof. intros E. simpl. unfold bind. now rewrite E. Qed.

(* ===================================================================== *)
(** * crop *)
(* ===================================================================== *)

(** ** Rounding never produces NaN *)

Lemma shr_1_nonneg mrs : 0 <= shr_m mrs -> 0 <= shr_m (shr_1 mrs).
Proof.
  destruct mrs as [m r s]; simpl.
  destruct m as [| p | p]; [ | destruct p | ]; simpl; lia.
Qed.

Lemma iter_pos_shr_1_nonneg p :
  forall mrs, 0 <= shr_m mrs -> 0 <= shr_m (iter_pos shr_1 p mrs).
Proof.
  induction p as [p IH | p IH | ]; intros mrs Hm; simpl.
  - apply IH, IH, shr_1_nonneg, Hm.
  - apply IH, IH, Hm.
  - apply shr_1_nonneg, Hm.
Qed.

Lemma shr_fexp_nonneg m e l :
  0 <= m -> 0 <= shr_m (fst (shr_fexp Py.prec Py.emax m e l)).
Proof.
  intros Hm. unfold shr_fexp, shr.
  assert (H0 : 0 <= shr_m (shr_record_of_loc m l)).
  { destruct l as [| []]; simpl; exact Hm. }
  destruct (fexp Py.prec Py.emax (Zdigits2 m + e) - e); simpl; auto.
  now apply iter_pos_shr_1_nonneg.
Qed.

Lemma round_nearest_even_nonneg m l : 0 <= m -> 0 <= round_nearest_even m l.
Proof.
  intros Hm. destruct l as [| []]; simpl; try lia.
  destruct (Z.even m); lia.
Qed.

Lemma binary_round_aux_not_nan s m e l :
  0 <= m -> Py.isnan (binary_round_aux Py.prec Py.emax s m e l) = false.
Proof.
  intros Hm. unfold binary_round_aux.
  pose proof (shr_fexp_nonneg e l Hm) as H1.
  destruct (shr_fexp Py.prec Py.emax m e l) as [mrs' e'].
  simpl in H1.
  pose proof (shr_fexp_nonneg e' loc_Exact
                (round_nearest_even_nonneg (loc_of_shr_record mrs') H1)) as H2.
  destruct (shr_fexp Py.prec Py.emax
              (round_nearest_even (shr_m mrs') (loc_of_shr_record mrs')) e'
              loc_Exact) as [mrs'' e''].
  simpl in H2.
  destruct (shr_m mrs'') as [| p | p].
  - reflexivity.
  - now destruct (e'' <=? Py.emax - Py.prec).
  - lia.
Qed.

(** The quotient of two finite doubles is a number. *)
Lemma fdiv_finite_not_nan sx mx ex sy my ey :
  Py.isnan (Py.fdiv (S754_finite sx mx ex) (S754_finite sy my ey)) = false.
Proof.
  unfold Py.fdiv, SFdiv, SFdiv_core_binary.
  set (e' := Z.min _ _). set (m' := match _ - _ - e' with Z0 => _ | _ => _ end).
  assert (Hm : 0 <= m').
  { subst m'. destruct (ex - ey - e'); try lia.
    rewrite Z.shiftl_mul_pow2 by lia. apply Z.mul_nonneg_nonneg; lia. }
  pose proof (Z.div_pos m' (Zpos my) Hm ltac:(lia)) as Hq.
  unfold Z.div in Hq.
  destruct (Z.div_eucl m' (Zpos my)) as [q r]. simpl in Hq.
  now apply binary_round_aux_not_nan.
Qed.

(** So is the quotient of two ints. *)
Lemma Z_truediv_not_nan a b f : Py.Z_truediv a b = Some f -> Py.isnan f = false.
Proof.
  unfold Py.Z_truediv. destruct (b =? 0); [discriminate |].
  intros E. injection E as <-.
  destruct a as [| p | p]; [reflexivity | | ].
  - change (Py.isnan (Py.fdiv (S754_finite false p 0)
              (S754_finite (b <? 0) (Z.to_pos (Z.abs b)) 0)) = false).
    apply fdiv_finite_not_nan.
  - change (Py.isnan (Py.fdiv (S754_finite true p 0)
              (S754_finite (b <? 0) (Z.to_pos (Z.abs b)) 0)) = false).
    apply fdiv_finite_not_nan.
Qed.

(** And 25 divided by a quotient of two ints, when that is not zero. *)
Lemma threshold_not_nan a b z t :
  Py.Z_truediv a b = Some z ->
  Py.truediv (Py.NInt 25) (Py.NFloat z) = inr t ->
  Py.isnan t = false.
Proof.
  intros Hz. pose proof (Z_truediv_not_nan _ _ Hz) as Hn.
  unfold Py.truediv. cbn [Py.to_float].
  remember (Py.float_of_Z 25) as f25 eqn:E25. vm_compute in E25.
  destruct (Py.fis_zero z) eqn:Ez; [discriminate |].
  intros E. assert (Et : t = Py.fdiv f25 z) by congruence.
  subst t f25. clear E.
  destruct z as [sz | sz | | sz mz ez]; try discriminate.
  - reflexivity.
  - apply fdiv_finite_not_nan.
Qed.

(* ===================================================================== *)
(** * crop *)
(* ===================================================================== *)

(** Taking a bind that returned apart: the first computation returned [a]
    in world [w] (equation [E]); [H] becomes what the rest did. *)
Tactic Notation "unbind" hyp(H) "as" ident(w) ident(a) ident(E) :=
  apply bind_returns in H; destruct H as (w & a & E & H).

Lemma Z_lt_float_le t z :
  Py.isnan t = false -> Py.Z_lt_float z t = negb (Py.float_le_Z t z).
Proof.
  unfold Py.Z_lt_float, Py.float_le_Z. destruct t; try discriminate; intros _;
    simpl; try (destruct s; reflexivity).
  - now destruct (z ?= 0).
  - now destruct (if 0 <=? e then _ else _).
Qed.

Section CropFacts.
Context `{External}.

(** C6, as amended.  A block whose binarization is empty is skipped: the
    step returns normally with the extent unchanged, the skip is reported
    at DEBUG level (two DEBUG records, no warning), and the loop goes on
    with the remaining blocks. *)
Theorem crop_empty_block_skipped :
  forall zoom c img e rest w,
    getbbox (c_image c) = None ->
    let w' := {| log := log w ++
                   [Spec.detected c;
                    {| lr_level := DEBUG;
                       lr_msg := "Ignoring region '%s' because its binarization is empty";
                       lr_args := [Py.VStr ("region" ++ Py.fmt_04d (c_index c))] |}];
                 calls := calls w; tessapi := tessapi w |} in
    Crop.block_step zoom c (img, e) w = (w', inr (Some (c_image c), e)) /\
    Forall (fun r => lr_level r = DEBUG)
           (Spec.logged (Crop.block_step zoom c (img, e)) w) /\
    for_each (c :: rest) (img, e) (Crop.block_step zoom) w
    = for_each rest (Some (c_image c), e) (Crop.block_step zoom) w'.
Proof.
  intros zoom c img e rest w Hb w'.
  assert (E : Crop.block_step zoom c (img, e) w = (w', inr (Some (c_image c), e))).
  { unfold Crop.block_step, Spec.detected in *. subst w'.
    destruct (bbox_from_xywh (c_xywh c)) as [[[l t] r] b].
    rewrite Hb. mred. simpl. now rewrite <- app_assoc. }
  split; [exact E | split].
  - unfold Spec.logged. rewrite E. subst w'. simpl.
    rewrite skipn_app_length. unfold Spec.detected.
    destruct (bbox_from_xywh (c_xywh c)) as [[[l t] r] b].
    repeat constructor.
  - now apply for_each_step.
Qed.

(** What [resolution_zoom] returns. *)
Lemma resolution_zoom_returns info w w' zoom :
  Crop.resolution_zoom info w = (w', inr zoom) ->
  if num_ne_1 (xResolution info)
  then exists dpi z,
         (if String.eqb (resolutionUnit info) "cm"
          then exists k,
                 Py.round (Py.fmul (Py.to_float (xResolution info)) Py.f2_54)
                 = inr k /\ dpi = Py.NInt k
          else dpi = xResolution info) /\
         Py.truediv (Py.NInt 300) dpi = inr z /\ zoom = Py.NFloat z
  else zoom = Py.NInt 1.
Proof.
  unfold Crop.resolution_zoom.
  destruct (num_ne_1 (xResolution info)).
  - intros E.
    unbind E as wa dpi Ed. unbind E as wb u Eu. unbind E as wc z Ez.
    mred in E. injection E as _ <-.
    mred in Ez. injection Ez as _ Ez.
    exists dpi, z. split; [| now split].
    destruct (String.eqb (resolutionUnit info) "cm").
    + unbind Ed as wd k Ek. mred in Ek. injection Ek as _ Ek.
      mred in Ed. injection Ed as _ <-. now exists k.
    + mred in Ed. now injection Ed as _ <-.
  - unfold ret. now intros [= _ <-].
Qed.


(** With a resolution that is an int, the threshold is a number. *)
Lemma crop_threshold_is_a_number info x w0 w1 zoom t :
  xResolution info = Py.NInt x ->
  Crop.resolution_zoom info w0 = (w1, inr zoom) ->
  Py.truediv (Py.NInt 25) zoom = inr t ->
  Py.isnan t = false.
Proof.
  intros Hx Hz Ht. apply resolution_zoom_returns in Hz. rewrite Hx in Hz.
  destruct (num_ne_1 (Py.NInt x)).
  - destruct Hz as (dpi & z & Hd & Hq & ->).
    assert (Hi : exists d, dpi = Py.NInt d).
    { destruct (String.eqb (resolutionUnit info) "cm").
      - destruct Hd as (k & _ & ->). now exists k.
      - now exists x. }
    destruct Hi as (d & ->). unfold Py.truediv in Hq.
    destruct (Py.Z_truediv 300 d) eqn:Ed; [| discriminate].
    injection Hq as ->. eapply threshold_not_nan; eauto.
  - subst zoom. vm_compute in Ht. now injection Ht as <-.
Qed.

(** What [fetch] does. *)
Lemma fetch_returns self TOOL n input_file w :
  fetch self TOOL n input_file w
  = ({| log := log w ++
                [{| lr_level := INFO; lr_msg := "INPUT FILE %i / %s";
                    lr_args := [Py.VInt n;
                                Py.VStr (Py.str_or (pageId input_file)
                                                   (ID input_file))] |}];
        calls := calls w ++ [WsDownloadFile input_file];
        tessapi := tessapi w |},
     inr (open_page self TOOL input_file)).
Proof. reflexivity. Qed.

(** [detect] hands on the document it opened and the page's image. *)
Lemma detect_returns self n input_file image w w1 pcgts page_image st :
  Crop.detect self n input_file image w = (w1, inr (pcgts, page_image, st)) ->
  pcgts = open_page self Crop.TOOL input_file /\
  page_image = resolve_image_as_pil (Page.imageFilename (Page.Page pcgts)).
Proof.
  unfold Crop.detect, Crop.detect_page. intros E.
  unbind E as w2 d E2. rewrite fetch_returns in E2. injection E2 as _ <-.
  unbind E as w3 u3 E3. unbind E as w4 u4 E4.
  unbind E as w5 u5 E5. unbind E as w6 u6 E6. unbind E as w7 u7 E7.
  unbind E as w8 u8 E8. unbind E as w9 u9 E9.
  mred in E. now injection E as _ <- <- _.
Qed.

(** [annotate] is [detect] followed by [set_border]. *)
Lemma annotate_via_detect self padding n input_file image w :
  Crop.annotate self padding n input_file image w
  = (d <- Crop.detect self n input_file image ;;
     let '(pcgts, page_image, st) := d in
     page <- Crop.set_border self padding n input_file
               (Py.str_or (pageId input_file) (ID input_file))
               (Page.Page pcgts) page_image (snd st) ;;
     ret (fst st, Page.set_Page pcgts page)) w.
Proof. reflexivity. Qed.

Lemma set_Page_same d : Page.set_Page d (Page.Page d) = d.
Proof. now destruct d. Qed.

(** C1.  When the extent left by the loop over the blocks is not valid
    (min_x is not below max_x, or min_y is not below max_y), the iteration
    logs an ERROR record and returns normally: the document serialised is
    the input document with the processing step added, with the Border and
    the AlternativeImages of the input untouched; one file with that
    content is added to the workspace in the output group; and the loop
    goes on with the remaining input files. *)
Theorem crop_no_valid_extent :
  forall self padding n input_file image rest w w1 pcgts page_image st,
    Crop.detect self n input_file image w = (w1, inr (pcgts, page_image, st)) ->
    ~ Crop.min_x (snd st) < Crop.max_x (snd st) \/
    ~ Crop.min_y (snd st) < Crop.max_y (snd st) ->
    let page_id := Py.str_or (pageId input_file) (ID input_file) in
    let input := page_from_file (download_file input_file) in
    let w2 := {| log := log w1 ++
                   [{| lr_level := ERROR;
                       lr_msg := "Cannot find valid extent for page '%s'";
                       lr_args := [Py.VStr page_id] |}];
                 calls := calls w1; tessapi := tessapi w1 |} in
    let out := Page.add_MetadataItem input (processing_step self Crop.TOOL) in
    let output := output_file self n input_file out in
    let w3 := {| log := log w2; calls := calls w2 ++ [WsAddFile output];
                 tessapi := tessapi w2 |} in
    Crop.annotate self padding n input_file image w = (w2, inr (fst st, out)) /\
    Page.Border (Page.Page out) = Page.Border (Page.Page input) /\
    Page.pg_AlternativeImage (Page.Page out)
    = Page.pg_AlternativeImage (Page.Page input) /\
    content output = to_xml out /\
    file_grp output = output_file_grp self /\
    Crop.process_file self padding n input_file image w = (w3, inr (fst st)) /\
    for_enumerate n (input_file :: rest) image (Crop.process_file self padding) w
    = for_enumerate (n + 1) rest (fst st) (Crop.process_file self padding) w3.
Proof.
  intros self padding n input_file image rest w w1 pcgts page_image st Hd Hv
         page_id input w2 out output w3.
  destruct (detect_returns _ _ _ _ _ Hd) as [-> _].
  assert (Hf : Crop.valid (snd st) = false).
  { unfold Crop.valid. apply andb_false_iff.
    destruct Hv as [Hv | Hv]; [left | right]; apply Z.ltb_ge; lia. }
  assert (Ha : Crop.annotate self padding n input_file image w
               = (w2, inr (fst st, out))).
  { rewrite annotate_via_detect. erewrite bind_inr by exact Hd.
    unfold Crop.set_border. rewrite Hf. mred. now rewrite set_Page_same. }
  assert (Hp : Crop.process_file self padding n input_file image w
               = (w3, inr (fst st))).
  { unfold Crop.process_file. erewrite bind_inr by exact Ha.
    unfold add_output_file. mred. reflexivity. }
  repeat split; try reflexivity; try assumption.
  now apply for_enumerate_step.
Qed.

Lemma last_default {A} (x : A) (l : list A) d d' :
  last (x :: l) d = last (x :: l) d'.
Proof.
  revert x. induction l as [| y l IH]; intros x; [reflexivity |].
  change (last (y :: l) d = last (y :: l) d'). apply IH.
Qed.

(** A block, contributing or not, is what [image] is bound to next. *)
Lemma block_step_image zoom c st w w' st' :
  Crop.block_step zoom c st w = (w', inr st') -> fst st' = Some (c_image c).
Proof.
  unfold Crop.block_step.
  destruct (bbox_from_xywh (c_xywh c)) as [[[l t] r] d].
  intros E. unbind E as w1 u1 E1.
  destruct (getbbox (c_image c)) as [[[[b0 b1] b2] b3] |].
  - unbind E as w2 t2 E2.
    destruct (Py.Z_lt_float (b2 - b0) t2).
    + unbind E as w3 u3 E3. mred in E. now injection E as _ <-.
    + unbind E as w3 t3 E3.
      destruct (Py.Z_lt_float (b3 - b1) t3);
        unbind E as w4 u4 E4; mred in E; now injection E as _ <-.
  - unbind E as w2 u2 E2. mred in E. now injection E as _ <-.
Qed.

Lemma block_loop_image zoom comps :
  forall st w w' st',
    for_each comps st (Crop.block_step zoom) w = (w', inr st') ->
    fst st' = last (map (fun c => Some (c_image c)) comps) (fst st).
Proof.
  induction comps as [| c cs IH]; intros st w w' st' E; simpl in E.
  - mred in E. now injection E as _ <-.
  - unbind E as w1 st1 E1.
    rewrite (IH _ _ _ _ E), (block_step_image _ _ _ _ E1).
    destruct cs as [| c0 cs]; [reflexivity |].
    change (last (map (fun c => Some (c_image c)) (c :: c0 :: cs)) (fst st))
      with (last (map (fun c => Some (c_image c)) (c0 :: cs)) (fst st)).
    apply last_default.
Qed.

(** C8, as amended.  When the document of an input file has a TextRegion
    and the local [image] is still unbound (no block of an earlier input
    file has been looked at; so for the first input file), the iteration
    raises UnboundLocalError right after the file has been fetched: nothing
    is saved or added to the workspace, and the loop stops there, so no
    later input file is handled.  With [image] bound, lines 76-89 return;
    and an iteration leaves [image] bound to the image of the last block
    the engine reported for its page, or as it found it when there was
    none. *)
Theorem crop_existing_regions_unbound_image :
  forall self padding n input_file rest w,
    Page.TextRegion (Page.Page (page_from_file (download_file input_file))) <> [] ->
    (exists w',
        Crop.process_file self padding n input_file None w
        = (w', inl (Py.UnboundLocalError "image")) /\
        calls w' = (calls w ++ [WsDownloadFile input_file])%list /\
        for_enumerate n (input_file :: rest) None (Crop.process_file self padding) w
        = (w', inl (Py.UnboundLocalError "image"))) /\
    (forall img regions w1,
        exists w2, Crop.existing_regions_extent (Some img) regions w1
                   = (w2, inr tt)) /\
    (forall zoom page_image image w1 w2 st,
        Crop.detect_extent zoom page_image image w1 = (w2, inr st) ->
        fst st = last (map (fun c => Some (c_image c))
                           (GetComponentImages (tessapi w1) BLOCK true false))
                      image).
Proof.
  intros self padding n input_file rest w Hr. split; [| split].
  - assert (E : exists w',
               Crop.process_file self padding n input_file None w
               = (w', inl (Py.UnboundLocalError "image")) /\
               calls w' = (calls w ++ [WsDownloadFile input_file])%list).
    { unfold Crop.process_file, Crop.annotate, Crop.annotate_page,
        Crop.detect_page, fetch, Crop.existing_regions_extent, open_page.
      mred. cbn [Page.Page Page.add_MetadataItem].
      destruct (Page.TextRegion (Page.Page (page_from_file (download_file input_file))))
        as [| r rs]; [now elim Hr |].
      destruct (Page.Border (Page.Page (page_from_file (download_file input_file))))
        as [pts |].
      - destruct (bbox_from_points pts) as [[[l t] rr] b]. simpl.
        eexists; split; reflexivity.
      - simpl. eexists; split; reflexivity. }
    destruct E as (w' & E & Ec). exists w'. split; [exact E | split; [exact Ec |]].
    now apply for_enumerate_stop.
  - intros img regions w1. unfold Crop.existing_regions_extent.
    destruct regions as [| r rs]; [now eexists |].
    erewrite bind_inr
      by exact (for_each_pure
                  (fun region e0 =>
                     Crop.update e0 (bbox_from_points (Page.tr_Coords region)))
                  (r :: rs) _ w1).
    mred. now eexists.
  - intros zoom page_image image w1 w2 st E. unfold Crop.detect_extent in E.
    unbind E as wa t Et. mred in Et. injection Et as <- <-.
    unbind E as wb u Eu.
    now rewrite (block_loop_image _ _ _ _ E).
Qed.

Lemma update_in e b i :
  Spec.extent_in e i -> Spec.within b i -> Spec.extent_in (Crop.update e b) i.
Proof.
  destruct b as [[[l t] r] d]. unfold Spec.extent_in, Spec.within, Crop.update.
  simpl. lia.
Qed.

Lemma block_step_in zoom c st w w' st' i :
  Spec.within (bbox_from_xywh (c_xywh c)) i ->
  Spec.extent_in (snd st) i ->
  Crop.block_step zoom c st w = (w', inr st') ->
  Spec.extent_in (snd st') i.
Proof.
  intros Hw He. unfold Crop.block_step.
  destruct (bbox_from_xywh (c_xywh c)) as [[[l t] r] d] eqn:Eb.
  intros E. unbind E as w1 u1 E1.
  destruct (getbbox (c_image c)) as [[[[b0 b1] b2] b3] |].
  - unbind E as w2 t2 E2.
    destruct (Py.Z_lt_float (b2 - b0) t2).
    + unbind E as w3 u3 E3. mred in E. now injection E as _ <-.
    + unbind E as w3 t3 E3.
      destruct (Py.Z_lt_float (b3 - b1) t3).
      * unbind E as w4 u4 E4. mred in E. now injection E as _ <-.
      * unbind E as w4 u4 E4. mred in E. injection E as _ <-.
        change (Spec.extent_in (Crop.update (snd st) (l, t, r, d)) i).
        now apply update_in.
  - unbind E as w2 u2 E2. mred in E. now injection E as _ <-.
Qed.

(** [Image.crop] takes a box that is not inverted. *)
Lemma Image_crop_proper i x0 y0 x1 y1 :
  x0 <= x1 -> y0 <= y1 ->
  Image_crop i (x0, y0, x1, y1) = inr (Cropped i (x0, y0, x1, y1)).
Proof.
  intros Hx Hy. unfold Image_crop.
  destruct (Z.ltb_spec x1 x0); [lia |].
  destruct (Z.ltb_spec y1 y0); [lia | reflexivity].
Qed.

(** and refuses one that is. *)
Lemma Image_crop_inverted i x0 y0 x1 y1 :
  x1 < x0 \/ y1 < y0 ->
  Image_crop i (x0, y0, x1, y1) = inl Py.ValueError.
Proof.
  intros Hx. unfold Image_crop.
  destruct (Z.ltb_spec x1 x0); [reflexivity |].
  destruct (Z.ltb_spec y1 y0); [reflexivity | lia].
Qed.

Lemma padded_border e p i :
  Spec.extent_in e i -> Crop.valid e = true -> 0 <= p ->
  let e' := Crop.padded e p i in
  0 <= Crop.min_x e' < Crop.max_x e' /\ Crop.max_x e' <= width i /\
  0 <= Crop.min_y e' < Crop.max_y e' /\ Crop.max_y e' <= height i.
Proof.
  unfold Spec.extent_in, Crop.valid, Crop.padded. intros He Hv Hp.
  apply andb_true_iff in Hv. destruct Hv as [Hx Hy].
  apply Z.ltb_lt in Hx, Hy. simpl. lia.
Qed.

(** C9.  With a nonnegative padding, a page image of nonnegative size and
    every block box of the engine within the page image: when the extent is
    valid, the Border annotated is a rectangle [x0 < x1], [y0 < y1] within
    the page image, and the image saved and referenced as AlternativeImage
    (with comments "cropped") is the page image cropped to that rectangle. *)
Theorem crop_border_within_page :
  forall self padding p n input_file page_id page page_image zoom image w w1 st,
    0 <= width page_image -> 0 <= height page_image ->
    Py.param_int padding = inr p -> 0 <= p ->
    (forall c, In c (GetComponentImages (tessapi w) BLOCK true false) ->
               Spec.within (bbox_from_xywh (c_xywh c)) page_image) ->
    Crop.detect_extent zoom page_image image w = (w1, inr st) ->
    Crop.valid (snd st) = true ->
    exists x0 y0 x1 y1 file_id w2 page',
      Crop.set_border self padding n input_file page_id page page_image (snd st) w1
      = (w2, inr page') /\
      (0 <= x0 < x1 /\ x1 <= width page_image) /\
      (0 <= y0 < y1 /\ y1 <= height page_image) /\
      Page.Border page' = Some (points_from_bbox x0 y0 x1 y1) /\
      calls w2 = (calls w1 ++
                  [SaveImageFile (Cropped page_image (x0, y0, x1, y1)) file_id
                                 (Some page_id) Crop.FILEGRP_IMG])%list /\
      Page.pg_AlternativeImage page'
      = (Page.pg_AlternativeImage page ++
         [{| Page.filename :=
               save_image_file (Cropped page_image (x0, y0, x1, y1)) file_id
                               (Some page_id) Crop.FILEGRP_IMG;
             Page.comments := "cropped" |}])%list.
Proof.
  intros self padding p n input_file page_id page page_image zoom image w w1 st
         HW HH Hp Hp0 Hin Hd Hv.
  assert (He : Spec.extent_in (snd st) page_image).
  { unfold Crop.detect_extent in Hd.
    unbind Hd as wa t Et. mred in Et. injection Et as <- <-.
    unbind Hd as wb u Eu.
    eapply (for_each_invariant (fun s => Spec.extent_in (snd s) page_image));
      [ | | exact Hd ].
    - intros c s wc wc' s' Hc Hs Es. eapply block_step_in; eauto.
    - unfold Spec.extent_in. simpl. lia. }
  pose proof (padded_border He Hv Hp0) as Hb. cbv zeta in Hb.
  destruct st as [im e0]. cbn [snd] in *.
  set (e := Crop.padded e0 p page_image) in *.
  unfold Crop.set_border. rewrite Hv, Hp. mred.
  change (Crop.padded e0 p page_image) with e.
  rewrite (Image_crop_proper page_image (x0 := Crop.min_x e)
             (y0 := Crop.min_y e) (x1 := Crop.max_x e) (y1 := Crop.max_y e))
    by lia.
  exists (Crop.min_x e), (Crop.min_y e), (Crop.max_x e), (Crop.max_y e).
  do 3 eexists.
  split; [reflexivity |].
  split; [lia |]. split; [lia |].
  split; [reflexivity |]. split; reflexivity.
Qed.

End CropFacts.

(* ===================================================================== *)
(** * segment-line *)
(* ===================================================================== *)

Section SegmentLineFacts.
Context `{External}.

Lemma tr_set_TextLine_same r : Page.tr_set_TextLine r (Page.tr_TextLine r) = r.
Proof. now destruct r. Qed.

(** The loop over the components appends one line per component. *)
Lemma lines_loop region_xywh comps :
  forall n region w,
    for_enumerate n comps region (SegmentLine.line_step region_xywh) w
    = (w, inr (Page.tr_set_TextLine region
                 (Page.tr_TextLine region ++
                  Spec.new_lines (Page.tr_id region) region_xywh n comps))).
Proof.
  induction comps as [| c cs IH]; intros n region w; simpl.
  - unfold ret. now rewrite app_nil_r, tr_set_TextLine_same.
  - unfold SegmentLine.line_step at 1. unfold bind at 1, ret at 1.
    rewrite IH. unfold Page.tr_add_TextLine. simpl.
    now rewrite <- app_assoc.
Qed.

Lemma clear_lines_returns overwrite_lines region w :
  exists w', SegmentLine.clear_lines overwrite_lines region w
             = (w', inr (Spec.cleared overwrite_lines region)) /\
             calls w' = calls w /\ tessapi w' = tessapi w.
Proof.
  unfold SegmentLine.clear_lines, Spec.cleared.
  destruct (Page.tr_TextLine region); [now eexists |].
  destruct (Py.param_truth overwrite_lines); mred; now eexists.
Qed.

Lemma cleared_id overwrite_lines region :
  Page.tr_id (Spec.cleared overwrite_lines region) = Page.tr_id region.
Proof.
  unfold Spec.cleared. destruct (Page.tr_TextLine region); [reflexivity |].
  now destruct (Py.param_truth overwrite_lines).
Qed.

(** What [process_region] returns: the region as cleared, with the new
    lines after the lines it kept. *)
Lemma process_region_returns overwrite_lines page_image page_xywh region w :
  let region0 := Spec.cleared overwrite_lines region in
  exists w',
    SegmentLine.process_region overwrite_lines page_image page_xywh region w
    = (w', inr (Page.tr_set_TextLine region0
                  (Page.tr_TextLine region0 ++
                   Spec.new_lines (Page.tr_id region)
                     (Spec.region_xywh_of overwrite_lines page_image page_xywh region)
                     0
                     (Spec.detected_lines overwrite_lines page_image page_xywh
                                          region w)))).
Proof.
  intros region0. unfold SegmentLine.process_region.
  destruct (clear_lines_returns overwrite_lines region w) as (w1 & E1 & Ec & Et).
  erewrite bind_inr by exact E1. fold region0.
  unfold Spec.region_xywh_of, Spec.detected_lines. fold region0.
  destruct (image_from_region region0 page_image page_xywh)
    as [region_image region_xywh].
  mred. rewrite lines_loop. simpl. rewrite Et.
  subst region0. rewrite cleared_id. now eexists.
Qed.

Lemma nth_new_lines region_id region_xywh comps :
  forall n k c,
    nth_error comps k = Some c ->
    nth_error (Spec.new_lines region_id region_xywh n comps) k
    = Some (Spec.line_of region_id region_xywh (n + Z.of_nat k) c).
Proof.
  induction comps as [| c0 cs IH]; intros n k c E.
  - now destruct k.
  - destruct k as [| k]; simpl in *.
    + injection E as ->. now rewrite Z.add_0_r.
    + rewrite (IH (n + 1) k c E). f_equal. f_equal. lia.
Qed.

(** C2.  For the [k]-th line [c] the engine detects within a region, the
    region returned has, after the lines it kept, a TextLine at place [k]
    whose Coords are [points_from_xywh] of the engine's box with [x] and [y]
    incremented by the region's [x] and [y] offsets and with [w] and [h]
    unchanged. *)
Theorem segment_line_coords_translated :
  forall overwrite_lines page_image page_xywh region w k c,
    let region_xywh :=
      Spec.region_xywh_of overwrite_lines page_image page_xywh region in
    let kept := Page.tr_TextLine (Spec.cleared overwrite_lines region) in
    nth_error (Spec.detected_lines overwrite_lines page_image page_xywh region w)
              k = Some c ->
    exists w' region',
      SegmentLine.process_region overwrite_lines page_image page_xywh region w
      = (w', inr region') /\
      nth_error (Page.tr_TextLine region') (List.length kept + k)
      = Some {| Page.tl_id :=
                  Page.tr_id region ++ "_line" ++ Py.fmt_04d (Z.of_nat k);
                Page.tl_Coords :=
                  points_from_xywh
                    {| xy_x := xy_x (c_xywh c) + xy_x region_xywh;
                       xy_y := xy_y (c_xywh c) + xy_y region_xywh;
                       xy_w := xy_w (c_xywh c);
                       xy_h := xy_h (c_xywh c) |};
                Page.tl_other := "" |}.
Proof.
  intros overwrite_lines page_image page_xywh region w k c region_xywh kept Hk.
  destruct (process_region_returns overwrite_lines page_image page_xywh region w)
    as (w' & E).
  eexists. eexists. split; [exact E |].
  simpl. rewrite nth_error_app2 by (unfold kept; lia).
  replace (List.length kept + k - List.length (Page.tr_TextLine (Spec.cleared overwrite_lines region)))%nat
    with k by (unfold kept; lia).
  now rewrite (nth_new_lines _ _ _ 0 _ Hk).
Qed.

End SegmentLineFacts.

(* ===================================================================== *)
(** * deskew *)
(* ===================================================================== *)

Lemma extends_refl {A} (l : list A) : Spec.extends l l.
Proof. exists []. now rewrite app_nil_r. Qed.

Lemma extends_trans {A} (l1 l2 l3 : list A) :
  Spec.extends l1 l2 -> Spec.extends l2 l3 -> Spec.extends l1 l3.
Proof. intros [t ->] [u ->]. exists (t ++ u)%list. now rewrite app_assoc. Qed.

Lemma extends_snoc {A} (l : list A) a : Spec.extends l (l ++ [a])%list.
Proof. now exists [a]. Qed.

Create HintDb kept.
#[local] Hint Resolve extends_refl extends_snoc : kept.

Section DeskewFacts.
Context `{External}.

Lemma segment_kept_refl s : Spec.segment_kept s s.
Proof.
  destruct s; simpl; unfold Spec.page_kept, Spec.text_region_kept,
    Spec.table_region_kept; repeat split; auto with kept.
Qed.

Lemma segment_kept_trans s1 s2 s3 :
  Spec.segment_kept s1 s2 -> Spec.segment_kept s2 s3 -> Spec.segment_kept s1 s3.
Proof.
  destruct s1, s2, s3; simpl; try tauto;
    unfold Spec.page_kept, Spec.text_region_kept, Spec.table_region_kept;
    intuition (try congruence); eapply extends_trans; eauto.
Qed.

Ltac kept_setter s :=
  destruct s; simpl;
  unfold Spec.page_kept, Spec.text_region_kept, Spec.table_region_kept;
  simpl; repeat split; auto with kept.

Lemma set_orientation_kept s a : Spec.segment_kept s (Deskew.set_orientation s a).
Proof. kept_setter s. Qed.
Lemma set_primaryScript_kept s v : Spec.segment_kept s (Deskew.set_primaryScript s v).
Proof. kept_setter s. Qed.
Lemma set_readingDirection_kept s v :
  Spec.segment_kept s (Deskew.set_readingDirection s v).
Proof. kept_setter s. Qed.
Lemma set_textLineOrder_kept s v : Spec.segment_kept s (Deskew.set_textLineOrder s v).
Proof. kept_setter s. Qed.
Lemma add_AlternativeImage_kept s a :
  Spec.segment_kept s (Deskew.add_AlternativeImage s a).
Proof. kept_setter s. Qed.

Lemma same_images_refl s : Spec.same_images s s.
Proof. now repeat split. Qed.

Lemma same_images_trans s1 s2 s3 :
  Spec.same_images s1 s2 -> Spec.same_images s2 s3 -> Spec.same_images s1 s3.
Proof. unfold Spec.same_images. intuition congruence. Qed.

Lemma set_orientation_images s a : Spec.same_images s (Deskew.set_orientation s a).
Proof. now destruct s. Qed.
Lemma set_primaryScript_images s v : Spec.same_images s (Deskew.set_primaryScript s v).
Proof. now destruct s. Qed.
Lemma set_readingDirection_images s v :
  Spec.same_images s (Deskew.set_readingDirection s v).
Proof. now destruct s. Qed.
Lemma set_textLineOrder_images s v : Spec.same_images s (Deskew.set_textLineOrder s v).
Proof. now destruct s. Qed.

(** What [apply_osd] does, case by case. *)
Lemma apply_osd_cases where_ osr segment comments angle w :
  match osr with
  | None =>
      exists w', Deskew.apply_osd where_ None (segment, comments, angle) w
                 = (w', inr (segment, comments, angle)) /\ Spec.only_logs w w'
  | Some o =>
      if Py.isnan (orient_conf o)
      then Deskew.apply_osd where_ osr (segment, comments, angle) w
           = (w, inl (Py.AssertionError Deskew.orient_failed))
      else if Py.isnan (script_conf o)
      then exists w', Deskew.apply_osd where_ osr (segment, comments, angle) w
                      = (w', inl (Py.AssertionError Deskew.script_failed)) /\
                      Spec.only_logs w w'
      else exists w' segment' angle',
          Deskew.apply_osd where_ osr (segment, comments, angle) w
          = (w', inr (segment', comments ++ Spec.osd_comment osr, angle')) /\
          Spec.only_logs w w' /\ Spec.segment_kept segment segment' /\
          Spec.same_images segment segment'
  end.
Proof.
  destruct osr as [o |]; unfold Deskew.apply_osd, Deskew.assert, Spec.only_logs.
  2: { mred. eexists. split; [reflexivity |]. now split. }
  destruct (Py.isnan (orient_conf o)); simpl negb; cbv iota.
  1: { mred. reflexivity. }
  unfold Spec.osd_comment.
  destruct (Py.isnan (script_conf o)); simpl negb; cbv iota.
  - destruct (Py.float_lt_Z (orient_conf o) 10); mred; simpl;
      (eexists; split; [reflexivity |]; now split).
  - assert (Hc : forall c : string, (c ++ "")%string = c).
    { induction c; simpl; congruence. }
    destruct (Py.float_lt_Z (orient_conf o) 10);
      destruct (Py.float_lt_Z (script_conf o) 10); mred; simpl;
      try destruct (orient_deg o =? 0); simpl; rewrite ?Hc;
      try destruct (Deskew.is_TextRegion_or_Page segment);
      (do 3 eexists; split; [reflexivity |];
       split; [now split |];
       split; [first [apply segment_kept_refl | apply set_primaryScript_kept]
              | first [apply same_images_refl | apply set_primaryScript_images]]).
Qed.

(** [% 360] never divides by zero. *)
Lemma normalize_angle_returns angle :
  Deskew.normalize_angle angle = ret (Spec.normalized angle).
Proof.
  unfold Deskew.normalize_angle, Spec.normalized.
  remember (Py.float_of_Z 360) as y eqn:Ey. vm_compute in Ey. subst y.
  unfold Py.fmod. mred. reflexivity.
Qed.

Lemma append_empty (c : string) : (c ++ "")%string = c.
Proof. induction c; simpl; congruence. Qed.

(** What [apply_layout] does, case by case. *)
Lemma apply_layout_cases where_ layout angle segment comments image w :
  match layout with
  | None =>
      Deskew.apply_layout where_ None angle (segment, comments, image) w
      = (w, inr (segment, comments, image))
  | Some lo =>
      match Py.int_of_float (Deskew.degrees (lo_deskew_angle lo)) with
      | inl e =>
          Deskew.apply_layout where_ layout angle (segment, comments, image) w
          = (w, inl e) /\ (e = Py.ValueError \/ e = Py.OverflowError)
      | inr _ =>
          exists w' segment' image',
            Deskew.apply_layout where_ layout angle (segment, comments, image) w
            = (w', inr (segment', comments ++ Spec.layout_comment layout, image')) /\
            Spec.only_logs w w' /\ Spec.segment_kept segment segment' /\
            Spec.same_images segment segment'
      end
  end.
Proof.
  destruct layout as [lo |]; unfold Deskew.apply_layout; [| reflexivity].
  unfold Spec.layout_comment.
  destruct (Py.int_of_float (Deskew.degrees (lo_deskew_angle lo))) as [e | i] eqn:Ei.
  - split; [mred; reflexivity |].
    unfold Py.int_of_float in Ei.
    destruct (Deskew.degrees (lo_deskew_angle lo)); try discriminate;
      injection Ei as <-; auto.
  - set (a := Py.fadd _ _).
    assert (Hs : forall s : Segment,
               Spec.segment_kept s
                 (if Deskew.is_TextRegion_or_Page s
                  then Deskew.set_textLineOrder
                         (Deskew.set_readingDirection s
                            (Deskew.readingDirection_of (lo_writing_direction lo)))
                         (Deskew.textLineOrder_of (lo_textline_order lo))
                  else s) /\
               Spec.same_images s
                 (if Deskew.is_TextRegion_or_Page s
                  then Deskew.set_textLineOrder
                         (Deskew.set_readingDirection s
                            (Deskew.readingDirection_of (lo_writing_direction lo)))
                         (Deskew.textLineOrder_of (lo_textline_order lo))
                  else s)).
    { intros s. destruct (Deskew.is_TextRegion_or_Page s).
      - split.
        + eapply segment_kept_trans;
            [apply set_readingDirection_kept | apply set_textLineOrder_kept].
        + eapply same_images_trans;
            [apply set_readingDirection_images | apply set_textLineOrder_images].
      - split; [apply segment_kept_refl | apply same_images_refl]. }
    assert (Hc : (comments ++ (if (i =? 0)%Z then "" else ",deskewed"))%string
                 = if (i =? 0)%Z then comments
                   else (comments ++ ",deskewed")%string).
    { destruct (i =? 0); [apply append_empty | reflexivity]. }
    replace (match i with 0 => "" | _ => ",deskewed" end)
      with (if i =? 0 then "" else ",deskewed") by now destruct i.
    rewrite Hc.
    rewrite normalize_angle_returns.
    destruct (Py.fis_zero a) eqn:Ea; simpl negb; cbv iota;
      destruct (Py.Z_ne_num (Deskew.angle2_of (lo_orientation lo)) angle);
      mred; simpl;
      (do 3 eexists; split; [reflexivity |]; split; [now split |]).
    1, 2: apply Hs.
    all: destruct (Hs (Deskew.set_orientation segment (Spec.normalized a)))
           as [Hk Hi];
      (split;
       [eapply segment_kept_trans; [apply set_orientation_kept | exact Hk]
       |eapply same_images_trans; [apply set_orientation_images | exact Hi]]).
Qed.

Lemma prefix_append (s x : string) : String.prefix s (s ++ x) = true.
Proof.
  induction s as [| a s IH]; simpl.
  - now destruct x.
  - destruct (ascii_dec a a); [exact IH | congruence].
Qed.

Lemma append_assoc (a b c : string) :
  ((a ++ b) ++ c)%string = (a ++ b ++ c)%string.
Proof. induction a; simpl; congruence. Qed.

(** What [_process_segment] does, case by case. *)
Lemma process_segment_cases segment image xywh where_ page_id file_id w :
  let t := ts_SetImage (tessapi w) image in
  let r := Deskew._process_segment segment image xywh where_ page_id file_id w in
  let after_osd :=
    match AnalyseLayout t with
    | Some lo =>
        match Py.int_of_float (Deskew.degrees (lo_deskew_angle lo)) with
        | inl e => snd r = inl e /\ (e = Py.ValueError \/ e = Py.OverflowError)
        | inr _ => Spec.went_through segment image xywh page_id file_id w r
        end
    | None => Spec.went_through segment image xywh page_id file_id w r
    end in
  match DetectOrientationScript t with
  | Some o =>
      if Py.isnan (orient_conf o)
      then snd r = inl (Py.AssertionError Deskew.orient_failed)
      else if Py.isnan (script_conf o)
      then snd r = inl (Py.AssertionError Deskew.script_failed)
      else after_osd
  | None => after_osd
  end.
Proof.
  intros t r after_osd.
  set (w1 := {| log := log w;
                calls := (calls w ++ [TessSetImage image]) ++
                         [TessDetectOrientationScript];
                tessapi := t |}).
  set (st0 := (segment, Deskew.initial_comments segment xywh,
               Py.NFloat (S754_zero false))).
  assert (Er : r = bind (Deskew.apply_osd where_ (DetectOrientationScript t) st0)
                 (fun sca =>
                    let '(segment, comments, angle) := sca in
                    t <- get_tessapi ;;
                    call TessAnalyseLayout ;;
                    sci <- Deskew.apply_layout where_ (AnalyseLayout t) angle
                             (segment, comments, image) ;;
                    let '(segment, comments, image) := sci in
                    call (SaveImageFile image file_id page_id Deskew.FILEGRP_IMG) ;;
                    ret (Deskew.add_AlternativeImage segment
                           {| Page.filename :=
                                save_image_file image file_id page_id
                                                Deskew.FILEGRP_IMG;
                              Page.comments := comments |})) w1)
    by reflexivity.
  (* what happens once orientation detection has returned *)
  assert (Hrest : forall w2 segment2 angle2,
             Deskew.apply_osd where_ (DetectOrientationScript t) st0 w1
             = (w2, inr (segment2,
                         (Deskew.initial_comments segment xywh ++
                          Spec.osd_comment (DetectOrientationScript t))%string,
                         angle2)) ->
             Spec.only_logs w1 w2 -> Spec.segment_kept segment segment2 ->
             Spec.same_images segment segment2 -> after_osd).
  { intros w2 segment2 angle2 E2 [Hc2 Ht2] Hk2 Hi2.
    rewrite (@bind_inr _ _ _ _ _ _ _ E2) in Er. cbv beta iota in Er.
    unfold bind at 1, get_tessapi at 1 in Er.
    unfold bind at 1, call at 1 in Er. cbv beta iota in Er.
    simpl tessapi in Er. rewrite Ht2 in Er. simpl tessapi in Er.
    subst after_osd.
    pose proof (apply_layout_cases where_ (AnalyseLayout t) angle2 segment2
                  (Deskew.initial_comments segment xywh ++
                   Spec.osd_comment (DetectOrientationScript t))%string image
                  {| log := log w2; calls := calls w2 ++ [TessAnalyseLayout];
                     tessapi := t |}) as Hl.
    assert (Hgood : forall w3 segment3 image3,
               Deskew.apply_layout where_ (AnalyseLayout t) angle2
                 (segment2,
                  (Deskew.initial_comments segment xywh ++
                   Spec.osd_comment (DetectOrientationScript t))%string, image)
                 {| log := log w2; calls := calls w2 ++ [TessAnalyseLayout];
                    tessapi := t |}
               = (w3, inr (segment3,
                           ((Deskew.initial_comments segment xywh ++
                             Spec.osd_comment (DetectOrientationScript t)) ++
                            Spec.layout_comment (AnalyseLayout t))%string,
                           image3)) ->
               calls w3 = (calls w2 ++ [TessAnalyseLayout])%list ->
               Spec.segment_kept segment2 segment3 ->
               Spec.same_images segment2 segment3 ->
               Spec.went_through segment image xywh page_id file_id w r).
    { intros w3 segment3 image3 E3 Hc3 Hk3 Hi3.
      rewrite (@bind_inr _ _ _ _ _ _ _ E3) in Er. cbv beta iota in Er.
      unfold bind, call, ret in Er. cbv beta iota in Er.
      exists {| log := log w3;
                calls := calls w3 ++
                         [SaveImageFile image3 file_id page_id Deskew.FILEGRP_IMG];
                tessapi := tessapi w3 |},
        (Deskew.add_AlternativeImage segment3
           {| Page.filename :=
                save_image_file image3 file_id page_id Deskew.FILEGRP_IMG;
              Page.comments :=
                ((Deskew.initial_comments segment xywh ++
                  Spec.osd_comment (DetectOrientationScript t)) ++
                 Spec.layout_comment (AnalyseLayout t))%string |}), image3.
      split; [exact Er |]. split; [| split].
      - destruct Hi2 as (Ha2 & _), Hi3 as (Ha3 & _).
        rewrite append_assoc. fold t.
        destruct segment3; simpl in *; now rewrite Ha3, Ha2.
      - simpl. rewrite Hc3, Hc2. subst w1. simpl.
        now rewrite <- !app_assoc.
      - eapply segment_kept_trans; [exact Hk2 |].
        eapply segment_kept_trans; [exact Hk3 |].
        apply add_AlternativeImage_kept. }
    destruct (AnalyseLayout t) as [lo |].
    - destruct (Py.int_of_float (Deskew.degrees (lo_deskew_angle lo))) as [e | i].
      + destruct Hl as [El He]. split; [| exact He].
        rewrite (@bind_inl _ _ _ _ _ _ _ El) in Er. now rewrite Er.
      + destruct Hl as (w3 & segment3 & image3 & E3 & [Hc3 Ht3] & Hk3 & Hi3).
        eapply Hgood; eauto.
    - eapply Hgood.
      + rewrite Hl. simpl Spec.layout_comment. now rewrite append_empty.
      + reflexivity.
      + apply segment_kept_refl.
      + apply same_images_refl. }
  pose proof (apply_osd_cases where_ (DetectOrientationScript t) segment
                (Deskew.initial_comments segment xywh)
                (Py.NFloat (S754_zero false)) w1) as Ho.
  fold st0 in Ho.
  destruct (DetectOrientationScript t) as [o |] eqn:Eo.
  - destruct (Py.isnan (orient_conf o)).
    + rewrite (@bind_inl _ _ _ _ _ _ _ Ho) in Er. now rewrite Er.
    + destruct (Py.isnan (script_conf o)).
      * destruct Ho as (w2 & E2 & _). rewrite (@bind_inl _ _ _ _ _ _ _ E2) in Er.
        now rewrite Er.
      * destruct Ho as (w2 & segment2 & angle2 & E2 & Hl2 & Hk2 & Hi2).
        eapply Hrest; eauto.
  - destruct Ho as (w2 & E2 & Hl2).
    eapply Hrest.
    + rewrite E2. simpl Spec.osd_comment. now rewrite append_empty.
    + exact Hl2.
    + apply segment_kept_refl.
    + apply same_images_refl.
Qed.

(** C4.  When orientation and script detection returns a result: if its
    orientation confidence is NaN, or else its script confidence is NaN,
    [_process_segment] fails with the AssertionError of that check; if
    neither is NaN, it does not fail with an AssertionError. *)
Theorem deskew_nan_confidence_asserts :
  forall segment image xywh where_ page_id file_id w osr,
    DetectOrientationScript (ts_SetImage (tessapi w) image) = Some osr ->
    let r := Deskew._process_segment segment image xywh where_ page_id file_id w in
    (Py.isnan (orient_conf osr) = true ->
     snd r = inl (Py.AssertionError Deskew.orient_failed)) /\
    (Py.isnan (orient_conf osr) = false -> Py.isnan (script_conf osr) = true ->
     snd r = inl (Py.AssertionError Deskew.script_failed)) /\
    (Py.isnan (orient_conf osr) = false -> Py.isnan (script_conf osr) = false ->
     forall msg, snd r <> inl (Py.AssertionError msg)).
Proof.
  intros segment image xywh where_ page_id file_id w osr Ho r.
  pose proof (process_segment_cases segment image xywh where_ page_id file_id w)
    as Hc.
  cbv zeta in Hc. fold r in Hc. rewrite Ho in Hc.
  split; [| split].
  - intros Hn. now rewrite Hn in Hc.
  - intros Hn Hs. now rewrite Hn, Hs in Hc.
  - intros Hn Hs msg. rewrite Hn, Hs in Hc.
    destruct (AnalyseLayout (ts_SetImage (tessapi w) image)) as [lo |].
    + destruct (Py.int_of_float (Deskew.degrees (lo_deskew_angle lo))).
      * destruct Hc as [-> [-> | ->]]; discriminate.
      * destruct Hc as (w' & s' & i' & -> & _). discriminate.
    + destruct Hc as (w' & s' & i' & -> & _). discriminate.
Qed.

(** When [_process_segment] returns, it went through. *)
Lemma process_segment_returns segment image xywh where_ page_id file_id w w' s' :
  Deskew._process_segment segment image xywh where_ page_id file_id w
  = (w', inr s') ->
  Spec.went_through segment image xywh page_id file_id w (w', inr s').
Proof.
  intros E.
  pose proof (process_segment_cases segment image xywh where_ page_id file_id w)
    as Hc.
  cbv zeta in Hc. rewrite E in Hc. simpl snd in Hc.
  destruct (DetectOrientationScript (ts_SetImage (tessapi w) image)) as [o |].
  - destruct (Py.isnan (orient_conf o)); [discriminate |].
    destruct (Py.isnan (script_conf o)); [discriminate |].
    destruct (AnalyseLayout (ts_SetImage (tessapi w) image)) as [lo |]; auto.
    destruct (Py.int_of_float (Deskew.degrees (lo_deskew_angle lo))); auto.
    now destruct Hc.
  - destruct (AnalyseLayout (ts_SetImage (tessapi w) image)) as [lo |]; auto.
    destruct (Py.int_of_float (Deskew.degrees (lo_deskew_angle lo))); auto.
    now destruct Hc.
Qed.

(** The annotations appended to the comments start with a comma, if any. *)
Lemma annotations_not_cropped osr layout :
  String.prefix "cropped" (Spec.osd_comment osr ++ Spec.layout_comment layout)
  = false.
Proof.
  assert (Hl : String.prefix "cropped" (Spec.layout_comment layout) = false).
  { unfold Spec.layout_comment. destruct layout as [lo |]; [| reflexivity].
    destruct (Py.int_of_float _) as [e | [| p | p]]; reflexivity. }
  unfold Spec.osd_comment. destruct osr as [o |]; [| exact Hl].
  destruct (Py.float_lt_Z (orient_conf o) 10); [exact Hl |].
  destruct (orient_deg o =? 0); [exact Hl | reflexivity].
Qed.

Lemma initial_comments_cases segment xywh :
  (Spec.region_or_offset segment xywh /\
   Deskew.initial_comments segment xywh = "cropped") \/
  (~ Spec.region_or_offset segment xywh /\
   Deskew.initial_comments segment xywh = "").
Proof.
  unfold Spec.region_or_offset, Deskew.initial_comments.
  destruct (Deskew.is_PageType segment); simpl.
  - destruct (xy_x xywh =? 0) eqn:Ex; simpl.
    + destruct (xy_y xywh =? 0) eqn:Ey; simpl.
      * right. split; [| reflexivity]. apply Z.eqb_eq in Ex, Ey.
        intros [Hp | [Hx | Hy]]; [discriminate | lia | lia].
      * left. split; [| reflexivity]. apply Z.eqb_neq in Ey. auto.
    + left. split; [| reflexivity]. apply Z.eqb_neq in Ex. auto.
  - left. split; [auto | reflexivity].
Qed.

(** C10, as amended.  When orientation and script detection does not fail
    (no result, or confidences that are numbers) and the deskew angle of
    the layout analysis, if any, is in degrees (times [-180 / math.pi]) a
    number that [int()] converts, neither NaN nor infinite,
    [_process_segment] returns the
    segment with exactly one AlternativeImage appended, whose filename is
    that of the image file it has just saved, whatever else the engine
    returned.  Its comments are the initial comments followed by the
    rotation annotations; the initial comments are "cropped" exactly when
    the segment is a region or a page with a nonzero x or y offset, and
    empty otherwise; and the whole comments start with "cropped" exactly
    in that case. *)
Theorem deskew_one_alternative_image :
  forall segment image xywh where_ page_id file_id w,
    let t := ts_SetImage (tessapi w) image in
    Spec.osd_ok (DetectOrientationScript t) ->
    Spec.layout_ok (AnalyseLayout t) ->
    exists w' segment' image' annotations,
      let comments :=
        (Deskew.initial_comments segment xywh ++ annotations)%string in
      Deskew._process_segment segment image xywh where_ page_id file_id w
      = (w', inr segment') /\
      Deskew.get_AlternativeImage segment'
      = (Deskew.get_AlternativeImage segment ++
         [{| Page.filename :=
               save_image_file image' file_id page_id Deskew.FILEGRP_IMG;
             Page.comments := comments |}])%list /\
      calls w' = (calls w ++
                  [TessSetImage image; TessDetectOrientationScript;
                   TessAnalyseLayout;
                   SaveImageFile image' file_id page_id Deskew.FILEGRP_IMG])%list /\
      (Deskew.initial_comments segment xywh = "cropped"
       <-> Spec.region_or_offset segment xywh) /\
      (Deskew.initial_comments segment xywh = ""
       <-> ~ Spec.region_or_offset segment xywh) /\
      (String.prefix "cropped" comments = true
       <-> Spec.region_or_offset segment xywh).
Proof.
  intros segment image xywh where_ page_id file_id w t Hosd Hlay.
  pose proof (process_segment_cases segment image xywh where_ page_id file_id w)
    as Hc.
  cbv zeta in Hc. fold t in Hc.
  assert (Hw : Spec.went_through segment image xywh page_id file_id w
                 (Deskew._process_segment segment image xywh where_ page_id
                                          file_id w)).
  { unfold Spec.osd_ok, Spec.layout_ok in *.
    destruct (DetectOrientationScript t) as [o |].
    - destruct Hosd as [Ho1 Ho2]. rewrite Ho1, Ho2 in Hc.
      destruct (AnalyseLayout t) as [lo |]; auto.
      destruct Hlay as [i Hi]. now rewrite Hi in Hc.
    - destruct (AnalyseLayout t) as [lo |]; auto.
      destruct Hlay as [i Hi]. now rewrite Hi in Hc. }
  destruct Hw as (w' & segment' & image' & Er & Ha & Hcalls & _).
  fold t in Ha.
  exists w', segment', image',
    (Spec.osd_comment (DetectOrientationScript t) ++
     Spec.layout_comment (AnalyseLayout t))%string.
  cbv zeta.
  split; [exact Er |]. split; [exact Ha |]. split; [exact Hcalls |].
  destruct (initial_comments_cases segment xywh) as [[Hr Ei] | [Hr Ei]];
    rewrite Ei.
  - split; [tauto |]. split; [split; [discriminate | tauto] |].
    split; [tauto | intros _; apply prefix_append].
  - split; [split; [discriminate | tauto] |]. split; [tauto |].
    simpl. rewrite annotations_not_cropped.
    split; [discriminate | tauto].
Qed.

End DeskewFacts.

(* ===================================================================== *)
(** * What the processors keep of the input document *)
(* ===================================================================== *)

Section Kept.
Context `{External}.

Lemma crop_annotate_kept self padding n input_file image w w' image' d' :
  Crop.annotate self padding n input_file image w = (w', inr (image', d')) ->
  let d := page_from_file (download_file input_file) in
  Page.Metadata d' = (Page.Metadata d ++ [processing_step self Crop.TOOL])%list /\
  Spec.crop_kept (Page.Page d) (Page.Page d').
Proof.
  intros E d. rewrite annotate_via_detect in E.
  unbind E as w1 r Ed. destruct r as [[pcgts page_image] st].
  destruct (detect_returns _ _ _ _ _ Ed) as [-> _].
  unbind E as w2 page' Es. mred in E. injection E as _ _ <-.
  split; [reflexivity |]. simpl.
  unfold Crop.set_border in Es.
  destruct (Crop.valid (snd st)).
  - unbind Es as w3 p Ep. unbind Es as w4 u4 E4. unbind Es as w5 u5 E5.
    mred in Es. injection Es as _ <-. right. eauto.
  - unbind Es as w3 u3 E3. mred in Es. injection Es as _ <-. now left.
Qed.

Lemma cleared_lines overwrite_lines r :
  Spec.cleared overwrite_lines r
  = Page.tr_set_TextLine r
      (if Py.param_truth overwrite_lines then [] else Page.tr_TextLine r).
Proof.
  unfold Spec.cleared. destruct r as [i c l a o ps rd tl ot]. simpl.
  destruct l; destruct (Py.param_truth overwrite_lines); reflexivity.
Qed.

Lemma segment_line_annotate_kept self overwrite_lines n input_file w w' d' :
  SegmentLine.annotate self overwrite_lines n input_file w = (w', inr d') ->
  let d := page_from_file (download_file input_file) in
  Page.Metadata d' = (Page.Metadata d ++ [processing_step self SegmentLine.TOOL])%list /\
  Spec.line_page_kept overwrite_lines (Page.Page d) (Page.Page d').
Proof.
  intros E d. unfold SegmentLine.annotate, SegmentLine.annotate_page in E.
  unbind E as w1 d1 E1. rewrite fetch_returns in E1. injection E1 as _ <-.
  unbind E as w2 u2 E2.
  destruct (image_from_page _ _ _) as [page_image page_xywh].
  unbind E as w4 regions Er. mred in E. injection E as _ <-.
  split; [reflexivity |]. simpl.
  exists regions. split; [reflexivity |].
  eapply for_update_Forall2; [| exact Er].
  intros r wa wb r' Ea.
  destruct (process_region_returns overwrite_lines page_image page_xywh r wa)
    as (wc & Ec).
  rewrite Ea in Ec. injection Ec as _ ->.
  rewrite cleared_lines. simpl. eexists. reflexivity.
Qed.

Lemma deskew_annotate_kept self oplevel n input_file w w' d' :
  Deskew.annotate self oplevel n input_file w = (w', inr d') ->
  let d := page_from_file (download_file input_file) in
  Page.Metadata d' = (Page.Metadata d ++ [processing_step self Deskew.TOOL])%list /\
  Spec.deskew_kept oplevel (Page.Page d) (Page.Page d').
Proof.
  intros E d. unfold Deskew.annotate, Deskew.annotate_page in E.
  unbind E as w1 d1 E1. rewrite fetch_returns in E1. injection E1 as _ <-.
  destruct (image_from_page_info _ _) as [[page_image page_xywh] info].
  unbind E as w3 u3 E3. unbind E as w4 u4 E4. unbind E as w5 page' Ep.
  mred in E. injection E as _ <-.
  split; [reflexivity |]. simpl.
  unfold Deskew.process_page in Ep. unfold Spec.deskew_kept.
  destruct (Py.param_eq_str oplevel "page").
  - unbind Ep as w6 s Es. mred in Ep. injection Ep as _ <-.
    apply process_segment_returns in Es.
    destruct Es as (wa & sa & ia & Ea & _ & _ & Hk).
    injection Ea as _ <-. now destruct s.
  - unbind Ep as w6 u6 E6. unbind Ep as w7 texts Et. unbind Ep as w8 tables Eb.
    mred in Ep. injection Ep as _ <-.
    exists texts, tables. split; [reflexivity |]. split.
    + eapply for_update_Forall2; [| exact Et].
      intros r wa wb r' Ea. unfold Deskew.process_text_region in Ea.
      destruct (image_from_segment _ _ _) as [region_image region_xywh].
      unbind Ea as wc s Es. mred in Ea. injection Ea as _ <-.
      apply process_segment_returns in Es.
      destruct Es as (wd & sd & id & Ed & _ & _ & Hk).
      injection Ed as _ <-. now destruct s.
    + eapply for_update_Forall2; [| exact Eb].
      intros r wa wb r' Ea. unfold Deskew.process_table_region in Ea.
      destruct (image_from_segment _ _ _) as [region_image region_xywh].
      unbind Ea as wc s Es. mred in Ea. injection Ea as _ <-.
      apply process_segment_returns in Es.
      destruct Es as (wd & sd & id & Ed & _ & _ & Hk).
      injection Ed as _ <-. now destruct s.
Qed.

(** C3, as amended.  For every input file, the document a processor
    serialises is the input document with the processing step appended to
    the metadata items, and with its page kept as follows.  crop: the page
    as it was, or with a new Border in place of the old one and one
    AlternativeImage appended.  segment-line: every text region as it was
    but for its TextLines, which are the old ones followed by new ones
    or, when [overwrite_lines] is set, the new ones only.  deskew: on
    page level the page, on region level each text and table region, with
    AlternativeImages appended and the orientation, script, reading
    direction and text line order attributes possibly set; Border, regions'
    Coords and TextLines as they were. *)
Theorem processors_keep_document :
  forall self padding overwrite_lines oplevel n input_file,
    let d := page_from_file (download_file input_file) in
    (forall image w w' image' d',
        Crop.annotate self padding n input_file image w = (w', inr (image', d')) ->
        Page.Metadata d'
        = (Page.Metadata d ++ [processing_step self Crop.TOOL])%list /\
        Spec.crop_kept (Page.Page d) (Page.Page d')) /\
    (forall w w' d',
        SegmentLine.annotate self overwrite_lines n input_file w = (w', inr d') ->
        Page.Metadata d'
        = (Page.Metadata d ++ [processing_step self SegmentLine.TOOL])%list /\
        Spec.line_page_kept overwrite_lines (Page.Page d) (Page.Page d')) /\
    (forall w w' d',
        Deskew.annotate self oplevel n input_file w = (w', inr d') ->
        Page.Metadata d'
        = (Page.Metadata d ++ [processing_step self Deskew.TOOL])%list /\
        Spec.deskew_kept oplevel (Page.Page d) (Page.Page d')).
Proof.
  intros self padding overwrite_lines oplevel n input_file d.
  split; [| split].
  - intros image w w' image' d' E. exact (crop_annotate_kept _ _ _ _ _ _ E).
  - intros w w' d' E. exact (segment_line_annotate_kept _ _ _ _ _ E).
  - intros w w' d' E. exact (deskew_annotate_kept _ _ _ _ _ E).
Qed.

End Kept.

(* ===================================================================== *)
(** * One engine instance per run *)
(* ===================================================================== *)

Lemma emits_ret {A} P (a : A) : emits P (ret a).
Proof. intros w. exists []. simpl. now rewrite app_nil_r. Qed.

Lemma emits_raise {A} P e : emits P (@raise A e).
Proof. intros w. exists []. simpl. now rewrite app_nil_r. Qed.

Lemma emits_lift {A} P (r : Py.Exn + A) : emits P (lift r).
Proof. intros w. exists []. simpl. now rewrite app_nil_r. Qed.

Lemma emits_LOG P l msg args : emits P (LOG l msg args).
Proof. intros w. exists []. simpl. now rewrite app_nil_r. Qed.

Lemma emits_get_tessapi P : emits P get_tessapi.
Proof. intros w. exists []. simpl. now rewrite app_nil_r. Qed.

Lemma emits_set_tessapi P t : emits P (set_tessapi t).
Proof. intros w. exists []. simpl. now rewrite app_nil_r. Qed.

Lemma emits_call (P : Call -> Prop) c : P c -> emits P (call c).
Proof. intros Hc w. exists [c]. simpl. split; [reflexivity | now constructor]. Qed.

Lemma emits_bind {A B} P (m : M A) (k : A -> M B) :
  emits P m -> (forall a, emits P (k a)) -> emits P (bind m k).
Proof.
  intros Hm Hk w. destruct (Hm w) as (l1 & E1 & F1). unfold bind.
  destruct (m w) as [w1 [e | a]]; simpl in *.
  - now exists l1.
  - destruct (Hk a w1) as (l2 & E2 & F2). exists (l1 ++ l2)%list.
    rewrite E2, E1, app_assoc. split; [reflexivity | now apply Forall_app].
Qed.

Lemma emits_for_each {A S} P (body : A -> S -> M S) :
  (forall x s, emits P (body x s)) ->
  forall l s, emits P (for_each l s body).
Proof.
  intros Hb. induction l as [| x l IH]; intros s; simpl.
  - apply emits_ret.
  - apply emits_bind; auto.
Qed.

Lemma emits_for_enumerate {A S} P (body : Z -> A -> S -> M S) :
  (forall n x s, emits P (body n x s)) ->
  forall l n s, emits P (for_enumerate n l s body).
Proof.
  intros Hb. induction l as [| x l IH]; intros n s; simpl.
  - apply emits_ret.
  - apply emits_bind; auto.
Qed.

Lemma emits_for_update {A} P (body : A -> M A) :
  (forall x, emits P (body x)) -> forall l, emits P (for_update l body).
Proof.
  intros Hb. induction l as [| x l IH]; simpl.
  - apply emits_ret.
  - apply emits_bind; [auto |]. intros x'.
    apply emits_bind; [auto |]. intros l'. apply emits_ret.
Qed.

(** Going through a computation made of the pieces above. *)
Ltac quiet :=
  repeat first
    [ apply emits_ret | apply emits_raise | apply emits_lift | apply emits_LOG
    | apply emits_get_tessapi | apply emits_set_tessapi
    | apply emits_call; exact I
    | apply emits_bind; [| intros ?]
    | apply emits_for_each; intros ? ?
    | apply emits_for_enumerate; intros ? ? ?
    | apply emits_for_update; intros ?
    | match goal with
      | |- emits _ (if ?b then _ else _) => destruct b
      | |- emits _ (match ?x with _ => _ end) => destruct x
      end ].

Lemma filter_inner_no_init l : Forall Spec.inner l -> filter Spec.is_init l = [].
Proof.
  induction 1 as [| c l Hc _ IH]; [reflexivity |].
  simpl. rewrite IH. now destruct c.
Qed.

Lemma handled_no_init files completed trace :
  Spec.handled files completed trace -> filter Spec.is_init trace = [].
Proof.
  induction 1 as [| f fs completed l output trace Hl _ IH | f fs l Hl]; simpl.
  - reflexivity.
  - rewrite filter_app. simpl. now rewrite (filter_inner_no_init Hl), IH.
  - now apply filter_inner_no_init.
Qed.

(** A loop over the input files whose body fetches the file, makes inner
    calls and, when it returns, has added the output file last, handles
    the files one after the other. *)
Lemma loop_handled {S} (body : Z -> OcrdFile -> S -> M S) :
  (forall n f s w,
      exists l, Forall Spec.inner l /\
        match snd (body n f s w) with
        | inr _ => exists output,
            calls (fst (body n f s w))
            = (calls w ++ WsDownloadFile f :: l ++ [WsAddFile output])%list
        | inl _ =>
            calls (fst (body n f s w)) = (calls w ++ WsDownloadFile f :: l)%list
        end) ->
  forall files n s w,
  exists trace,
    calls (fst (for_enumerate n files s body w)) = (calls w ++ trace)%list /\
    Spec.handled files (Spec.returned (for_enumerate n files s body w)) trace.
Proof.
  intros Hb. induction files as [| f fs IH]; intros n s w; simpl.
  - exists []. rewrite app_nil_r. split; [reflexivity | constructor].
  - destruct (Hb n f s w) as (l & Hl & Hr). unfold bind.
    destruct (body n f s w) as [w1 [e | s1]]; simpl in Hr.
    + exists (WsDownloadFile f :: l). split; [exact Hr |].
      unfold Spec.returned. simpl. now constructor.
    + destruct Hr as (output & Hr).
      destruct (IH (n + 1) s1 w1) as (trace & Et & Ht).
      exists (WsDownloadFile f :: l ++ WsAddFile output :: trace)%list.
      split.
      * rewrite Et, Hr. rewrite <- !app_assoc. simpl.
        now rewrite <- app_assoc.
      * now constructor.
Qed.

(** A body made of [fetch], inner calls and [add_output_file] is such. *)
Lemma file_handled `{External} {A S} (self : Processor) (TOOL : string) n f
    (rest : Page.PcGts -> M A) (doc : A -> Page.PcGts) (next : A -> S) w :
  (forall d, emits Spec.inner (rest d)) ->
  let m := a <- (d <- fetch self TOOL n f ;; rest d) ;;
           add_output_file self n f (doc a) ;; ret (next a) in
  exists l, Forall Spec.inner l /\
    match snd (m w) with
    | inr _ => exists output,
        calls (fst (m w))
        = (calls w ++ WsDownloadFile f :: l ++ [WsAddFile output])%list
    | inl _ => calls (fst (m w)) = (calls w ++ WsDownloadFile f :: l)%list
    end.
Proof.
  intros Hr m.
  set (w1 := {| log := log w ++
                  [{| lr_level := INFO; lr_msg := "INPUT FILE %i / %s";
                      lr_args := [Py.VInt n;
                                  Py.VStr (Py.str_or (pageId f) (ID f))] |}];
                calls := calls w ++ [WsDownloadFile f];
                tessapi := tessapi w |}).
  assert (E : m w
              = match rest (open_page self TOOL f) w1 with
                | (w2, inl e) => (w2, inl e)
                | (w2, inr a) =>
                    ({| log := log w2;
                        calls := calls w2 ++
                                 [WsAddFile (output_file self n f (doc a))];
                        tessapi := tessapi w2 |}, inr (next a))
                end) by reflexivity.
  rewrite E. clear E.
  destruct (Hr (open_page self TOOL f) w1) as (l & El & Fl).
  destruct (rest (open_page self TOOL f) w1) as [w2 [e | a]];
    simpl in El; exists l; (split; [exact Fl |]); simpl.
  - rewrite El. now rewrite <- app_assoc.
  - eexists. rewrite El. rewrite <- !app_assoc. reflexivity.
Qed.

Lemma getitem_present d k :
  In k (map fst d) -> exists v, forall w, getitem d k w = (w, inr v).
Proof.
  induction d as [| [k' v] d IH]; simpl; [tauto |].
  intros Hk. destruct (String.eqb k' k) eqn:E.
  - now exists v.
  - destruct Hk as [-> | Hk]; [now rewrite String.eqb_refl in E | auto].
Qed.

(** The engine instance around a computation that sets up and then handles
    the files. *)
Lemma with_engine engine files (m : M unit) w :
  (forall w1, exists setup trace,
      calls (fst (m w1)) = (calls w1 ++ setup ++ trace)%list /\
      Forall Spec.inner setup /\
      Spec.handled files (Spec.returned (m w1)) trace) ->
  Spec.one_engine_run engine files (with_PyTessBaseAPI engine m) w.
Proof.
  intros Hm.
  set (w1 := {| log := log w; calls := calls w ++ [TessInit engine];
                tessapi := engine |}).
  destruct (Hm w1) as (setup & trace & Ec & Fs & Ht).
  assert (E : with_PyTessBaseAPI engine m w
              = ({| log := log (fst (m w1));
                    calls := calls (fst (m w1)) ++ [TessEnd];
                    tessapi := tessapi (fst (m w1)) |}, snd (m w1))).
  { unfold with_PyTessBaseAPI. mred. simpl. fold w1. now destruct (m w1). }
  assert (Ecalled : Spec.called (with_PyTessBaseAPI engine m) w
                    = (TessInit engine :: setup ++ trace ++ [TessEnd])%list).
  { unfold Spec.called. rewrite E. cbn [fst calls]. rewrite Ec.
    subst w1. cbn [calls].
    replace (((calls w ++ [TessInit engine]) ++ setup ++ trace) ++ [TessEnd])%list
      with (calls w ++ TessInit engine :: setup ++ trace ++ [TessEnd])%list
      by (rewrite <- !app_assoc; reflexivity).
    apply skipn_app_length. }
  split.
  - exists setup, trace. split; [exact Ecalled |]. split; [exact Fs |].
    unfold Spec.returned in *. now rewrite E.
  - rewrite Ecalled. simpl. rewrite !filter_app. simpl.
    now rewrite (filter_inner_no_init Fs), (handled_no_init Ht).
Qed.

Lemma one_engine_run_ext engine files (m m' : M unit) w :
  m w = m' w ->
  Spec.one_engine_run engine files m' w -> Spec.one_engine_run engine files m w.
Proof.
  unfold Spec.one_engine_run, Spec.called, Spec.returned. now intros ->.
Qed.

Section Runs.
Context `{External}.

Lemma emits_SetVariable name value : emits Spec.inner (SetVariable name value).
Proof. unfold SetVariable. quiet. Qed.

Lemma emits_SetImage i : emits Spec.inner (SetImage i).
Proof. unfold SetImage. quiet. Qed.

Lemma emits_SetPageSegMode m : emits Spec.inner (SetPageSegMode m).
Proof. unfold SetPageSegMode. quiet. Qed.

Ltac quiet' :=
  repeat first
    [ apply emits_SetVariable | apply emits_SetImage | apply emits_SetPageSegMode
    | progress quiet ].

(** *** crop *)

Lemma emits_crop_annotate_page self padding n input_file image pcgts :
  emits Spec.inner (Crop.annotate_page self padding n input_file image pcgts).
Proof.
  unfold Crop.annotate_page, Crop.detect_page, Crop.existing_regions_extent,
    Crop.resolution_zoom, Crop.detect_extent, Crop.set_border, Crop.block_step,
    num_truediv.
  cbv zeta. quiet'.
Qed.

Lemma crop_file_handled self padding n f image w :
  exists l, Forall Spec.inner l /\
    match snd (Crop.process_file self padding n f image w) with
    | inr _ => exists output,
        calls (fst (Crop.process_file self padding n f image w))
        = (calls w ++ WsDownloadFile f :: l ++ [WsAddFile output])%list
    | inl _ =>
        calls (fst (Crop.process_file self padding n f image w))
        = (calls w ++ WsDownloadFile f :: l)%list
    end.
Proof.
  apply (file_handled self Crop.TOOL n f
           (Crop.annotate_page self padding n f image) snd fst w).
  intros d. apply emits_crop_annotate_page.
Qed.

(** *** deskew *)

Lemma emits_apply_osd where_ osr st : emits Spec.inner (Deskew.apply_osd where_ osr st).
Proof.
  unfold Deskew.apply_osd, Deskew.assert. destruct st as [[s c] a]. quiet'.
Qed.

Lemma emits_apply_layout where_ layout angle st :
  emits Spec.inner (Deskew.apply_layout where_ layout angle st).
Proof.
  unfold Deskew.apply_layout, Deskew.normalize_angle.
  destruct st as [[s c] i]. cbv zeta. quiet'.
Qed.

Lemma emits_deskew_annotate_page oplevel input_file file_id pcgts :
  emits Spec.inner (Deskew.annotate_page oplevel input_file file_id pcgts).
Proof.
  unfold Deskew.annotate_page, Deskew.process_page, Deskew.process_text_region,
    Deskew.process_table_region, Deskew._process_segment.
  cbv zeta.
  repeat first [ apply emits_apply_osd | apply emits_apply_layout
               | progress quiet' ].
Qed.

Lemma deskew_file_handled self oplevel n f (u : unit) w :
  exists l, Forall Spec.inner l /\
    match snd (Deskew.process_file self oplevel n f u w) with
    | inr _ => exists output,
        calls (fst (Deskew.process_file self oplevel n f u w))
        = (calls w ++ WsDownloadFile f :: l ++ [WsAddFile output])%list
    | inl _ =>
        calls (fst (Deskew.process_file self oplevel n f u w))
        = (calls w ++ WsDownloadFile f :: l)%list
    end.
Proof.
  apply (file_handled self Deskew.TOOL n f
           (Deskew.annotate_page oplevel f
              (Py.replace (ID f) (input_file_grp self) Deskew.FILEGRP_IMG))
           (fun d => d) (fun _ => tt) w).
  intros d. apply emits_deskew_annotate_page.
Qed.

(** *** segment-line *)

Lemma emits_segment_line_annotate_page overwrite_lines input_file pcgts :
  emits Spec.inner (SegmentLine.annotate_page overwrite_lines input_file pcgts).
Proof.
  unfold SegmentLine.annotate_page, SegmentLine.process_region,
    SegmentLine.clear_lines, SegmentLine.line_step.
  cbv zeta. quiet'.
Qed.

Lemma segment_line_file_handled self overwrite_lines n f (u : unit) w :
  exists l, Forall Spec.inner l /\
    match snd (SegmentLine.process_file self overwrite_lines n f u w) with
    | inr _ => exists output,
        calls (fst (SegmentLine.process_file self overwrite_lines n f u w))
        = (calls w ++ WsDownloadFile f :: l ++ [WsAddFile output])%list
    | inl _ =>
        calls (fst (SegmentLine.process_file self overwrite_lines n f u w))
        = (calls w ++ WsDownloadFile f :: l)%list
    end.
Proof.
  apply (file_handled self SegmentLine.TOOL n f
           (SegmentLine.annotate_page overwrite_lines f)
           (fun d => d) (fun _ => tt) w).
  intros d. apply emits_segment_line_annotate_page.
Qed.

(** C7.  In every run of each of the three processors (with the tool's
    parameter present, as the framework sees to), exactly one engine
    instance is opened; it is opened before anything else is called and
    ended after everything else; in between, the input files are handled
    one at a time, in order, each from its download to the addition of its
    output file; all of them when the run returns, and up to the failing
    one when it raises. *)
Theorem one_engine_per_run :
  forall self w,
    (In "padding" (map fst (parameter self)) ->
     Spec.one_engine_run Crop.engine (input_files self) (Crop.process self) w) /\
    (In "operation_level" (map fst (parameter self)) ->
     Spec.one_engine_run Deskew.engine (input_files self) (Deskew.process self) w) /\
    (In "overwrite_lines" (map fst (parameter self)) ->
     Spec.one_engine_run SegmentLine.engine (input_files self)
                         (SegmentLine.process self) w).
Proof.
  intros self w. split; [| split]; intros Hk;
    destruct (getitem_present _ _ Hk) as (v & Ev).
  - eapply one_engine_run_ext.
    { unfold Crop.process. erewrite bind_inr by apply Ev. reflexivity. }
    apply with_engine. intros w1.
    set (w2 := {| log := log w1;
                  calls := calls w1 ++
                           [TessSetVariable "textord_tabfind_find_tables" "0"];
                  tessapi := ts_SetVariable (tessapi w1)
                               "textord_tabfind_find_tables" "0" |}).
    destruct (loop_handled (Crop.process_file self v)
                (crop_file_handled self v) (input_files self) 0 None w2)
      as (trace & Et & Ht).
    exists [TessSetVariable "textord_tabfind_find_tables" "0"], trace.
    assert (E : (SetVariable "textord_tabfind_find_tables" "0" ;;
                 _ <- for_enumerate 0 (input_files self) None
                        (Crop.process_file self v) ;;
                 ret tt) w1
                = (fst (for_enumerate 0 (input_files self) None
                          (Crop.process_file self v) w2),
                   match snd (for_enumerate 0 (input_files self) None
                                (Crop.process_file self v) w2) with
                   | inr _ => inr tt
                   | inl e => inl e
                   end)).
    { unfold SetVariable. mred. cbn [log calls tessapi]. fold w2.
      now destruct (for_enumerate 0 (input_files self) None
                      (Crop.process_file self v) w2) as [w3 [e | a]]. }
    rewrite E. simpl fst. rewrite Et. subst w2. simpl calls.
    split; [now rewrite <- app_assoc |]. split; [repeat constructor |].
    unfold Spec.returned in *. simpl snd.
    now destruct (snd (for_enumerate 0 (input_files self) None
                         (Crop.process_file self v) _)).
  - eapply one_engine_run_ext.
    { unfold Deskew.process. erewrite bind_inr by apply Ev. reflexivity. }
    apply with_engine. intros w1.
    destruct (loop_handled (Deskew.process_file self v)
                (deskew_file_handled self v) (input_files self) 0 tt w1)
      as (trace & Et & Ht).
    exists [], trace. simpl. split; [exact Et |]. split; [constructor | exact Ht].
  - eapply one_engine_run_ext.
    { unfold SegmentLine.process. erewrite bind_inr by apply Ev. reflexivity. }
    apply with_engine. intros w1.
    destruct (loop_handled (SegmentLine.process_file self v)
                (segment_line_file_handled self v) (input_files self) 0 tt w1)
      as (trace & Et & Ht).
    exists [], trace. simpl. split; [exact Et |]. split; [constructor | exact Ht].
Qed.

End Runs.

(* ===================================================================== *)
(** * The theorems at work on the sample environment *)
(* ===================================================================== *)

(** Page c has no block: the extent is not valid, the file is written all
    the same and the loop goes on with page a. *)
Lemma crop_no_valid_extent_witness :
  exists w3,
    @Crop.detect Sample.ext (Sample.crop [Sample.file_c; Sample.file_a]) 0
      Sample.file_c None Sample.w0
    = (Sample.detected_c,
       inr (@open_page Sample.ext (Sample.crop [Sample.file_c; Sample.file_a])
              Crop.TOOL Sample.file_c,
            Pixels "c.png", (None, Sample.no_extent))) /\
    ~ 1000 < 0 /\
    @Crop.process_file Sample.ext (Sample.crop [Sample.file_c; Sample.file_a])
      (Py.PInt 4) 0 Sample.file_c None Sample.w0 = (w3, inr None) /\
    for_enumerate 0 [Sample.file_c; Sample.file_a] None
      (@Crop.process_file Sample.ext
         (Sample.crop [Sample.file_c; Sample.file_a]) (Py.PInt 4)) Sample.w0
    = for_enumerate 1 [Sample.file_a] None
        (@Crop.process_file Sample.ext
           (Sample.crop [Sample.file_c; Sample.file_a]) (Py.PInt 4)) w3.
Proof.
  eexists.
  assert (Hd : @Crop.detect Sample.ext (Sample.crop [Sample.file_c; Sample.file_a])
                 0 Sample.file_c None Sample.w0
               = (Sample.detected_c,
                  inr (@open_page Sample.ext
                         (Sample.crop [Sample.file_c; Sample.file_a])
                         Crop.TOOL Sample.file_c,
                       Pixels "c.png", (None, Sample.no_extent))))
    by (vm_compute; reflexivity).
  assert (Hv : ~ 1000 < 0) by lia.
  destruct (@crop_no_valid_extent Sample.ext _ (Py.PInt 4) _ _ _ [Sample.file_a]
              _ _ _ _ _ Hd (or_introl Hv))
    as (_ & _ & _ & _ & _ & Hp & Hl).
  split; [exact Hd |]. split; [exact Hv |]. split; [exact Hp | exact Hl].
Defined.

(** The second line the engine finds in region r1 (offset 100, 200): its
    box 10, 60, 300 x 40 becomes the polygon of 110, 260, 300 x 40. *)
Lemma segment_line_coords_translated_witness :
  nth_error (@Spec.detected_lines Sample.ext (Py.PBool true) (Pixels "b.png")
               Sample.whole_page Sample.region1 Sample.w0) 1
  = Some (Sample.block "line2" 10 60 300 40 1) /\
  exists w' region',
    @SegmentLine.process_region Sample.ext (Py.PBool true) (Pixels "b.png")
      Sample.whole_page Sample.region1 Sample.w0 = (w', inr region') /\
    nth_error (Page.tr_TextLine region') 1
    = Some {| Page.tl_id := "r1_line0001";
              Page.tl_Coords := "110,260 410,260 410,300 110,300";
              Page.tl_other := "" |}.
Proof.
  assert (Hk : nth_error (@Spec.detected_lines Sample.ext (Py.PBool true)
                            (Pixels "b.png") Sample.whole_page Sample.region1
                            Sample.w0) 1
               = Some (Sample.block "line2" 10 60 300 40 1))
    by (vm_compute; reflexivity).
  split; [exact Hk |].
  destruct (@segment_line_coords_translated Sample.ext (Py.PBool true)
              (Pixels "b.png") Sample.whole_page Sample.region1 Sample.w0 1 _ Hk)
    as (w' & region' & E & Hn).
  exists w', region'. split; [exact E | exact Hn].
Defined.

(** On page b the engine's OSD result has NaN confidences: the assertion
    on the orientation confidence fires. *)
Lemma deskew_nan_confidence_asserts_witness :
  @DetectOrientationScript Sample.ext
    (ts_SetImage (tessapi Sample.w0) (Pixels "b.png"))
  = Some {| orient_deg := 0; orient_conf := S754_nan;
            script_name := ""; script_conf := S754_nan |} /\
  snd (@Deskew._process_segment Sample.ext (SegPage Sample.page_b)
         (Pixels "b.png") Sample.whole_page "page 'PHYS_0002'"
         (Some "PHYS_0002") "OCR-D-IMG-DESKEW_0002" Sample.w0)
  = inl (Py.AssertionError Deskew.orient_failed).
Proof.
  assert (Ho : @DetectOrientationScript Sample.ext
                 (ts_SetImage (tessapi Sample.w0) (Pixels "b.png"))
               = Some {| orient_deg := 0; orient_conf := S754_nan;
                         script_name := ""; script_conf := S754_nan |})
    by reflexivity.
  split; [exact Ho |].
  exact (proj1 (@deskew_nan_confidence_asserts Sample.ext (SegPage Sample.page_b)
                  (Pixels "b.png") Sample.whole_page "page 'PHYS_0002'"
                  (Some "PHYS_0002") "OCR-D-IMG-DESKEW_0002" Sample.w0 _ Ho)
               eq_refl).
Defined.


(** The second block of page a has an empty binarization. *)
Lemma crop_empty_block_skipped_witness :
  let c := Sample.block "block2" 10 10 5 5 1 in
  @getbbox Sample.ext (c_image c) = None /\
  Forall (fun r => lr_level r = DEBUG)
         (Spec.logged (@Crop.block_step Sample.ext (Py.NInt 1) c
                         (None, Sample.no_extent)) Sample.w_a).
Proof.
  intros c.
  assert (Hb : @getbbox Sample.ext (c_image c) = None) by reflexivity.
  split; [exact Hb |].
  exact (proj1 (proj2 (@crop_empty_block_skipped Sample.ext (Py.NInt 1) c None
                         Sample.no_extent [] Sample.w_a Hb))).
Defined.

(** A run of each processor over pages a and c. *)
Lemma one_engine_per_run_witness :
  let self := Sample.any_tool [Sample.file_a; Sample.file_c] in
  In "padding" (map fst (parameter self)) /\
  In "operation_level" (map fst (parameter self)) /\
  In "overwrite_lines" (map fst (parameter self)) /\
  @Spec.one_engine_run (@Crop.engine Sample.ext) (input_files self)
    (@Crop.process Sample.ext self) Sample.w0 /\
  @Spec.one_engine_run (@Deskew.engine Sample.ext) (input_files self)
    (@Deskew.process Sample.ext self) Sample.w0 /\
  @Spec.one_engine_run (@SegmentLine.engine Sample.ext) (input_files self)
    (@SegmentLine.process Sample.ext self) Sample.w0.
Proof.
  intros self.
  assert (H1 : In "padding" (map fst (parameter self))) by (simpl; auto).
  assert (H2 : In "operation_level" (map fst (parameter self))) by (simpl; auto).
  assert (H3 : In "overwrite_lines" (map fst (parameter self))) by (simpl; auto).
  destruct (@one_engine_per_run Sample.ext self Sample.w0) as (T1 & T2 & T3).
  repeat (split; [assumption |]).
  split; [exact (T1 H1) |]. split; [exact (T2 H2) | exact (T3 H3)].
Defined.

(** Page b has a TextRegion: as first file of a run it stops the run. *)
Lemma crop_existing_regions_unbound_image_witness :
  Page.TextRegion (Page.Page (@page_from_file Sample.ext
                                (@download_file Sample.ext Sample.file_b)))
  <> [] /\
  exists w',
    for_enumerate 0 [Sample.file_b; Sample.file_a] None
      (@Crop.process_file Sample.ext
         (Sample.crop [Sample.file_b; Sample.file_a]) (Py.PInt 4)) Sample.w0
    = (w', inl (Py.UnboundLocalError "image")) /\
    calls w' = [WsDownloadFile Sample.file_b].
Proof.
  assert (Hr : Page.TextRegion
                 (Page.Page (@page_from_file Sample.ext
                               (@download_file Sample.ext Sample.file_b)))
               <> []) by discriminate.
  split; [exact Hr |].
  destruct (proj1 (@crop_existing_regions_unbound_image Sample.ext
                     (Sample.crop [Sample.file_b; Sample.file_a]) (Py.PInt 4) 0
                     Sample.file_b [Sample.file_a] Sample.w0 Hr))
    as (w' & _ & Hc & Hl).
  exists w'. split; [exact Hl | exact Hc].
Defined.

(** The border of page a: the block 100..600 x 200..500, padded by 4. *)
Lemma crop_border_within_page_witness :
  let self := Sample.crop [Sample.file_a] in
  let page_image := Pixels "a.png" in
  0 <= @width Sample.ext page_image /\
  0 <= @height Sample.ext page_image /\
  Py.param_int (Py.PInt 4) = inr 4 /\
  0 <= 4 /\
  (forall c, In c (@GetComponentImages Sample.ext (tessapi Sample.w_a)
                     BLOCK true false) ->
             @Spec.within Sample.ext (@bbox_from_xywh Sample.ext (c_xywh c))
                          page_image) /\
  @Crop.detect_extent Sample.ext (Py.NFloat (Py.float_of_Z 1)) page_image None
    Sample.w_a
  = (Sample.detected_a, inr (Some (Pixels "block3"), Sample.extent_a)) /\
  @Crop.valid Sample.extent_a = true /\
  exists w2 page',
    @Crop.set_border Sample.ext self (Py.PInt 4) 0 Sample.file_a "PHYS_0001"
      Sample.page_a page_image Sample.extent_a Sample.detected_a
    = (w2, inr page') /\
    Page.Border page' = Some "96,196 604,196 604,504 96,504".
Proof.
  intros self page_image.
  assert (HW : 0 <= @width Sample.ext page_image) by (vm_compute; discriminate).
  assert (HH : 0 <= @height Sample.ext page_image) by (vm_compute; discriminate).
  assert (Hp : Py.param_int (Py.PInt 4) = inr 4) by reflexivity.
  assert (Hp0 : 0 <= 4) by lia.
  assert (Hin : forall c,
             In c (@GetComponentImages Sample.ext (tessapi Sample.w_a)
                     BLOCK true false) ->
             @Spec.within Sample.ext (@bbox_from_xywh Sample.ext (c_xywh c))
                          page_image).
  { intros c [<- | [<- | [<- | []]]]; vm_compute; repeat split; discriminate. }
  assert (Hd : @Crop.detect_extent Sample.ext (Py.NFloat (Py.float_of_Z 1))
                 page_image None Sample.w_a
               = (Sample.detected_a,
                  inr (Some (Pixels "block3"), Sample.extent_a)))
    by (vm_compute; reflexivity).
  assert (Hv : @Crop.valid Sample.extent_a = true) by reflexivity.
  repeat (split; [assumption |]).
  destruct (@crop_border_within_page Sample.ext self (Py.PInt 4) 4 0
              Sample.file_a "PHYS_0001" Sample.page_a page_image _ None
              Sample.w_a _ _ HW HH Hp Hp0 Hin Hd Hv)
    as (x0 & y0 & x1 & y1 & file_id & w2 & page' & E & _).
  exists w2, page'. split; [exact E |].
  unfold Crop.set_border in E. simpl in E.
  injection E as _ <-. vm_compute. reflexivity.
Defined.

(** Page a, whole page: OSD and layout analysis go through, one image. *)
Lemma deskew_one_alternative_image_witness :
  let t := ts_SetImage (tessapi Sample.w0) (Pixels "a.png") in
  Spec.osd_ok (@DetectOrientationScript Sample.ext t) /\
  Spec.layout_ok (@AnalyseLayout Sample.ext t) /\
  exists w' segment' a,
    @Deskew._process_segment Sample.ext (SegPage Sample.page_a) (Pixels "a.png")
      Sample.whole_page "page 'PHYS_0001'" (Some "PHYS_0001")
      "OCR-D-IMG-DESKEW_0001" Sample.w0 = (w', inr segment') /\
    Deskew.get_AlternativeImage segment' = [a].
Proof.
  intros t.
  assert (Ho : Spec.osd_ok (@DetectOrientationScript Sample.ext t))
    by (split; reflexivity).
  assert (Hl : Spec.layout_ok (@AnalyseLayout Sample.ext t))
    by (exists 0; vm_compute; reflexivity).
  split; [exact Ho |]. split; [exact Hl |].
  destruct (@deskew_one_alternative_image Sample.ext (SegPage Sample.page_a)
              (Pixels "a.png") Sample.whole_page "page 'PHYS_0001'"
              (Some "PHYS_0001") "OCR-D-IMG-DESKEW_0001" Sample.w0 Ho Hl)
    as (w' & segment' & image' & annotations & E & Ha & _).
  exists w', segment'. eexists. split; [exact E | exact Ha].
Defined.

(** crop and deskew on page a, segment-line on page b. *)
Lemma processors_keep_document_witness :
  let self := Sample.any_tool [Sample.file_a; Sample.file_b] in
  (exists w' image' d',
      @Crop.annotate Sample.ext self (Py.PInt 4) 0 Sample.file_a None Sample.w0
      = (w', inr (image', d')) /\
      @Spec.crop_kept Sample.page_a (Page.Page d')) /\
  (exists w' d',
      @SegmentLine.annotate Sample.ext self (Py.PBool true) 0 Sample.file_b
        Sample.w0 = (w', inr d') /\
      @Spec.line_page_kept (Py.PBool true) Sample.page_b (Page.Page d')) /\
  (exists w' d',
      @Deskew.annotate Sample.ext self (Py.PStr "page") 0 Sample.file_a
        Sample.w0 = (w', inr d') /\
      @Spec.deskew_kept (Py.PStr "page") Sample.page_a (Page.Page d')).
Proof.
  intros self.
  destruct (@processors_keep_document Sample.ext self (Py.PInt 4) (Py.PBool true)
              (Py.PStr "page") 0 Sample.file_a) as (Tc & _ & Td).
  destruct (@processors_keep_document Sample.ext self (Py.PInt 4) (Py.PBool true)
              (Py.PStr "page") 0 Sample.file_b) as (_ & Tl & _).
  split; [| split].
  - destruct (@Crop.annotate Sample.ext self (Py.PInt 4) 0 Sample.file_a None
                Sample.w0) as [w' [e | [image' d']]] eqn:E.
    + vm_compute in E. discriminate E.
    + exists w', image', d'. split; [reflexivity |].
      exact (proj2 (Tc None Sample.w0 w' image' d' E)).
  - destruct (@SegmentLine.annotate Sample.ext self (Py.PBool true) 0
                Sample.file_b Sample.w0) as [w' [e | d']] eqn:E.
    + vm_compute in E. discriminate E.
    + exists w', d'. split; [reflexivity |].
      exact (proj2 (Tl Sample.w0 w' d' E)).
  - destruct (@Deskew.annotate Sample.ext self (Py.PStr "page") 0 Sample.file_a
                Sample.w0) as [w' [e | d']] eqn:E.
    + vm_compute in E. discriminate E.
    + exists w', d'. split; [reflexivity |].
      exact (proj2 (Td Sample.w0 w' d' E)).
Defined.

(* ===================================================================== *)
(** * Where the specification's wording fails *)
(* ===================================================================== *)

(** C3 as stated fails: segment-line with [overwrite_lines] set, on page b,
    whose region r1 has the line r1_l0: the document serialised has the two
    new lines in r1 and not r1_l0. *)
Lemma segment_line_drops_existing_lines :
  ~ @Spec.lines_still_present Sample.ext
      (Sample.segment_line true [Sample.file_b]) (Py.PBool true) 0
      Sample.file_b Sample.w0.
Proof.
  intros Hc.
  destruct (@SegmentLine.annotate Sample.ext
              (Sample.segment_line true [Sample.file_b]) (Py.PBool true) 0
              Sample.file_b Sample.w0) as [w' [e | d']] eqn:E.
  - vm_compute in E. discriminate E.
  - destruct (Hc w' d' E Sample.region1 (or_introl eq_refl))
      as (r' & Hin & _ & Hl).
    specialize (Hl Sample.line0 (or_introl eq_refl)).
    vm_compute in E. injection E as _ <-.
    simpl in Hin. destruct Hin as [<- | []].
    simpl in Hl. destruct Hl as [Hx | [Hx | []]]; discriminate Hx.
Qed.

(** C6 as stated fails: the block of page a with an empty binarization is
    skipped with two DEBUG records, none at WARNING level. *)
Lemma crop_empty_block_not_warned :
  ~ @Spec.skipped_with_warning Sample.ext (Py.NInt 1)
      (Sample.block "block2" 10 10 5 5 1) (None, Sample.no_extent) Sample.w_a.
Proof.
  intros Hc. destruct (Hc eq_refl) as (_ & r & Hin & Hw).
  vm_compute in Hin. destruct Hin as [<- | [<- | []]]; discriminate Hw.
Qed.

(** C8 as stated fails: in a run over pages a and b, page b has a
    TextRegion, yet the run returns and both output files are added: the
    block loop of page a has left [image] bound. *)
Lemma crop_regions_after_blocks_pass :
  ~ @Spec.regions_abort_run Sample.ext
      (Sample.crop [Sample.file_a; Sample.file_b]) Sample.w0.
Proof.
  intros Hc.
  destruct (Hc 1%nat Sample.file_b eq_refl ltac:(discriminate))
    as ((e & He) & _).
  vm_compute in He. discriminate He.
Qed.

(** C10 as stated fails: on page b the OSD result has a NaN confidence,
    [_process_segment] raises and no AlternativeImage is appended. *)
Lemma deskew_failed_osd_no_image :
  ~ @Spec.gets_one_image Sample.ext (SegPage Sample.page_b) (Pixels "b.png")
      Sample.whole_page "page 'PHYS_0002'" (Some "PHYS_0002")
      "OCR-D-IMG-DESKEW_0002" Sample.w0.
Proof.
  intros (w' & segment' & a & E & _). vm_compute in E. discriminate E.
Qed.

(** What C10, as amended, asks of the deskew angle: its value in degrees is
    a finite float. *)
Lemma layout_ok_degrees_finite lo :
  Spec.layout_ok (Some lo)
  <-> match Deskew.degrees (lo_deskew_angle lo) with
      | S754_nan | S754_infinity _ => False
      | _ => True
      end.
Proof.
  unfold Spec.layout_ok, Py.int_of_float.
  destruct (Deskew.degrees (lo_deskew_angle lo)); split;
    try (intros [i E]; discriminate E); try contradiction; eauto.
Qed.

(** A finite angle does not do: 2^1023 rad is a float, but in degrees it
    overflows to an infinity, on which [int()] raises OverflowError. *)
Lemma layout_huge_angle_overflows :
  Py.isnan Corner.huge = false /\
  Py.int_of_float (Deskew.degrees Corner.huge) = inl Py.OverflowError /\
  ~ Spec.layout_ok
      (Some {| lo_orientation := PAGE_UP;
               lo_writing_direction := WD_LEFT_TO_RIGHT;
               lo_textline_order := TO_TOP_TO_BOTTOM;
               lo_deskew_angle := Corner.huge |}).
Proof.
  split; [reflexivity |]. split; [vm_compute; reflexivity |].
  intros [i E]. vm_compute in E. discriminate E.
Qed.

(* ===================================================================== *)
(** * Further properties: strings, loops and traces *)
(* ===================================================================== *)

(** ** [str.replace] *)

Lemma length_append (a b : string) :
  String.length (a ++ b) = (String.length a + String.length b)%nat.
Proof. induction a; simpl; congruence. Qed.

Lemma replace_from_absent old new s :
  Pure.occurs old s = false -> Py.replace_from old new s 0 = s.
Proof.
  induction s as [| c s IH]; simpl; intros E; [reflexivity |].
  apply orb_false_iff in E. destruct E as [E1 E2].
  simpl in E1. rewrite E1. now rewrite IH.
Qed.

Lemma occurs_empty s : Pure.occurs "" s = true.
Proof. destruct s; reflexivity. Qed.

Lemma replace_absent old new s :
  Pure.occurs old s = false -> Py.replace s old new = s.
Proof.
  intros E. unfold Py.replace. destruct old as [| c old].
  - now rewrite occurs_empty in E.
  - now apply replace_from_absent.
Qed.

Lemma replace_from_skip old new x :
  forall s, Py.replace_from old new (x ++ s) (String.length x)
            = Py.replace_from old new s 0.
Proof.
  induction x as [| c x IH]; intros s; simpl.
  - now destruct s.
  - apply IH.
Qed.

Lemma prefix_split p : forall s, String.prefix p s = true -> exists t, s = p ++ t.
Proof.
  induction p as [| a p IH]; intros s E; simpl in *.
  - now exists s.
  - destruct s as [| b s]; simpl in E; [discriminate |].
    destruct (ascii_dec a b) as [-> |]; [| discriminate].
    destruct (IH s E) as [t ->]. now exists t.
Qed.

Lemma replace_prefix c old new s :
  Pure.occurs (String c old) s = false ->
  Py.replace (String c old ++ s) (String c old) new = new ++ s.
Proof.
  intros E. unfold Py.replace.
  change (String c old ++ s) with (String c (old ++ s)).
  unfold Py.replace_from; fold Py.replace_from.
  change (String c (old ++ s)) with (String c old ++ s).
  rewrite prefix_append.
  change (String.length (String c old) - 1)%nat with (String.length old - 0)%nat.
  rewrite Nat.sub_0_r, replace_from_skip. now rewrite replace_from_absent.
Qed.

Lemma intersperse_empty s : Py.intersperse "" s = s.
Proof. induction s; simpl; congruence. Qed.

Lemma replace_from_same a old :
  forall n s, (String.length s <= n)%nat ->
              Py.replace_from (String a old) (String a old) s 0 = s.
Proof.
  induction n as [| n IH]; intros s Hn.
  - destruct s; [reflexivity | simpl in Hn; lia].
  - destruct s as [| c s]; [reflexivity |].
    unfold Py.replace_from; fold Py.replace_from.
    destruct (String.prefix (String a old) (String c s)) eqn:Ep.
    + destruct (prefix_split _ _ Ep) as [t Et].
      simpl in Et. injection Et as -> ->.
      change (String.length (String a old) - 1)%nat
        with (String.length old - 0)%nat.
      rewrite Nat.sub_0_r, replace_from_skip. simpl. f_equal. f_equal.
      apply IH. simpl in Hn. rewrite length_append in Hn. lia.
    + f_equal. apply IH. simpl in Hn. lia.
Qed.

Lemma replace_same s old : Py.replace s old old = s.
Proof.
  unfold Py.replace. destruct old as [| c old].
  - simpl. apply intersperse_empty.
  - now apply replace_from_same with (n := String.length s).
Qed.

Lemma append_inj_r (s : string) : forall a b, a ++ s = b ++ s -> a = b.
Proof.
  assert (L : forall a b : string, a ++ s = b ++ s -> String.length a = String.length b).
  { intros a b E. apply (f_equal String.length) in E.
    rewrite !length_append in E. lia. }
  induction a as [| x a IH]; intros b E.
  - destruct b; [reflexivity |]. apply L in E. discriminate.
  - destruct b as [| y b]; [apply L in E; discriminate |].
    simpl in E. injection E as -> E. f_equal. now apply IH.
Qed.

Lemma append_inj_l (s : string) : forall a b, s ++ a = s ++ b -> a = b.
Proof. induction s as [| c s IH]; simpl; intros a b E; [exact E |]. injection E as E. auto. Qed.

(** ** [%04d] can be read back *)

Lemma read_zeros k d :
  DecimalString.NilEmpty.uint_of_string
    (Py.zeros k ++ DecimalString.NilEmpty.string_of_uint d)
  = Some (Nat.iter k Decimal.D0 d).
Proof.
  induction k as [| k IH]; simpl.
  - apply DecimalString.NilEmpty.usu.
  - now rewrite IH.
Qed.

Lemma of_uint_zeros k d : N.of_uint (Nat.iter k Decimal.D0 d) = N.of_uint d.
Proof. induction k as [| k IH]; simpl; [reflexivity | exact IH]. Qed.

Lemma read_fmt_04d z : 0 <= z -> Pure.read_index (Py.fmt_04d z) = Some (Z.to_N z).
Proof.
  intros Hz. unfold Py.fmt_04d, Pure.read_index.
  replace (z <? 0) with false by (symmetry; apply Z.ltb_ge; lia).
  rewrite Z.abs_eq by exact Hz. cbn [append String.length Nat.add].
  assert (E : DecimalString.NilZero.string_of_uint (N.to_uint (Z.to_N z))
              = DecimalString.NilEmpty.string_of_uint (N.to_uint (Z.to_N z))).
  { destruct (Z.to_N z) as [| p]; [reflexivity |]. simpl.
    pose proof (DecimalPos.Unsigned.to_uint_nonnil p) as Hp.
    now destruct (Pos.to_uint p). }
  rewrite E, read_zeros. simpl.
  now rewrite of_uint_zeros, DecimalN.Unsigned.of_to.
Qed.

Lemma fmt_04d_inj a b : 0 <= a -> 0 <= b -> Py.fmt_04d a = Py.fmt_04d b -> a = b.
Proof.
  intros Ha Hb E. apply (f_equal Pure.read_index) in E.
  rewrite !read_fmt_04d in E by assumption. injection E as E. lia.
Qed.

(** ** Loops that always return, and what they call *)

Lemma for_update_returns {A} (body : A -> M A) :
  (forall x w, exists w' x', body x w = (w', inr x')) ->
  forall l w, exists w' l', for_update l body w = (w', inr l').
Proof.
  intros Hb. induction l as [| x l IH]; intros w; simpl.
  - now exists w, [].
  - destruct (Hb x w) as (w1 & x' & E1). destruct (IH w1) as (w2 & l' & E2).
    exists w2, (x' :: l'). unfold bind. now rewrite E1, E2.
Qed.

Lemma for_update_world {A} (I : World -> Prop) (body : A -> M A) :
  (forall x w w' x', body x w = (w', inr x') -> I w -> I w') ->
  forall l w w' l', for_update l body w = (w', inr l') -> I w -> I w'.
Proof.
  intros Hb. induction l as [| x l IH]; intros w w' l' E Hw; simpl in E.
  - unfold ret in E. now injection E as <- _.
  - unbind E as w1 x' E1. unbind E as w2 l2 E2.
    unfold ret in E. injection E as <- _. eauto.
Qed.

Lemma added_app l1 l2 : Pure.added (l1 ++ l2) = (Pure.added l1 ++ Pure.added l2)%list.
Proof. unfold Pure.added. apply flat_map_app. Qed.

Lemma added_inner l : Forall Spec.inner l -> Pure.added l = [].
Proof.
  induction 1 as [| c l Hc _ IH]; [reflexivity |].
  simpl. rewrite IH. now destruct c.
Qed.

Lemma saved_ids_app l1 l2 :
  Pure.saved_ids (l1 ++ l2) = (Pure.saved_ids l1 ++ Pure.saved_ids l2)%list.
Proof. unfold Pure.saved_ids. apply flat_map_app. Qed.

Lemma flat_map_singleton {A B} (f : A -> B) (l : list A) :
  flat_map (fun x => [f x]) l = map f l.
Proof. induction l as [| x l IH]; simpl; congruence. Qed.

(** What a loop that updates its elements made of them and called. *)
Lemma for_update_calls {A} (R : A -> A -> Prop) (ids : A -> list string)
    (body : A -> M A) :
  (forall x w w' x', body x w = (w', inr x') ->
     R x x' /\ exists l, calls w' = (calls w ++ l)%list /\ Pure.saved_ids l = ids x) ->
  forall l w w' l', for_update l body w = (w', inr l') ->
    Forall2 R l l' /\
    exists tr, calls w' = (calls w ++ tr)%list /\ Pure.saved_ids tr = flat_map ids l.
Proof.
  intros Hb. induction l as [| x l IH]; intros w w' l' E; simpl in E.
  - unfold ret in E. injection E as <- <-. split; [constructor |].
    exists []. now rewrite app_nil_r.
  - unbind E as w1 x' E1. unbind E as w2 l2 E2.
    unfold ret in E. injection E as <- <-.
    destruct (Hb _ _ _ _ E1) as (Hr & t1 & Hc1 & Hs1).
    destruct (IH _ _ _ E2) as (Hf & t2 & Hc2 & Hs2).
    split; [now constructor |].
    exists (t1 ++ t2)%list. split.
    + now rewrite Hc2, Hc1, app_assoc.
    + simpl. now rewrite saved_ids_app, Hs1, Hs2.
Qed.

Lemma getitem_missing d k w :
  ~ In k (map fst d) -> getitem d k w = (w, inl (Py.KeyError k)).
Proof.
  induction d as [| [k' v] d IH]; simpl; intros Hk; [reflexivity |].
  destruct (String.eqb k' k) eqn:E.
  - apply String.eqb_eq in E. tauto.
  - apply IH. tauto.
Qed.

Lemma for_each_world {A S} (I : World -> Prop) (body : A -> S -> M S) :
  (forall x s w w' s', body x s w = (w', inr s') -> I w -> I w') ->
  forall l s w w' s', for_each l s body w = (w', inr s') -> I w -> I w'.
Proof.
  intros Hb. induction l as [| x l IH]; intros s w w' s' E Hw; simpl in E.
  - unfold ret in E. now injection E as <- _.
  - unbind E as w1 s1 E1. eauto.
Qed.

Lemma LOG_engine l msg args w w' u :
  LOG l msg args w = (w', inr u) -> tessapi w' = tessapi w.
Proof. unfold LOG. now intros [= <- _]. Qed.

Lemma lift_world {A} (r : Py.Exn + A) w w' a :
  lift r w = (w', inr a) -> w' = w.
Proof. unfold lift. now intros [= <- _]. Qed.

(** Running the monad's primitives in a hypothesis. *)
Ltac run_in E :=
  cbv beta iota delta [bind ret raise lift LOG call get_tessapi set_tessapi
                       SetImage Deskew.assert] in E.


(* ===================================================================== *)
(** * Further properties of crop *)
(* ===================================================================== *)

Section CropMore.
Context `{External}.

(** One block, once the threshold is a number. *)
Lemma block_step_passes zoom t c st w :
  Py.truediv (Py.NInt 25) zoom = inr t -> Py.isnan t = false ->
  exists w',
    Crop.block_step zoom c st w
    = (w', inr (Some (c_image c),
                if Pure.passes t c
                then Crop.update (snd st) (bbox_from_xywh (c_xywh c))
                else snd st)) /\
    Spec.only_logs w w'.
Proof.
  intros Ht Hn. unfold Crop.block_step, Pure.passes, Spec.large_enough, Spec.only_logs.
  destruct (bbox_from_xywh (c_xywh c)) as [[[l tp] r] bt].
  destruct (getbbox (c_image c)) as [[[[b0 b1] b2] b3] |].
  - unfold num_truediv. rewrite Ht. mred.
    rewrite !(fun z => @Z_lt_float_le t z Hn).
    destruct (Py.float_le_Z t (b2 - b0)); simpl;
      [destruct (Py.float_le_Z t (b3 - b1)); simpl |];
      (eexists; split; [reflexivity | now split]).
  - mred. eexists; split; [reflexivity | now split].
Qed.

Lemma block_loop_extent zoom t comps :
  Py.truediv (Py.NInt 25) zoom = inr t -> Py.isnan t = false ->
  forall st w, exists w' image',
    for_each comps st (Crop.block_step zoom) w
    = (w', inr (image', Pure.block_extent t comps (snd st))) /\
    Spec.only_logs w w'.
Proof.
  intros Ht Hn. induction comps as [| c cs IH]; intros st w.
  - exists w, (fst st). simpl. unfold ret. destruct st. now repeat split.
  - destruct (@block_step_passes zoom t c st w Ht Hn) as (w1 & E1 & Hc1 & Ht1).
    rewrite (@for_each_step _ _ c cs _ _ _ _ _ E1).
    destruct (IH (Some (c_image c),
                  if Pure.passes t c
                  then Crop.update (snd st) (bbox_from_xywh (c_xywh c))
                  else snd st) w1) as (w2 & i2 & E2 & Hc2 & Ht2).
    exists w2, i2. split; [exact E2 |]. split; congruence.
Qed.

Lemma update_grown e b : Pure.grown e (Crop.update e b).
Proof. destruct b as [[[l t] r] d]. unfold Pure.grown, Crop.update. simpl. lia. Qed.

Lemma update_spanned e b : Pure.spanned b (Crop.update e b).
Proof. destruct b as [[[l t] r] d]. unfold Pure.spanned, Crop.update. simpl. lia. Qed.

Lemma grown_refl e : Pure.grown e e.
Proof. unfold Pure.grown. lia. Qed.

Lemma grown_trans e1 e2 e3 :
  Pure.grown e1 e2 -> Pure.grown e2 e3 -> Pure.grown e1 e3.
Proof. unfold Pure.grown. lia. Qed.

Lemma spanned_grown b e e' :
  Pure.spanned b e -> Pure.grown e e' -> Pure.spanned b e'.
Proof. destruct b as [[[l t] r] d]. unfold Pure.spanned, Pure.grown. lia. Qed.

Lemma block_extent_grown t comps :
  forall e, Pure.grown e (Pure.block_extent t comps e).
Proof.
  induction comps as [| c cs IH]; intros e; simpl.
  - apply grown_refl.
  - eapply grown_trans; [| apply IH].
    destruct (Pure.passes t c); [apply update_grown | apply grown_refl].
Qed.

Lemma block_extent_spans t comps :
  forall e c, In c comps -> Pure.passes t c = true ->
              Pure.spanned (bbox_from_xywh (c_xywh c)) (Pure.block_extent t comps e).
Proof.
  induction comps as [| c0 cs IH]; intros e c Hin Hp; [contradiction |].
  destruct Hin as [-> | Hin]; simpl.
  - rewrite Hp. eapply spanned_grown; [apply update_spanned | apply block_extent_grown].
  - now apply IH.
Qed.

Lemma block_extent_none t comps :
  forall e, (forall c, In c comps -> Pure.passes t c = false) ->
            Pure.block_extent t comps e = e.
Proof.
  induction comps as [| c cs IH]; intros e Hn; simpl; [reflexivity |].
  rewrite (Hn c) by now left. apply IH. intros c' Hc'. apply Hn. now right.
Qed.

Lemma block_extent_in t i comps :
  (forall c, In c comps -> Spec.within (bbox_from_xywh (c_xywh c)) i) ->
  forall e, Spec.extent_in e i -> Spec.extent_in (Pure.block_extent t comps e) i.
Proof.
  induction comps as [| c cs IH]; intros Hw e He; simpl; [exact He |].
  apply IH; [intros c' Hc'; apply Hw; now right |].
  destruct (Pure.passes t c); [| exact He].
  apply update_in; [exact He | apply Hw; now left].
Qed.

(** The loop over the blocks returns the fold. *)
Lemma detect_extent_fold zoom t page_image image w :
  Py.truediv (Py.NInt 25) zoom = inr t -> Py.isnan t = false ->
  exists w' image',
    Crop.detect_extent zoom page_image image w
    = (w', inr (image',
                Pure.block_extent t
                  (GetComponentImages (tessapi w) BLOCK true false)
                  (Pure.no_block page_image))).
Proof.
  intros Ht Hn.
  destruct (@block_loop_extent zoom t
              (GetComponentImages (tessapi w) BLOCK true false) Ht Hn
              (image, Pure.no_block page_image)
              {| log := log w;
                 calls := calls w ++ [TessGetComponentImages BLOCK true false];
                 tessapi := tessapi w |}) as (w' & i' & E & _).
  now exists w', i'.
Qed.

(** X1.  Once the threshold 25 / zoom is a number, the loop over the
    engine's blocks never fails, and the extent it returns spans the box
    of every block that passed the size filter; when no block passed it is
    the extent the loop started from (page width, page height, 0, 0); and,
    the page image having a nonnegative width or height, a valid extent
    means that some block passed. *)
Theorem crop_extent_spans_blocks :
  forall zoom t page_image image w,
    Py.truediv (Py.NInt 25) zoom = inr t -> Py.isnan t = false ->
    let comps := GetComponentImages (tessapi w) BLOCK true false in
    exists w' st,
      Crop.detect_extent zoom page_image image w = (w', inr st) /\
      (forall c, In c comps -> Pure.passes t c = true ->
                 Pure.spanned (bbox_from_xywh (c_xywh c)) (snd st)) /\
      ((forall c, In c comps -> Pure.passes t c = false) ->
       snd st = Pure.no_block page_image) /\
      (0 <= width page_image \/ 0 <= height page_image ->
       Crop.valid (snd st) = true ->
       exists c, In c comps /\ Pure.passes t c = true).
Proof.
  intros zoom t page_image image w Ht Hn comps.
  destruct (@detect_extent_fold zoom t page_image image w Ht Hn) as (w' & i' & E).
  fold comps in E.
  exists w', (i', Pure.block_extent t comps (Pure.no_block page_image)).
  split; [exact E |]. simpl snd. split; [| split].
  - intros c Hc Hp. now apply block_extent_spans.
  - apply block_extent_none.
  - intros Hs Hv.
    destruct (existsb (Pure.passes t) comps) eqn:Ee.
    + apply existsb_exists in Ee. exact Ee.
    + rewrite block_extent_none in Hv.
      * unfold Crop.valid, Pure.no_block in Hv. simpl in Hv.
        apply andb_true_iff in Hv. destruct Hv as [Hx Hy].
        apply Z.ltb_lt in Hx, Hy. lia.
      * intros c Hc. destruct (Pure.passes t c) eqn:Ep; [| reflexivity].
        assert (existsb (Pure.passes t) comps = true)
          by (apply existsb_exists; eauto).
        congruence.
Qed.

(** X2.  With a nonnegative padding and all block boxes within the page
    image: as soon as one block with a box of positive width and height
    passes the size filter, a Border is annotated, and its rectangle
    contains the box of every block that passed. *)
Theorem crop_border_covers_blocks :
  forall self padding p n input_file page_id page page_image zoom t image w c0,
    Py.truediv (Py.NInt 25) zoom = inr t -> Py.isnan t = false ->
    Py.param_int padding = inr p -> 0 <= p ->
    let comps := GetComponentImages (tessapi w) BLOCK true false in
    (forall c, In c comps -> Spec.within (bbox_from_xywh (c_xywh c)) page_image) ->
    In c0 comps -> Pure.passes t c0 = true ->
    Pure.proper (bbox_from_xywh (c_xywh c0)) ->
    exists w1 st w2 page' x0 y0 x1 y1,
      Crop.detect_extent zoom page_image image w = (w1, inr st) /\
      Crop.set_border self padding n input_file page_id page page_image (snd st) w1
      = (w2, inr page') /\
      Page.Border page' = Some (points_from_bbox x0 y0 x1 y1) /\
      forall c, In c comps -> Pure.passes t c = true ->
        let '(left_, top, right_, bottom) := bbox_from_xywh (c_xywh c) in
        x0 <= left_ /\ right_ <= x1 /\ y0 <= top /\ bottom <= y1.
Proof.
  intros self padding p n input_file page_id page page_image zoom t image w c0
         Ht Hn Hp Hp0 comps Hin Hc0 Hp0' Hpr.
  destruct (@detect_extent_fold zoom t page_image image w Ht Hn) as (w1 & i1 & E).
  fold comps in E.
  set (e := Pure.block_extent t comps (Pure.no_block page_image)) in *.
  pose proof (Hin c0 Hc0) as Hw0.
  pose proof (block_extent_spans t comps (Pure.no_block page_image) c0 Hc0 Hp0')
    as Hs0. fold e in Hs0.
  assert (He : Spec.extent_in e page_image).
  { apply block_extent_in; [exact Hin |].
    unfold Spec.within, Pure.proper in *.
    destruct (bbox_from_xywh (c_xywh c0)) as [[[l tp] r] b].
    unfold Spec.extent_in, Pure.no_block. simpl. lia. }
  assert (Hv : Crop.valid e = true).
  { unfold Crop.valid, Pure.spanned, Pure.proper in *.
    destruct (bbox_from_xywh (c_xywh c0)) as [[[l tp] r] b].
    apply andb_true_iff. split; apply Z.ltb_lt; lia. }
  exists w1, (i1, e). simpl snd.
  pose proof (padded_border He Hv Hp0) as Hb. cbv zeta in Hb.
  unfold Crop.set_border. rewrite Hv, Hp. mred.
  set (e' := Crop.padded e p page_image) in *.
  rewrite (Image_crop_proper page_image (x0 := Crop.min_x e')
             (y0 := Crop.min_y e') (x1 := Crop.max_x e') (y1 := Crop.max_y e'))
    by lia.
  do 2 eexists.
  exists (Crop.min_x e'), (Crop.min_y e'), (Crop.max_x e'), (Crop.max_y e').
  split; [exact E |]. split; [reflexivity |]. split; [reflexivity |].
  intros c Hc Hpc.
  pose proof (block_extent_spans t comps (Pure.no_block page_image) c Hc Hpc) as Hs.
  fold e in Hs. pose proof (Hin c Hc) as Hw.
  unfold Pure.spanned, Spec.within, Spec.extent_in in *.
  destruct (bbox_from_xywh (c_xywh c)) as [[[l tp] r] b].
  subst e'. unfold Crop.padded. simpl. lia.
Qed.

(** X3.  The extent is not checked again after padding, and the padded
    box goes to [Image.crop] as it is: with a negative padding of more than
    half the width (or half the height) of a valid extent, the box is
    inverted and the iteration raises ValueError.  Nothing is saved or
    added to the workspace for this file, and no later input file is
    handled. *)
Theorem crop_negative_padding_raises :
  forall self padding p n input_file image rest w w1 pcgts page_image st,
    Crop.detect self n input_file image w = (w1, inr (pcgts, page_image, st)) ->
    Crop.valid (snd st) = true ->
    Py.param_int padding = inr p ->
    Crop.max_x (snd st) - Crop.min_x (snd st) < - 2 * p \/
    Crop.max_y (snd st) - Crop.min_y (snd st) < - 2 * p ->
    exists w2,
      Crop.process_file self padding n input_file image w
      = (w2, inl Py.ValueError) /\
      calls w2 = calls w1 /\
      for_enumerate n (input_file :: rest) image (Crop.process_file self padding) w
      = (w2, inl Py.ValueError).
Proof.
  intros self padding p n input_file image rest w w1 pcgts page_image st
         Hd Hv Hp Hs.
  destruct st as [im e]. cbn [snd] in *.
  set (e' := Crop.padded e p page_image).
  assert (Hi : Crop.max_x e' < Crop.min_x e' \/ Crop.max_y e' < Crop.min_y e').
  { subst e'. unfold Crop.padded. simpl. lia. }
  assert (Es : exists w2,
             Crop.set_border self padding n input_file
               (Py.str_or (pageId input_file) (ID input_file))
               (Page.Page pcgts) page_image e w1
             = (w2, inl Py.ValueError) /\ calls w2 = calls w1).
  { unfold Crop.set_border. rewrite Hv, Hp. mred.
    change (Crop.padded e p page_image) with e'.
    rewrite (Image_crop_inverted page_image (x0 := Crop.min_x e')
               (y0 := Crop.min_y e') (x1 := Crop.max_x e') (y1 := Crop.max_y e'))
      by exact Hi.
    eexists. split; reflexivity. }
  destruct Es as (w2 & Es & Hc).
  assert (Ea : Crop.annotate self padding n input_file image w
               = (w2, inl Py.ValueError)).
  { rewrite annotate_via_detect. erewrite bind_inr by exact Hd.
    cbv beta iota. cbn [snd]. erewrite bind_inl; [reflexivity | exact Es]. }
  assert (Ep : Crop.process_file self padding n input_file image w
               = (w2, inl Py.ValueError)).
  { unfold Crop.process_file. erewrite bind_inl; [reflexivity | exact Ea]. }
  exists w2. split; [exact Ep |]. split; [exact Hc |].
  now apply for_enumerate_stop.
Qed.

(** X4.  A page image whose resolution is recorded as 0 stops the run:
    the engine is told a dpi of "0", then [300 / dpi] raises
    ZeroDivisionError; nothing is saved or added for this file, and no
    later input file is handled.  (With a TextRegion in the page and
    [image] unbound the iteration fails earlier, hence the first
    hypothesis.) *)
Theorem crop_zero_resolution_fails :
  forall self padding n input_file image rest w,
    let page := Page.Page (page_from_file (download_file input_file)) in
    let page_image := resolve_image_as_pil (Page.imageFilename page) in
    Page.TextRegion page = [] \/ image <> None ->
    xResolution (OcrdExif page_image) = Py.NInt 0 ->
    exists w',
      Crop.process_file self padding n input_file image w
      = (w', inl Py.ZeroDivisionError) /\
      calls w' = (calls w ++ [WsDownloadFile input_file;
                              TessSetVariable "user_defined_dpi" "0"])%list /\
      for_enumerate n (input_file :: rest) image (Crop.process_file self padding) w
      = (w', inl Py.ZeroDivisionError).
Proof.
  intros self padding n input_file image rest w page page_image Hr Hx.
  assert (Ez : forall w1, exists w2,
             Crop.resolution_zoom (OcrdExif page_image) w1
             = (w2, inl Py.ZeroDivisionError) /\
             calls w2 = (calls w1 ++ [TessSetVariable "user_defined_dpi" "0"])%list).
  { intros w1. unfold Crop.resolution_zoom. rewrite Hx.
    change (num_ne_1 (Py.NInt 0)) with true. cbv iota.
    destruct (String.eqb (resolutionUnit (OcrdExif page_image)) "cm").
    - eexists. split; [vm_compute; reflexivity | reflexivity].
    - eexists. split; [vm_compute; reflexivity | reflexivity]. }
  assert (Ex : forall w1, exists w2,
             Crop.existing_regions_extent image (Page.TextRegion page) w1
             = (w2, inr tt) /\ calls w2 = calls w1).
  { intros w1. unfold Crop.existing_regions_extent.
    destruct (Page.TextRegion page) as [| r rs] eqn:Er; [now eexists |].
    destruct image as [img |]; [| destruct Hr; congruence].
    erewrite bind_inr
      by exact (for_each_pure
                  (fun region e0 =>
                     Crop.update e0 (bbox_from_points (Page.tr_Coords region)))
                  (r :: rs) _ w1).
    mred. now eexists. }
  assert (E : exists w',
             Crop.process_file self padding n input_file image w
             = (w', inl Py.ZeroDivisionError) /\
             calls w' = (calls w ++ [WsDownloadFile input_file;
                                     TessSetVariable "user_defined_dpi" "0"])%list).
  { set (w0 := {| log := log w ++
                     [{| lr_level := INFO; lr_msg := "INPUT FILE %i / %s";
                         lr_args := [Py.VInt n;
                                     Py.VStr (Py.str_or (pageId input_file)
                                                        (ID input_file))] |}];
                  calls := calls w ++ [WsDownloadFile input_file];
                  tessapi := tessapi w |}).
    assert (Eb : exists wb,
               (match Page.Border page with
                | Some points =>
                    let '(left_, top, right_, bottom) := bbox_from_points points in
                    LOG WARNING "Overwriting existing Border: %i:%i,%i:%i"
                      [Py.VInt left_; Py.VInt top; Py.VInt right_; Py.VInt bottom]
                | None => ret tt
                end) w0 = (wb, inr tt) /\ calls wb = calls w0).
    { destruct (Page.Border page) as [pts |]; [| now eexists].
      destruct (bbox_from_points pts) as [[[l t] r] b]. now eexists. }
    destruct Eb as (wb & Eb & Hcb).
    destruct (Ex wb) as (wx & Ex' & Hcx).
    destruct (Ez wx) as (wz & Ez' & Hcz).
    exists wz. split.
    - assert (Ed : Crop.detect_page image (open_page self Crop.TOOL input_file) w0
                   = (wz, inl Py.ZeroDivisionError)).
      { unfold Crop.detect_page.
        change (Page.Page (open_page self Crop.TOOL input_file)) with page.
        fold page_image.
        erewrite bind_inr by exact Eb.
        erewrite bind_inr by exact Ex'.
        erewrite bind_inl; [reflexivity | exact Ez']. }
      assert (Ea : Crop.annotate self padding n input_file image w
                   = (wz, inl Py.ZeroDivisionError)).
      { unfold Crop.annotate.
        erewrite bind_inr by exact (fetch_returns self Crop.TOOL n input_file w).
        fold w0. unfold Crop.annotate_page.
        erewrite bind_inl; [reflexivity | exact Ed]. }
      unfold Crop.process_file. erewrite bind_inl; [reflexivity | exact Ea].
    - rewrite Hcz, Hcx, Hcb. subst w0. simpl. now rewrite <- app_assoc. }
  destruct E as (w' & E & Ec). exists w'. split; [exact E |]. split; [exact Ec |].
  now apply for_enumerate_stop.
Qed.

(** The result of [resolution_zoom] does not depend on the world. *)
Lemma resolution_zoom_result info w1 w2 :
  snd (Crop.resolution_zoom info w1) = snd (Crop.resolution_zoom info w2).
Proof.
  unfold Crop.resolution_zoom, num_truediv, SetVariable.
  destruct (num_ne_1 (xResolution info)); [| reflexivity].
  destruct (String.eqb (resolutionUnit info) "cm").
  - mred. destruct (Py.round _) as [e | k]; [reflexivity |].
    cbv beta iota. now destruct (Py.truediv (Py.NInt 300) (Py.NInt k)).
  - mred. cbv beta iota.
    now destruct (Py.truediv (Py.NInt 300) (xResolution info)).
Qed.

Lemma block_step_engine zoom c st w w' st' :
  Crop.block_step zoom c st w = (w', inr st') -> tessapi w' = tessapi w.
Proof.
  unfold Crop.block_step, num_truediv.
  destruct (bbox_from_xywh (c_xywh c)) as [[[l t] r] d].
  intros E. unbind E as w1 u1 E1. apply LOG_engine in E1.
  destruct (getbbox (c_image c)) as [[[[b0 b1] b2] b3] |].
  - unbind E as w2 t2 E2. apply lift_world in E2. subst w2.
    destruct (Py.Z_lt_float (b2 - b0) t2).
    + unbind E as w3 u3 E3. apply LOG_engine in E3.
      unfold ret in E. injection E as <- _. congruence.
    + unbind E as w3 t3 E3. apply lift_world in E3. subst w3.
      destruct (Py.Z_lt_float (b3 - b1) t3);
        unbind E as w4 u4 E4; apply LOG_engine in E4;
        unfold ret in E; injection E as <- _; congruence.
  - unbind E as w2 u2 E2. apply LOG_engine in E2.
    unfold ret in E. injection E as <- _. congruence.
Qed.

(** What [resolution_zoom] sets on the engine: the dpi, if one is
    recorded, and nothing else. *)
Lemma resolution_zoom_engine info w w' zoom :
  Crop.resolution_zoom info w = (w', inr zoom) ->
  ts_psm (tessapi w') = ts_psm (tessapi w) /\
  ts_variables (tessapi w')
  = (ts_variables (tessapi w) ++
     match Pure.crop_dpi info with
     | Some dpi => [("user_defined_dpi", str_of_num dpi)]
     | None => []
     end)%list.
Proof.
  unfold Crop.resolution_zoom, Pure.crop_dpi, num_truediv.
  destruct (num_ne_1 (xResolution info)).
  - intros E. unbind E as w1 dpi E1.
    assert (H1 : w1 = w /\
                 (if String.eqb (resolutionUnit info) "cm"
                  then match Py.round (Py.fmul (Py.to_float (xResolution info))
                                         Py.f2_54) with
                       | inr k => Some (Py.NInt k)
                       | inl _ => None
                       end
                  else Some (xResolution info)) = Some dpi).
    { destruct (String.eqb (resolutionUnit info) "cm").
      - unbind E1 as wa z Ea. unfold lift in Ea. injection Ea as <- Hr.
        rewrite Hr. unfold ret in E1. now injection E1 as <- <-.
      - unfold ret in E1. now injection E1 as <- <-. }
    destruct H1 as [-> ->].
    unbind E as w2 u2 E2. unbind E as w3 z3 E3.
    apply lift_world in E3. subst w3. unfold ret in E. injection E as <- _.
    unfold SetVariable in E2.
    cbv beta iota delta [bind get_tessapi call set_tessapi] in E2.
    injection E2 as <- _. simpl. split; reflexivity.
  - unfold ret. intros [= <- _]. split; [reflexivity |].
    now rewrite app_nil_r.
Qed.

(** The engine as [detect_page] has it when the blocks are asked for. *)
Lemma detect_page_engine image pcgts w w1 d page_image st :
  Crop.detect_page image pcgts w = (w1, inr (d, page_image, st)) ->
  exists zoom w0,
    Crop.detect_extent zoom page_image image w0 = (w1, inr st) /\
    page_image = resolve_image_as_pil (Page.imageFilename (Page.Page pcgts)) /\
    ts_image (tessapi w0) = Some page_image /\
    ts_psm (tessapi w0) = SPARSE_TEXT /\
    ts_variables (tessapi w0)
    = (ts_variables (tessapi w) ++
       match Pure.crop_dpi (OcrdExif page_image) with
       | Some dpi => [("user_defined_dpi", str_of_num dpi)]
       | None => []
       end)%list /\
    tessapi w1 = tessapi w0.
Proof.
  intros E.
  unfold Crop.detect_page in E.
  unbind E as wa ua Ea.
  assert (Ha : tessapi wa = tessapi w).
  { destruct (Page.Border (Page.Page pcgts)) as [pts |].
    - destruct (bbox_from_points pts) as [[[l0 t0] r0] b0].
      now apply LOG_engine in Ea.
    - unfold ret in Ea. now injection Ea as <- _. }
  unbind E as wb ub Eb.
  assert (Hb : tessapi wb = tessapi wa).
  { unfold Crop.existing_regions_extent in Eb.
    destruct (Page.TextRegion (Page.Page pcgts)) as [| r rs].
    - unfold ret in Eb. now injection Eb as <- _.
    - destruct image as [img |]; [| discriminate Eb].
      unbind Eb as wc e Ec. rewrite for_each_pure in Ec. injection Ec as <- _.
      now apply LOG_engine in Eb. }
  unbind E as wc zoom Ec.
  destruct (resolution_zoom_engine _ _ Ec) as (_ & Hv).
  unbind E as wd ud Ed. apply LOG_engine in Ed.
  unbind E as we ue Ee. unbind E as wf uf Ef. unbind E as wg st' Eg.
  unfold ret in E. injection E as <- <- <- <-.
  unfold SetImage in Ee. unfold SetPageSegMode in Ef.
  cbv beta iota delta [bind get_tessapi call set_tessapi] in Ee, Ef.
  injection Ee as <- _. injection Ef as <- _. cbn [tessapi calls log] in Eg.
  exists zoom. eexists. split; [exact Eg |]. cbn [tessapi].
  split; [reflexivity |]. split; [reflexivity |]. split; [reflexivity |].
  split.
  - cbn [ts_SetPageSegMode ts_SetImage ts_variables].
    now rewrite Ed, Hv, Hb, Ha.
  - unfold Crop.detect_extent in Eg.
    unbind Eg as wh th Eh. unfold get_tessapi in Eh. injection Eh as <- <-.
    unbind Eg as wi ui Ei. unfold call in Ei. injection Ei as <- _.
    cbn [tessapi calls log] in Eg.
    eapply (for_each_world (fun w0 => tessapi w0 = _)); [| exact Eg | reflexivity].
    intros c s wx wy s' Es Hx. rewrite <- Hx. eapply block_step_engine; eauto.
Qed.

(** Until the border is set, an iteration of crop calls the engine only. *)
Lemma emits_detect_page image pcgts :
  emits Pure.to_engine (Crop.detect_page image pcgts).
Proof.
  unfold Crop.detect_page, Crop.existing_regions_extent, Crop.resolution_zoom,
    Crop.detect_extent, Crop.block_step, num_truediv, SetVariable, SetImage,
    SetPageSegMode.
  cbv zeta. quiet.
Qed.

Lemma added_to_engine l : Forall Pure.to_engine l -> Pure.added l = [].
Proof.
  induction 1 as [| c l Hc _ IH]; [reflexivity |].
  simpl. rewrite IH. now destruct c.
Qed.

Lemma saved_to_engine l : Forall Pure.to_engine l -> Pure.saved_ids l = [].
Proof.
  induction 1 as [| c l Hc _ IH]; [reflexivity |].
  simpl. rewrite IH. now destruct c.
Qed.

(** With the blocks within the page image, so is the extent. *)
Lemma detect_extent_in zoom page_image image w w1 st :
  0 <= width page_image -> 0 <= height page_image ->
  (forall c, In c (GetComponentImages (tessapi w) BLOCK true false) ->
             Spec.within (bbox_from_xywh (c_xywh c)) page_image) ->
  Crop.detect_extent zoom page_image image w = (w1, inr st) ->
  Spec.extent_in (snd st) page_image.
Proof.
  intros HW HH Hin Hd. unfold Crop.detect_extent in Hd.
  unbind Hd as wa t Et. mred in Et. injection Et as <- <-.
  unbind Hd as wb u Eu.
  eapply (for_each_invariant (fun s => Spec.extent_in (snd s) page_image));
    [ | | exact Hd ].
  - intros c s wc wc' s' Hc Hs Es. eapply block_step_in; eauto.
  - unfold Spec.extent_in. simpl. lia.
Qed.

(** With a nonnegative padding and the extent within the page image,
    [set_border] returns: it saves one image when it annotates the Border,
    and none when it leaves the page as it was. *)
Lemma set_border_saves self padding p n input_file page_id page page_image e w :
  Py.param_int padding = inr p -> 0 <= p -> Spec.extent_in e page_image ->
  exists w' page' s,
    Crop.set_border self padding n input_file page_id page page_image e w
    = (w', inr page') /\
    calls w' = (calls w ++ s)%list /\
    ((page' = page /\ s = []) \/
     exists points a i id,
       page' = Page.pg_add_AlternativeImage (Page.set_Border page points) a /\
       s = [SaveImageFile i id (Some page_id) Crop.FILEGRP_IMG]).
Proof.
  intros Hp Hp0 He. unfold Crop.set_border.
  destruct (Crop.valid e) eqn:Hv.
  - pose proof (padded_border He Hv Hp0) as Hb. cbv zeta in Hb.
    rewrite Hp. mred. set (e' := Crop.padded e p page_image) in *.
    rewrite (Image_crop_proper page_image (x0 := Crop.min_x e')
               (y0 := Crop.min_y e') (x1 := Crop.max_x e') (y1 := Crop.max_y e'))
      by lia.
    do 3 eexists. split; [reflexivity |]. split; [reflexivity |].
    right. do 4 eexists. split; reflexivity.
  - mred. eexists. exists page, []. split; [reflexivity |].
    split; [now rewrite app_nil_r | now left].
Qed.

(** X5.  What can make an iteration of crop fail is the unbound [image],
    the arithmetic on the resolution, a padding that is not an int, and a
    box that [Image.crop] refuses.  When the page has no TextRegion (or
    [image] is bound), the zoom can be computed, the threshold 25 / zoom is
    a number, the padding is a nonnegative int and the blocks the engine
    finds on the page image lie within it, the iteration returns.  It calls
    [workspace.add_file] once itself, for the output file of this input
    file, whose document carries the processing step.  Beside that it
    saves one image file through [save_image_file] (which adds the cropped
    image to the workspace) when it annotates a Border, and none when it
    leaves the page as it was. *)
Theorem crop_file_goes_through :
  forall self padding p n input_file image zoom t w,
    let page := Page.Page (page_from_file (download_file input_file)) in
    let page_image := resolve_image_as_pil (Page.imageFilename page) in
    Page.TextRegion page = [] \/ image <> None ->
    snd (Crop.resolution_zoom (OcrdExif page_image) w) = inr zoom ->
    Py.truediv (Py.NInt 25) zoom = inr t -> Py.isnan t = false ->
    Py.param_int padding = inr p -> 0 <= p ->
    0 <= width page_image -> 0 <= height page_image ->
    (forall t0 c, ts_image t0 = Some page_image ->
                  In c (GetComponentImages t0 BLOCK true false) ->
                  Spec.within (bbox_from_xywh (c_xywh c)) page_image) ->
    exists w' image' d',
      Crop.process_file self padding n input_file image w = (w', inr image') /\
      Pure.added (Spec.called (Crop.process_file self padding n input_file image) w)
      = [output_file self n input_file d'] /\
      Page.Metadata d'
      = (Page.Metadata (page_from_file (download_file input_file)) ++
         [processing_step self Crop.TOOL])%list /\
      ((Page.Page d' = page /\
        Pure.saved_ids (Spec.called (Crop.process_file self padding n input_file
                                       image) w) = []) \/
       (exists points a id,
           Page.Page d'
           = Page.pg_add_AlternativeImage (Page.set_Border page points) a /\
           Pure.saved_ids (Spec.called (Crop.process_file self padding n
                                          input_file image) w) = [id])).
Proof.
  intros self padding p n input_file image zoom t w page page_image
         Hr Hz Ht Hn Hp Hp0 HW HH Hin.
  set (pcgts := open_page self Crop.TOOL input_file).
  set (w0 := {| log := log w ++
                   [{| lr_level := INFO; lr_msg := "INPUT FILE %i / %s";
                       lr_args := [Py.VInt n;
                                   Py.VStr (Py.str_or (pageId input_file)
                                                      (ID input_file))] |}];
                calls := calls w ++ [WsDownloadFile input_file];
                tessapi := tessapi w |}).
  assert (Ed : exists w1 st,
             Crop.detect_page image pcgts w0
             = (w1, inr (pcgts, page_image, st))).
  { unfold Crop.detect_page.
    change (Page.Page pcgts) with page. fold page_image.
    assert (Eb : exists wb,
               (match Page.Border page with
                | Some points =>
                    let '(left_, top, right_, bottom) := bbox_from_points points in
                    LOG WARNING "Overwriting existing Border: %i:%i,%i:%i"
                      [Py.VInt left_; Py.VInt top; Py.VInt right_; Py.VInt bottom]
                | None => ret tt
                end) w0 = (wb, inr tt)).
    { destruct (Page.Border page) as [pts |]; [| now eexists].
      destruct (bbox_from_points pts) as [[[l0 t0] r0] b0]. now eexists. }
    destruct Eb as (wb & Eb). erewrite bind_inr by exact Eb.
    assert (Ex : exists wx,
               Crop.existing_regions_extent image (Page.TextRegion page) wb
               = (wx, inr tt)).
    { unfold Crop.existing_regions_extent.
      destruct (Page.TextRegion page) as [| r rs] eqn:Er; [now eexists |].
      destruct image as [img |]; [| destruct Hr; congruence].
      erewrite bind_inr
        by exact (for_each_pure
                    (fun region e0 =>
                       Crop.update e0 (bbox_from_points (Page.tr_Coords region)))
                    (r :: rs) _ wb).
      mred. now eexists. }
    destruct Ex as (wx & Ex). erewrite bind_inr by exact Ex.
    assert (Ez : exists wz,
               Crop.resolution_zoom (OcrdExif page_image) wx = (wz, inr zoom)).
    { rewrite (resolution_zoom_result _ w wx) in Hz.
      destruct (Crop.resolution_zoom (OcrdExif page_image) wx) as [wz r].
      simpl in Hz. subst r. now eexists. }
    destruct Ez as (wz & Ez). erewrite bind_inr by exact Ez.
    unfold SetImage, SetPageSegMode. mred. cbn [log calls tessapi].
    match goal with
    | |- context [Crop.detect_extent zoom page_image image ?w5] =>
        destruct (@detect_extent_fold zoom t page_image image w5 Ht Hn)
          as (w6 & i6 & E6)
    end.
    rewrite E6. now eexists; eexists. }
  destruct Ed as (w1 & st & Ed).
  destruct (@detect_page_engine _ _ _ _ _ _ _ Ed) as (zoom' & we & Ee & _ & Hi & _).
  assert (He : Spec.extent_in (snd st) page_image).
  { eapply detect_extent_in; [exact HW | exact HH | | exact Ee].
    intros c Hc. now apply (Hin (tessapi we)). }
  destruct (@set_border_saves self padding p n input_file
              (Py.str_or (pageId input_file) (ID input_file))
              (Page.Page pcgts) page_image (snd st) w1 Hp Hp0 He)
    as (w2 & page' & s & Es & Hcs & Hs).
  destruct (emits_detect_page image pcgts w0) as (l & Hl & Fl).
  rewrite Ed in Hl. cbn [fst] in Hl.
  assert (Ea : Crop.annotate self padding n input_file image w
               = (w2, inr (fst st, Page.set_Page pcgts page'))).
  { unfold Crop.annotate.
    erewrite bind_inr by exact (fetch_returns self Crop.TOOL n input_file w).
    fold w0. fold pcgts. unfold Crop.annotate_page.
    erewrite bind_inr by exact Ed. cbv beta iota.
    erewrite bind_inr by exact Es. reflexivity. }
  assert (Ep : Crop.process_file self padding n input_file image w
               = ({| log := log w2;
                     calls := calls w2 ++
                              [WsAddFile (output_file self n input_file
                                            (Page.set_Page pcgts page'))];
                     tessapi := tessapi w2 |}, inr (fst st))).
  { unfold Crop.process_file. erewrite bind_inr by exact Ea. reflexivity. }
  assert (Hc : Spec.called (Crop.process_file self padding n input_file image) w
               = ([WsDownloadFile input_file] ++ l ++ s ++
                  [WsAddFile (output_file self n input_file
                                (Page.set_Page pcgts page'))])%list).
  { unfold Spec.called. rewrite Ep. cbn [fst calls]. rewrite Hcs, Hl.
    subst w0. cbn [calls]. rewrite <- !app_assoc.
    now rewrite skipn_app_length. }
  eexists. exists (fst st), (Page.set_Page pcgts page').
  split; [exact Ep |]. rewrite Hc.
  rewrite !added_app, !saved_ids_app, (added_to_engine Fl), (saved_to_engine Fl).
  split; [| split].
  - destruct Hs as [[_ ->] | (pts & a & i & id & _ & ->)]; reflexivity.
  - exact (proj1 (crop_annotate_kept _ _ _ _ _ _ Ea)).
  - destruct Hs as [[-> ->] | (pts & a & i & id & -> & ->)].
    + left. split; reflexivity.
    + right. exists pts, a, id. split; reflexivity.
Qed.



End CropMore.

(* ===================================================================== *)
(** * Further properties of segment-line *)
(* ===================================================================== *)

Section SegmentLineMore.
Context `{External}.

Lemma nth_new_lines_id region_id region_xywh comps :
  forall n k l,
    nth_error (Spec.new_lines region_id region_xywh n comps) k = Some l ->
    Page.tl_id l = region_id ++ "_line" ++ Py.fmt_04d (n + Z.of_nat k).
Proof.
  induction comps as [| c cs IH]; intros n k l E.
  - now destruct k.
  - destruct k as [| k]; simpl in E.
    + injection E as <-. simpl. now rewrite Z.add_0_r.
    + rewrite (IH _ _ _ E). do 3 f_equal. lia.
Qed.

Lemma length_new_lines region_id region_xywh comps :
  forall n, List.length (Spec.new_lines region_id region_xywh n comps)
            = List.length comps.
Proof. induction comps as [| c cs IH]; intros n; simpl; [reflexivity | now rewrite IH]. Qed.

(** X6.  The lines added to a region in one pass have pairwise distinct
    ids: the zero-padded line number can be read back from the id. *)
Theorem segment_line_new_ids_distinct :
  forall overwrite_lines page_image page_xywh region w w' region' k1 k2 l1 l2,
    SegmentLine.process_region overwrite_lines page_image page_xywh region w
    = (w', inr region') ->
    let kept := List.length (Page.tr_TextLine (Spec.cleared overwrite_lines region)) in
    nth_error (Page.tr_TextLine region') (kept + k1) = Some l1 ->
    nth_error (Page.tr_TextLine region') (kept + k2) = Some l2 ->
    k1 <> k2 ->
    Page.tl_id l1 <> Page.tl_id l2.
Proof.
  intros ow page_image page_xywh region w w' region' k1 k2 l1 l2 E kept E1 E2 Hk.
  destruct (process_region_returns ow page_image page_xywh region w) as (w1 & Er).
  rewrite E in Er. injection Er as _ ->. simpl in E1, E2.
  rewrite nth_error_app2 in E1, E2 by (unfold kept; lia).
  replace (kept + k1 - _)%nat with k1 in E1 by (unfold kept; lia).
  replace (kept + k2 - _)%nat with k2 in E2 by (unfold kept; lia).
  rewrite (nth_new_lines_id _ _ _ _ _ E1), (nth_new_lines_id _ _ _ _ _ E2).
  intros Eq. apply append_inj_l, append_inj_l, fmt_04d_inj in Eq; lia.
Qed.

(** X7.  When [overwrite_lines] is false, the ids of the new lines do not
    depend on the lines the region already has: a second pass over the
    region gives its [k]-th new line the id the first pass gave its [k]-th
    new line, so the region ends up with two lines of the same id. *)
Theorem segment_line_second_pass_repeats_ids :
  forall overwrite_lines page_image page_xywh region w w1 region1 w2 region2 k c1 c2,
    Py.param_truth overwrite_lines = false ->
    SegmentLine.process_region overwrite_lines page_image page_xywh region w
    = (w1, inr region1) ->
    SegmentLine.process_region overwrite_lines page_image page_xywh region1 w1
    = (w2, inr region2) ->
    let first := Spec.detected_lines overwrite_lines page_image page_xywh region w in
    let second := Spec.detected_lines overwrite_lines page_image page_xywh region1 w1 in
    nth_error first k = Some c1 ->
    nth_error second k = Some c2 ->
    let old := List.length (Page.tr_TextLine region) in
    exists l1 l2,
      nth_error (Page.tr_TextLine region2) (old + k) = Some l1 /\
      nth_error (Page.tr_TextLine region2) (old + List.length first + k) = Some l2 /\
      Page.tl_id l1 = Page.tr_id region ++ "_line" ++ Py.fmt_04d (Z.of_nat k) /\
      Page.tl_id l2 = Page.tl_id l1.
Proof.
  intros ow page_image page_xywh region w w1 region1 w2 region2 k c1 c2
         Hk E1 E2 first second H1 H2 old.
  assert (Hc : forall r, Spec.cleared ow r = r).
  { intros r. unfold Spec.cleared. rewrite Hk. now destruct (Page.tr_TextLine r). }
  destruct (process_region_returns ow page_image page_xywh region w) as (wa & Ea).
  rewrite E1 in Ea. injection Ea as _ Ea. rewrite Hc in Ea.
  destruct (process_region_returns ow page_image page_xywh region1 w1) as (wb & Eb).
  rewrite E2 in Eb. injection Eb as _ Eb. rewrite Hc in Eb.
  fold first in Ea. fold second in Eb.
  assert (Ei : Page.tr_id region1 = Page.tr_id region) by now rewrite Ea.
  assert (El : Page.tr_TextLine region1
               = (Page.tr_TextLine region ++
                  Spec.new_lines (Page.tr_id region)
                    (Spec.region_xywh_of ow page_image page_xywh region) 0 first)%list)
    by now rewrite Ea.
  rewrite Ei in Eb.
  exists (Spec.line_of (Page.tr_id region)
            (Spec.region_xywh_of ow page_image page_xywh region) (Z.of_nat k) c1),
    (Spec.line_of (Page.tr_id region)
            (Spec.region_xywh_of ow page_image page_xywh region1) (Z.of_nat k) c2).
  rewrite Eb. simpl Page.tr_TextLine. rewrite El. repeat split.
  - rewrite <- app_assoc, nth_error_app2 by (unfold old; lia).
    replace (old + k - _)%nat with k by (unfold old; lia).
    rewrite nth_error_app1
      by (rewrite length_new_lines; apply nth_error_Some; congruence).
    now rewrite (nth_new_lines _ _ _ 0 _ H1).
  - rewrite nth_error_app2
      by (rewrite length_app, length_new_lines; unfold old; lia).
    rewrite length_app, length_new_lines.
    replace (old + List.length first + k - _)%nat with k by (unfold old; lia).
    now rewrite (nth_new_lines _ _ _ 0 _ H2).
Qed.

(** What [process_region] leaves of the engine. *)
Lemma process_region_engine overwrite_lines page_image page_xywh region w w' region' :
  SegmentLine.process_region overwrite_lines page_image page_xywh region w
  = (w', inr region') ->
  ts_variables (tessapi w') = ts_variables (tessapi w) /\
  ts_psm (tessapi w') = ts_psm (tessapi w).
Proof.
  unfold SegmentLine.process_region. intros E.
  destruct (clear_lines_returns overwrite_lines region w) as (w1 & E1 & Hc1 & Ht1).
  rewrite (@bind_inr _ _ _ _ _ _ _ E1) in E.
  unbind E as w2 u2 E2. mred in E2.
  destruct (image_from_region _ _ _) as [region_image region_xywh].
  unfold SetImage in E.
  cbv beta iota delta [bind get_tessapi call set_tessapi] in E.
  rewrite lines_loop in E. unfold LOG in E2. injection E2 as <- _.
  injection E as <- _. simpl. now rewrite Ht1.
Qed.

Lemma annotate_page_returns overwrite_lines input_file pcgts w :
  exists w' d',
    SegmentLine.annotate_page overwrite_lines input_file pcgts w = (w', inr d').
Proof.
  unfold SegmentLine.annotate_page.
  set (dpi := match info_dpi _ with Some d => fst d | None => Py.NInt 0 end).
  set (m := if Py.num_truth dpi then _ else _).
  assert (Em : exists w1, m w = (w1, inr tt)).
  { subst m. destruct (Py.num_truth dpi); now eexists. }
  destruct Em as (w1 & Em). erewrite bind_inr by exact Em.
  destruct (image_from_page _ _ _) as [page_image page_xywh].
  destruct (for_update_returns
              (SegmentLine.process_region overwrite_lines page_image page_xywh)
              (fun r w => let (w', E) := process_region_returns overwrite_lines
                                            page_image page_xywh r w in
                          ex_intro _ w' (ex_intro _ _ E))
              (Page.TextRegion (Page.Page pcgts)) w1) as (w2 & regions & Er).
  erewrite bind_inr by exact Er. now eexists; eexists.
Qed.

(** X8.  Handling a page always returns, and leaves the engine's
    variables as they were, with [user_defined_dpi] appended when the page
    image records a dpi that is not zero: the dpi is never taken back, so
    a page without dpi is segmented with the dpi of an earlier page.  The
    page segmentation mode is left alone. *)
Theorem segment_line_dpi_is_never_reset :
  forall overwrite_lines input_file pcgts w,
    let dpi := Pure.image_dpi pcgts in
    exists w' d',
      SegmentLine.annotate_page overwrite_lines input_file pcgts w = (w', inr d') /\
      ts_variables (tessapi w')
      = (ts_variables (tessapi w) ++
         if Py.num_truth dpi then [("user_defined_dpi", str_of_num dpi)] else [])%list /\
      ts_psm (tessapi w') = ts_psm (tessapi w).
Proof.
  intros ow input_file pcgts w dpi.
  destruct (annotate_page_returns ow input_file pcgts w) as (w' & d' & E).
  exists w', d'. split; [exact E |].
  unfold SegmentLine.annotate_page in E. fold (Pure.image_dpi pcgts) in E. fold dpi in E.
  unbind E as w1 u1 E1.
  destruct (image_from_page _ _ _) as [page_image page_xywh].
  unbind E as w2 regions Er. mred in E. injection E as <- _.
  assert (H1 : ts_variables (tessapi w1)
               = (ts_variables (tessapi w) ++
                  if Py.num_truth dpi
                  then [("user_defined_dpi", str_of_num dpi)] else [])%list /\
               ts_psm (tessapi w1) = ts_psm (tessapi w)).
  { destruct (Py.num_truth dpi).
    - unfold SetVariable in E1. mred in E1. injection E1 as <- _. now split.
    - mred in E1. injection E1 as <- _. now rewrite app_nil_r. }
  destruct H1 as [Hv Hp]. rewrite <- Hv, <- Hp.
  eapply (for_update_world
            (fun w0 => ts_variables (tessapi w0) = ts_variables (tessapi w1) /\
                       ts_psm (tessapi w0) = ts_psm (tessapi w1)));
    [| exact Er | now split].
  intros r wa wb r' Ea [Ha1 Ha2].
  destruct (process_region_engine _ _ _ _ _ Ea) as [Hb1 Hb2]. split; congruence.
Qed.

Lemma process_file_returns self overwrite_lines n f w :
  exists w' d' l,
    SegmentLine.process_file self overwrite_lines n f tt w = (w', inr tt) /\
    calls w' = (calls w ++ WsDownloadFile f :: l ++
                [WsAddFile (output_file self n f d')])%list /\
    Forall Spec.inner l.
Proof.
  set (w0 := {| log := log w ++
                   [{| lr_level := INFO; lr_msg := "INPUT FILE %i / %s";
                       lr_args := [Py.VInt n;
                                   Py.VStr (Py.str_or (pageId f) (ID f))] |}];
                calls := calls w ++ [WsDownloadFile f];
                tessapi := tessapi w |}).
  destruct (annotate_page_returns overwrite_lines f
              (open_page self SegmentLine.TOOL f) w0) as (w1 & d' & E).
  destruct (emits_segment_line_annotate_page overwrite_lines f
              (open_page self SegmentLine.TOOL f) w0) as (l & El & Fl).
  rewrite E in El. simpl in El.
  assert (Ea : SegmentLine.annotate self overwrite_lines n f w = (w1, inr d')).
  { unfold SegmentLine.annotate.
    erewrite bind_inr by exact (fetch_returns self SegmentLine.TOOL n f w).
    exact E. }
  exists {| log := log w1;
            calls := calls w1 ++ [WsAddFile (output_file self n f d')];
            tessapi := tessapi w1 |}, d', l.
  split; [| split; [| exact Fl]].
  - unfold SegmentLine.process_file. erewrite bind_inr by exact Ea. reflexivity.
  - simpl. rewrite El. now rewrite <- !app_assoc.
Qed.

Lemma files_loop_returns self overwrite_lines files :
  forall n w, exists w' trace,
    for_enumerate n files tt (SegmentLine.process_file self overwrite_lines) w
    = (w', inr tt) /\
    calls w' = (calls w ++ trace)%list /\
    map pageId (Pure.added trace) = map pageId files /\
    Forall (fun o => file_grp o = output_file_grp self /\
                     mimetype o = MIMETYPE_PAGE) (Pure.added trace).
Proof.
  induction files as [| f fs IH]; intros n w.
  - exists w, []. rewrite app_nil_r. now repeat split.
  - destruct (process_file_returns self overwrite_lines n f w)
      as (w1 & d1 & l & E1 & Hc1 & Fl).
    destruct (IH (n + 1) w1) as (w2 & trace & E2 & Hc2 & Hp & Hg).
    exists w2, (WsDownloadFile f :: l ++ [WsAddFile (output_file self n f d1)] ++ trace)%list.
    split; [| split; [| split]].
    + rewrite (@for_enumerate_step _ _ n f fs _ tt w w1 tt E1). exact E2.
    + rewrite Hc2, Hc1. rewrite <- app_assoc. f_equal. simpl. f_equal.
      now rewrite <- app_assoc.
    + change (WsDownloadFile f :: l ++ [WsAddFile (output_file self n f d1)] ++ trace)%list
        with ([WsDownloadFile f] ++ l ++ [WsAddFile (output_file self n f d1)] ++ trace)%list.
      rewrite !added_app, (added_inner Fl). simpl. now rewrite Hp.
    + change (WsDownloadFile f :: l ++ [WsAddFile (output_file self n f d1)] ++ trace)%list
        with ([WsDownloadFile f] ++ l ++ [WsAddFile (output_file self n f d1)] ++ trace)%list.
      rewrite !added_app, (added_inner Fl). simpl. constructor; [now split | exact Hg].
Qed.

(** X9.  With its parameter present, a run of segment-line raises nothing
    of its own, whatever the engine and the helpers return: it returns,
    having added exactly one file per input file, in order, each with the
    page id of its input file, in the output file group and of the PAGE
    media type. *)
Theorem segment_line_run_returns :
  forall self w,
    In "overwrite_lines" (map fst (parameter self)) ->
    exists w',
      SegmentLine.process self w = (w', inr tt) /\
      let outputs := Pure.added (Spec.called (SegmentLine.process self) w) in
      map pageId outputs = map pageId (input_files self) /\
      Forall (fun o => file_grp o = output_file_grp self /\
                       mimetype o = MIMETYPE_PAGE) outputs.
Proof.
  intros self w Hk. destruct (getitem_present _ _ Hk) as (v & Ev).
  set (w1 := {| log := log w; calls := calls w ++ [TessInit SegmentLine.engine];
                tessapi := SegmentLine.engine |}).
  destruct (files_loop_returns self v (input_files self) 0 w1)
    as (w2 & trace & E & Hc & Hp & Hg).
  assert (Er : SegmentLine.process self w
               = ({| log := log w2; calls := calls w2 ++ [TessEnd];
                     tessapi := tessapi w2 |}, inr tt)).
  { unfold SegmentLine.process. erewrite bind_inr by apply Ev.
    unfold with_PyTessBaseAPI. mred. simpl. fold w1. now rewrite E. }
  eexists. split; [exact Er |].
  unfold Spec.called. rewrite Er. cbn [fst calls]. rewrite Hc. subst w1. cbn [calls].
  rewrite <- !app_assoc, skipn_app_length. cbv zeta.
  change ([TessInit SegmentLine.engine] ++ trace ++ [TessEnd])%list
    with ([TessInit SegmentLine.engine] ++ trace ++ [TessEnd])%list.
  rewrite !added_app. simpl. rewrite app_nil_r. now split.
Qed.

(** A page without text regions: nothing is asked of the engine. *)
Lemma segment_line_no_regions overwrite_lines input_file pcgts w :
  Page.TextRegion (Page.Page pcgts) = [] ->
  exists w',
    SegmentLine.annotate_page overwrite_lines input_file pcgts w = (w', inr pcgts) /\
    calls w'
    = (calls w ++
       if Py.num_truth (Pure.image_dpi pcgts)
       then [TessSetVariable "user_defined_dpi" (str_of_num (Pure.image_dpi pcgts))]
       else [])%list.
Proof.
  intros Hr. unfold SegmentLine.annotate_page.
  fold (Pure.image_dpi pcgts).
  destruct (image_from_page _ _ _) as [page_image page_xywh].
  rewrite Hr.
  assert (Ed : Page.set_Page pcgts (Page.set_TextRegion (Page.Page pcgts) []) = pcgts).
  { destruct pcgts as [m p]. destruct p. simpl in *. now subst. }
  destruct (Py.num_truth (Pure.image_dpi pcgts)); unfold SetVariable; mred; simpl;
    rewrite Ed; eexists; (split; [reflexivity |]); simpl; [reflexivity |].
  now rewrite app_nil_r.
Qed.

End SegmentLineMore.

(* ===================================================================== *)
(** * Further properties of deskew *)
(* ===================================================================== *)

Section DeskewMore.
Context `{External}.

Lemma apply_osd_returned where_ osr s c a w w' s' c' a' :
  Deskew.apply_osd where_ osr (s, c, a) w = (w', inr (s', c', a')) ->
  Spec.only_logs w w' /\
  c' = (c ++ Spec.osd_comment osr)%string /\
  a' = Pure.osd_angle osr a /\
  Pure.get_orientation s' = Pure.get_orientation s /\
  Spec.same_images s s'.
Proof.
  unfold Deskew.apply_osd, Spec.osd_comment, Pure.osd_angle, Spec.only_logs.
  destruct osr as [o |].
  - destruct (Py.isnan (orient_conf o)); simpl negb.
    { intros E. run_in E. discriminate. }
    destruct (Py.isnan (script_conf o)); simpl negb.
    { destruct (Py.float_lt_Z (orient_conf o) 10); intros E; run_in E;
        discriminate. }
    set (script := Deskew.dict_get Deskew.scripts (script_name o) "Latn - Latin").
    destruct (Py.float_lt_Z (orient_conf o) 10);
      destruct (Py.float_lt_Z (script_conf o) 10);
      intros E; run_in E; simpl in E;
      try destruct (orient_deg o =? 0); simpl in E;
      injection E as <- <- <- <-; rewrite ?append_empty;
      repeat split;
      try now destruct s.
  - intros E. run_in E. injection E as <- <- <- <-.
    rewrite append_empty. now repeat split.
Qed.

Lemma orientation_of_directions s rd tl :
  Pure.get_orientation
    (if Deskew.is_TextRegion_or_Page s
     then Deskew.set_textLineOrder (Deskew.set_readingDirection s rd) tl
     else s)
  = Pure.get_orientation s.
Proof. now destruct s. Qed.

Lemma apply_layout_returned where_ lo angle s c image w w' s' c' image' :
  Deskew.apply_layout where_ (Some lo) angle (s, c, image) w
  = (w', inr (s', c', image')) ->
  let a := Py.fadd (Py.to_float angle) (Deskew.degrees (lo_deskew_angle lo)) in
  Spec.only_logs w w' /\
  c' = (c ++ Spec.layout_comment (Some lo))%string /\
  image' = Pure.rotated image a /\
  Pure.get_orientation s'
  = (if Py.fis_zero a then Pure.get_orientation s else Some (Spec.normalized a)).
Proof.
  intros E a.
  pose proof (apply_layout_cases where_ (Some lo) angle s c image w) as Hc.
  cbv beta iota in Hc.
  destruct (Py.int_of_float (Deskew.degrees (lo_deskew_angle lo))) as [e | i] eqn:Ei.
  { destruct Hc as [Hc _]. congruence. }
  destruct Hc as (w1 & s1 & i1 & E1 & Hl & _).
  rewrite E in E1. injection E1 as <- <- Ec <-.
  split; [exact Hl |]. split; [exact Ec |].
  clear Hl Ec. unfold Deskew.apply_layout in E. rewrite Ei in E.
  fold a in E. rewrite normalize_angle_returns in E.
  unfold Pure.rotated.
  destruct (Py.fis_zero a); simpl negb in E; cbv iota in E;
    destruct (Py.Z_ne_num (Deskew.angle2_of (lo_orientation lo)) angle);
    run_in E; simpl in E; injection E as _ <- _ <-;
    (split; [reflexivity |]); rewrite orientation_of_directions;
    try reflexivity; now destruct s.
Qed.

(** What [_process_segment] saved and set, when it returned. *)
Lemma process_segment_result segment image xywh where_ page_id file_id w w' segment' :
  Deskew._process_segment segment image xywh where_ page_id file_id w
  = (w', inr segment') ->
  let t := ts_SetImage (tessapi w) image in
  let osr := DetectOrientationScript t in
  let image' := match AnalyseLayout t with
                | Some lo => Pure.rotated image (Pure.rotation osr lo)
                | None => image
                end in
  calls w' = (calls w ++
              [TessSetImage image; TessDetectOrientationScript; TessAnalyseLayout;
               SaveImageFile image' file_id page_id Deskew.FILEGRP_IMG])%list /\
  Deskew.get_AlternativeImage segment'
  = (Deskew.get_AlternativeImage segment ++
     [{| Page.filename := save_image_file image' file_id page_id Deskew.FILEGRP_IMG;
         Page.comments := Deskew.initial_comments segment xywh ++
                          Spec.osd_comment osr ++
                          Spec.layout_comment (AnalyseLayout t) |}])%list /\
  Pure.get_orientation segment'
  = match AnalyseLayout t with
    | Some lo => if Py.fis_zero (Pure.rotation osr lo)
                 then Pure.get_orientation segment
                 else Some (Spec.normalized (Pure.rotation osr lo))
    | None => Pure.get_orientation segment
    end.
Proof.
  intros E t osr image'. unfold Deskew._process_segment in E.
  unbind E as w1 u1 E1. run_in E1. injection E1 as <- _.
  unbind E as w2 t2 E2. run_in E2. injection E2 as <- <-.
  unbind E as w3 u3 E3. run_in E3. injection E3 as <- _.
  cbn [tessapi] in E. fold t in E. fold osr in E.
  unbind E as w4 sca E4. destruct sca as [[s4 c4] a4].
  destruct (apply_osd_returned _ _ _ _ _ _ E4) as ([Hc4 Ht4] & -> & -> & Ho4 & Hi4).
  cbn [calls tessapi] in Hc4, Ht4.
  unbind E as w5 t5 E5. run_in E5. injection E5 as <- <-.
  unbind E as w6 u6 E6. run_in E6. injection E6 as <- _.
  rewrite Ht4 in E. fold t in E.
  unbind E as w7 sci E7. destruct sci as [[s7 c7] i7].
  unbind E as w8 u8 E8. run_in E8. injection E8 as <- _.
  run_in E. injection E as <- <-. cbn [calls].
  subst image'.
  destruct (AnalyseLayout t) as [lo |] eqn:El.
  - destruct (apply_layout_returned _ _ _ _ _ _ _ E7) as ([Hc7 Ht7] & -> & -> & Ho7).
    cbn [calls tessapi] in Hc7.
    fold (Pure.rotation osr lo) in *.
    split; [| split].
    + rewrite Hc7, Hc4. now rewrite <- !app_assoc.
    + destruct Hi4 as (Ha4 & _).
      assert (Ha7 : Deskew.get_AlternativeImage s7 = Deskew.get_AlternativeImage s4).
      { pose proof (apply_layout_cases where_ (Some lo) (Pure.osd_angle osr (Py.NFloat (S754_zero false))) s4
                      (Deskew.initial_comments segment xywh ++ Spec.osd_comment osr)%string image
                      {| log := log w4; calls := calls w4 ++ [TessAnalyseLayout];
                         tessapi := t |}) as Hc.
        cbv beta iota in Hc. rewrite E7 in Hc.
        destruct (Py.int_of_float (Deskew.degrees (lo_deskew_angle lo)));
          [destruct Hc; discriminate |].
        destruct Hc as (wx & sx & ix & Ex & _ & _ & (Hx & _)).
        now injection Ex as _ <- _. }
      rewrite append_assoc.
      destruct s7; simpl in *; now rewrite Ha7, Ha4.
    + destruct s7; simpl in *; rewrite Ho7, ?Ho4; reflexivity.
  - unfold Deskew.apply_layout in E7. run_in E7. injection E7 as <- <- <- <-.
    cbn [calls]. split; [| split].
    + rewrite Hc4. now rewrite <- !app_assoc.
    + destruct Hi4 as (Ha4 & _). simpl Spec.layout_comment.
      rewrite append_empty.
      destruct s4; simpl in *; now rewrite Ha4.
    + now destruct s4.
Qed.

(** [_process_segment] returns when detection did not fail. *)
Lemma process_segment_goes_through segment image xywh where_ page_id file_id w :
  let t := ts_SetImage (tessapi w) image in
  Spec.osd_ok (DetectOrientationScript t) ->
  Spec.layout_ok (AnalyseLayout t) ->
  exists w' segment',
    Deskew._process_segment segment image xywh where_ page_id file_id w
    = (w', inr segment').
Proof.
  intros t Hosd Hlay.
  pose proof (process_segment_cases segment image xywh where_ page_id file_id w)
    as Hc.
  cbv zeta in Hc. fold t in Hc.
  assert (Hw : Spec.went_through segment image xywh page_id file_id w
                 (Deskew._process_segment segment image xywh where_ page_id
                                          file_id w)).
  { unfold Spec.osd_ok, Spec.layout_ok in *.
    destruct (DetectOrientationScript t) as [o |].
    - destruct Hosd as [Ho1 Ho2]. rewrite Ho1, Ho2 in Hc.
      destruct (AnalyseLayout t) as [lo |]; auto.
      destruct Hlay as [i Hi]. now rewrite Hi in Hc.
    - destruct (AnalyseLayout t) as [lo |]; auto.
      destruct Hlay as [i Hi]. now rewrite Hi in Hc. }
  destruct Hw as (w' & segment' & image' & Er & _). eauto.
Qed.

(** X10.  When detection does not fail and the layout analysis gives a
    result, the angle [a] the image is rotated by is the orientation
    applied from OSD (0 without a result or below confidence 10) plus the
    deskew angle in degrees; the orientation reported by the layout
    analysis does not enter.  If [a] is zero the image saved is the
    segment's image and [orientation] is left alone; else the image saved
    is the segment's image rotated by [-a] (expanded, filled white), and
    [orientation] is set to [180 - (180 - a) % 360]. *)
Theorem deskew_rotates_by_orientation_plus_skew :
  forall segment image xywh where_ page_id file_id w lo,
    let t := ts_SetImage (tessapi w) image in
    Spec.osd_ok (DetectOrientationScript t) ->
    AnalyseLayout t = Some lo ->
    (exists i, Py.int_of_float (Deskew.degrees (lo_deskew_angle lo)) = inr i) ->
    let a := Pure.rotation (DetectOrientationScript t) lo in
    let image' := if Py.fis_zero a then image
                  else Rotated image (Py.fneg a) true "white" in
    exists w' segment' comments,
      Deskew._process_segment segment image xywh where_ page_id file_id w
      = (w', inr segment') /\
      calls w' = (calls w ++
                  [TessSetImage image; TessDetectOrientationScript;
                   TessAnalyseLayout;
                   SaveImageFile image' file_id page_id Deskew.FILEGRP_IMG])%list /\
      Deskew.get_AlternativeImage segment'
      = (Deskew.get_AlternativeImage segment ++
         [{| Page.filename :=
               save_image_file image' file_id page_id Deskew.FILEGRP_IMG;
             Page.comments := comments |}])%list /\
      Pure.get_orientation segment'
      = (if Py.fis_zero a then Pure.get_orientation segment
         else Some (Spec.normalized a)).
Proof.
  intros segment image xywh where_ page_id file_id w lo t Hosd Hl Hi a image'.
  destruct (process_segment_goes_through segment image xywh where_ page_id
              file_id w) as (w' & segment' & E).
  { exact Hosd. }
  { fold t. now rewrite Hl. }
  destruct (process_segment_result _ _ _ _ _ _ _ E) as (Hc & Ha & Ho).
  fold t in Hc, Ha, Ho. rewrite Hl in Hc, Ha, Ho.
  exists w', segment'. eexists. split; [exact E |].
  split; [exact Hc |]. split; [exact Ha | exact Ho].
Qed.

(** X11.  The rotation happens under [if layout:] only.  When OSD gives
    a nonzero orientation with confidence 10 or more but the layout
    analysis gives no result, the comments of the AlternativeImage say
    ",rotated-<degrees>", yet the image saved is the segment's image, not
    rotated, and [orientation] is not set. *)
Theorem deskew_orientation_without_layout :
  forall segment image xywh where_ page_id file_id w o,
    let t := ts_SetImage (tessapi w) image in
    DetectOrientationScript t = Some o ->
    Py.isnan (orient_conf o) = false -> Py.isnan (script_conf o) = false ->
    Py.float_lt_Z (orient_conf o) 10 = false ->
    orient_deg o <> 0 ->
    AnalyseLayout t = None ->
    exists w' segment',
      Deskew._process_segment segment image xywh where_ page_id file_id w
      = (w', inr segment') /\
      calls w' = (calls w ++
                  [TessSetImage image; TessDetectOrientationScript;
                   TessAnalyseLayout;
                   SaveImageFile image file_id page_id Deskew.FILEGRP_IMG])%list /\
      Deskew.get_AlternativeImage segment'
      = (Deskew.get_AlternativeImage segment ++
         [{| Page.filename :=
               save_image_file image file_id page_id Deskew.FILEGRP_IMG;
             Page.comments :=
               Deskew.initial_comments segment xywh ++
               ",rotated-" ++ Py.str_of_Z (orient_deg o) |}])%list /\
      Pure.get_orientation segment' = Pure.get_orientation segment.
Proof.
  intros segment image xywh where_ page_id file_id w o t Ho Hn1 Hn2 Hc Hd Hl.
  destruct (process_segment_goes_through segment image xywh where_ page_id
              file_id w) as (w' & segment' & E).
  { fold t. rewrite Ho. now split. }
  { fold t. now rewrite Hl. }
  destruct (process_segment_result _ _ _ _ _ _ _ E) as (Hcalls & Ha & Hor).
  fold t in Hcalls, Ha, Hor. rewrite Hl in Hcalls, Ha, Hor. rewrite Ho in Ha.
  exists w', segment'. split; [exact E |]. split; [exact Hcalls |].
  split; [| exact Hor].
  rewrite Ha. unfold Spec.osd_comment, Spec.layout_comment. rewrite Hc.
  apply Z.eqb_neq in Hd. rewrite Hd. now rewrite append_empty.
Qed.

(** X12.  ",deskewed" is appended when [int(deskew_angle)] is not zero,
    the rotation is done when the angle is not zero.  So with no
    orientation to apply and a skew of less than one degree that is not
    zero, the image saved is rotated by the skew and [orientation] is
    set, while the comments are the initial comments, without
    ",deskewed". *)
Theorem deskew_small_skew_is_not_commented :
  forall segment image xywh where_ page_id file_id w lo,
    let t := ts_SetImage (tessapi w) image in
    Spec.osd_ok (DetectOrientationScript t) ->
    Pure.no_orientation (DetectOrientationScript t) ->
    AnalyseLayout t = Some lo ->
    let skew := Deskew.degrees (lo_deskew_angle lo) in
    Py.int_of_float skew = inr 0 -> Py.fis_zero skew = false ->
    let image' := Rotated image (Py.fneg skew) true "white" in
    exists w' segment',
      Deskew._process_segment segment image xywh where_ page_id file_id w
      = (w', inr segment') /\
      calls w' = (calls w ++
                  [TessSetImage image; TessDetectOrientationScript;
                   TessAnalyseLayout;
                   SaveImageFile image' file_id page_id Deskew.FILEGRP_IMG])%list /\
      Deskew.get_AlternativeImage segment'
      = (Deskew.get_AlternativeImage segment ++
         [{| Page.filename :=
               save_image_file image' file_id page_id Deskew.FILEGRP_IMG;
             Page.comments := Deskew.initial_comments segment xywh |}])%list /\
      Pure.get_orientation segment' = Some (Spec.normalized skew).
Proof.
  intros segment image xywh where_ page_id file_id w lo t Hosd Hno Hl skew Hi Hz
         image'.
  destruct (process_segment_goes_through segment image xywh where_ page_id
              file_id w) as (w' & segment' & E).
  { exact Hosd. }
  { fold t. rewrite Hl. now exists 0. }
  destruct (process_segment_result _ _ _ _ _ _ _ E) as (Hc & Ha & Ho).
  fold t in Hc, Ha, Ho. rewrite Hl in Hc, Ha, Ho.
  assert (Er : Pure.rotation (DetectOrientationScript t) lo = skew).
  { unfold Pure.rotation, Pure.osd_angle, Pure.no_orientation in *.
    fold skew.
    assert (Ea : match DetectOrientationScript t with
                 | Some o => if Py.float_lt_Z (orient_conf o) 10
                             then Py.NFloat (S754_zero false)
                             else Py.NInt (orient_deg o)
                 | None => Py.NFloat (S754_zero false)
                 end = Py.NFloat (S754_zero false)).
    { destruct (DetectOrientationScript t) as [o |]; [now rewrite Hno | reflexivity]. }
    rewrite Ea. simpl Py.to_float.
    destruct skew; try discriminate; reflexivity. }
  assert (Ec : Spec.osd_comment (DetectOrientationScript t) = "").
  { unfold Spec.osd_comment, Pure.no_orientation in *.
    destruct (DetectOrientationScript t) as [o |]; [now rewrite Hno | reflexivity]. }
  rewrite Er in Hc, Ha, Ho. unfold Pure.rotated in Hc, Ha. rewrite Hz in Hc, Ha, Ho.
  rewrite Ec in Ha. unfold Spec.layout_comment in Ha. fold skew in Ha.
  rewrite Hi in Ha. simpl append in Ha. rewrite append_empty in Ha.
  exists w', segment'. now repeat split.
Qed.

Lemma apply_osd_script where_ osr s c a w w' s' c' a' :
  Deskew.apply_osd where_ osr (s, c, a) w = (w', inr (s', c', a')) ->
  Pure.get_primaryScript s'
  = match osr with
    | Some o =>
        if Py.float_lt_Z (script_conf o) 10 then Pure.get_primaryScript s
        else if Deskew.is_TextRegion_or_Page s
             then Some (Pure.script_of (script_name o))
             else None
    | None => Pure.get_primaryScript s
    end /\
  Pure.get_readingDirection s' = Pure.get_readingDirection s /\
  Pure.get_textLineOrder s' = Pure.get_textLineOrder s /\
  Deskew.is_TextRegion_or_Page s' = Deskew.is_TextRegion_or_Page s.
Proof.
  unfold Deskew.apply_osd, Pure.script_of.
  destruct osr as [o |].
  - destruct (Py.isnan (orient_conf o)); simpl negb.
    { intros E. run_in E. discriminate. }
    destruct (Py.isnan (script_conf o)); simpl negb.
    { destruct (Py.float_lt_Z (orient_conf o) 10); intros E; run_in E;
        discriminate. }
    set (script := Deskew.dict_get Deskew.scripts (script_name o) "Latn - Latin").
    destruct (Py.float_lt_Z (orient_conf o) 10);
      destruct (Py.float_lt_Z (script_conf o) 10);
      intros E; run_in E; cbn [fst snd] in E;
      injection E as _ <- _ _; now destruct s.
  - intros E. run_in E. injection E as _ <- _ _. now repeat split.
Qed.

Lemma apply_layout_directions where_ layout angle s c image w w' s' c' image' :
  Deskew.apply_layout where_ layout angle (s, c, image) w
  = (w', inr (s', c', image')) ->
  Pure.get_primaryScript s' = Pure.get_primaryScript s /\
  Pure.get_readingDirection s'
  = match layout with
    | Some lo => if Deskew.is_TextRegion_or_Page s
                 then Some (Deskew.readingDirection_of (lo_writing_direction lo))
                 else None
    | None => Pure.get_readingDirection s
    end /\
  Pure.get_textLineOrder s'
  = match layout with
    | Some lo => if Deskew.is_TextRegion_or_Page s
                 then Some (Deskew.textLineOrder_of (lo_textline_order lo))
                 else None
    | None => Pure.get_textLineOrder s
    end.
Proof.
  unfold Deskew.apply_layout. destruct layout as [lo |].
  - intros E. unbind E as w1 i Ei. unbind E as w2 u2 E2. unbind E as w3 u3 E3.
    rewrite normalize_angle_returns in E.
    unbind E as w4 si E4. unfold ret in E. injection E as _ <- _ _.
    assert (Hs : fst si = s \/ exists x, fst si = Deskew.set_orientation s x).
    { destruct (negb _).
      - unbind E4 as w5 u5 E5. unbind E4 as w6 x E6.
        unfold ret in E4. injection E4 as _ <-. right. now exists x.
      - unfold ret in E4. injection E4 as _ <-. now left. }
    destruct Hs as [-> | [x ->]]; now destruct s.
  - intros E. unfold ret in E. injection E as _ <- _ _. now repeat split.
Qed.

(** X13.  When detection does not fail: [primaryScript] is set, to the
    entry of the script table for the engine's script name or to
    "Latn - Latin" for a name not in the table, exactly when OSD gives a
    result with script confidence 10 or more and the segment is a page or a
    text region; [readingDirection] and [textLineOrder] are set exactly
    when the layout analysis gives a result and the segment is a page or a
    text region; otherwise each is as it was.  A table region gets none
    of the three. *)
Theorem deskew_script_and_directions :
  forall segment image xywh where_ page_id file_id w,
    let t := ts_SetImage (tessapi w) image in
    Spec.osd_ok (DetectOrientationScript t) ->
    Spec.layout_ok (AnalyseLayout t) ->
    exists w' segment',
      Deskew._process_segment segment image xywh where_ page_id file_id w
      = (w', inr segment') /\
      Pure.get_primaryScript segment'
      = match DetectOrientationScript t with
        | Some o =>
            if Py.float_lt_Z (script_conf o) 10
            then Pure.get_primaryScript segment
            else if Deskew.is_TextRegion_or_Page segment
                 then Some (Pure.script_of (script_name o))
                 else None
        | None => Pure.get_primaryScript segment
        end /\
      Pure.get_readingDirection segment'
      = match AnalyseLayout t with
        | Some lo => if Deskew.is_TextRegion_or_Page segment
                     then Some (Deskew.readingDirection_of (lo_writing_direction lo))
                     else None
        | None => Pure.get_readingDirection segment
        end /\
      Pure.get_textLineOrder segment'
      = match AnalyseLayout t with
        | Some lo => if Deskew.is_TextRegion_or_Page segment
                     then Some (Deskew.textLineOrder_of (lo_textline_order lo))
                     else None
        | None => Pure.get_textLineOrder segment
        end.
Proof.
  intros segment image xywh where_ page_id file_id w t Hosd Hlay.
  destruct (process_segment_goes_through segment image xywh where_ page_id
              file_id w Hosd Hlay) as (w' & segment' & E).
  exists w', segment'. split; [exact E |].
  unfold Deskew._process_segment in E.
  unbind E as w1 u1 E1. run_in E1. injection E1 as <- _.
  unbind E as w2 t2 E2. run_in E2. injection E2 as <- <-.
  unbind E as w3 u3 E3. run_in E3. injection E3 as <- _.
  cbn [tessapi] in E. fold t in E.
  unbind E as w4 sca E4. destruct sca as [[s4 c4] a4].
  destruct (apply_osd_returned _ _ _ _ _ _ E4) as ([_ Ht4] & _).
  destruct (apply_osd_script _ _ _ _ _ _ E4) as (Hp4 & Hr4 & Hl4 & Hi4).
  cbn [tessapi] in Ht4.
  unbind E as w5 t5 E5. run_in E5. injection E5 as <- <-.
  unbind E as w6 u6 E6. run_in E6. injection E6 as <- _.
  rewrite Ht4 in E. fold t in E.
  unbind E as w7 sci E7. destruct sci as [[s7 c7] i7].
  destruct (apply_layout_directions _ _ _ _ _ _ _ E7) as (Hp7 & Hr7 & Hl7).
  unbind E as w8 u8 E8. run_in E. injection E as _ <-.
  rewrite Hi4 in Hr7, Hl7.
  destruct (AnalyseLayout t) as [lo |];
    (split; [| split]);
    destruct s7; simpl in *; congruence.
Qed.

(** X14.  With an [operation_level] other than "page", a page that goes
    through keeps everything but its regions; each text region and each
    table region keeps its id and gets exactly one AlternativeImage more;
    and the image files are saved under the ids [file_id + '_' + region.id],
    the text regions first, then the table regions, each in document
    order. *)
Theorem deskew_region_level :
  forall oplevel input_file page_id file_id page page_image page_xywh w w' page',
    Py.param_eq_str oplevel "page" = false ->
    Deskew.process_page oplevel input_file page_id file_id page page_image
                        page_xywh w = (w', inr page') ->
    exists texts tables,
      page' = Page.set_TableRegion (Page.set_TextRegion page texts) tables /\
      Forall2 (fun r r' => Page.tr_id r' = Page.tr_id r /\
                           exists a, Page.tr_AlternativeImage r'
                                     = (Page.tr_AlternativeImage r ++ [a])%list)
              (Page.TextRegion page) texts /\
      Forall2 (fun r r' => Page.tb_id r' = Page.tb_id r /\
                           exists a, Page.tb_AlternativeImage r'
                                     = (Page.tb_AlternativeImage r ++ [a])%list)
              (Page.TableRegion page) tables /\
      Pure.saved_ids (Spec.called (Deskew.process_page oplevel input_file page_id
                                      file_id page page_image page_xywh) w)
      = (map (fun r => (file_id ++ "_" ++ Page.tr_id r)%string)
             (Page.TextRegion page) ++
         map (fun r => (file_id ++ "_" ++ Page.tb_id r)%string)
             (Page.TableRegion page))%list.
Proof.
  intros oplevel input_file page_id file_id page page_image page_xywh w w' page'
         Hl E.
  unfold Spec.called. rewrite E. cbn [fst].
  unfold Deskew.process_page in E. rewrite Hl in E.
  unbind E as w1 u1 E1.
  assert (H1 : calls w1 = calls w).
  { destruct (Page.TextRegion page), (Page.TableRegion page); run_in E1;
      now injection E1 as <- _. }
  unbind E as w2 texts Et. unbind E as w3 tables Eb.
  unfold ret in E. injection E as <- <-.
  destruct (for_update_calls
              (fun r r' => Page.tr_id r' = Page.tr_id r /\
                           exists a, Page.tr_AlternativeImage r'
                                     = (Page.tr_AlternativeImage r ++ [a])%list)
              (fun r => [file_id ++ "_" ++ Page.tr_id r])
              (Deskew.process_text_region page_image page_xywh input_file file_id))
    with (l := Page.TextRegion page) (w := w1) (w' := w2) (l' := texts)
    as (Ft & tr1 & Hc1 & Hs1); [| exact Et |].
  { intros r wa wb r' Ea. unfold Deskew.process_text_region in Ea.
    destruct (image_from_segment _ _ _) as [region_image region_xywh].
    unbind Ea as wc s Es. unfold ret in Ea. injection Ea as <- <-.
    apply process_segment_returns in Es.
    destruct Es as (wd & sd & id & Ed & Ha & Hc & Hk).
    injection Ed as <- <-. destruct s as [p | r' | r']; try contradiction.
    simpl in Ha, Hk. destruct Hk as (Hid & _).
    split; [split; [exact Hid | eauto] |].
    eexists. split; [exact Hc | reflexivity]. }
  destruct (for_update_calls
              (fun r r' => Page.tb_id r' = Page.tb_id r /\
                           exists a, Page.tb_AlternativeImage r'
                                     = (Page.tb_AlternativeImage r ++ [a])%list)
              (fun r => [file_id ++ "_" ++ Page.tb_id r])
              (Deskew.process_table_region page_image page_xywh input_file file_id))
    with (l := Page.TableRegion page) (w := w2) (w' := w3) (l' := tables)
    as (Fb & tr2 & Hc2 & Hs2); [| exact Eb |].
  { intros r wa wb r' Ea. unfold Deskew.process_table_region in Ea.
    destruct (image_from_segment _ _ _) as [region_image region_xywh].
    unbind Ea as wc s Es. unfold ret in Ea. injection Ea as <- <-.
    apply process_segment_returns in Es.
    destruct Es as (wd & sd & id & Ed & Ha & Hc & Hk).
    injection Ed as <- <-. destruct s as [p | r' | r']; try contradiction.
    simpl in Ha, Hk. destruct Hk as (Hid & _).
    split; [split; [exact Hid | eauto] |].
    eexists. split; [exact Hc | reflexivity]. }
  exists texts, tables. split; [reflexivity |]. split; [exact Ft |].
  split; [exact Fb |].
  rewrite Hc2, Hc1, H1, <- app_assoc, skipn_app_length, saved_ids_app, Hs1, Hs2.
  now rewrite !flat_map_singleton.
Qed.

(** X15.  On page level, one image file is saved per page, under the id
    of the input file with the input file group replaced by
    OCR-D-IMG-DESKEW.  Unlike for the output file, there is no fallback:
    when the input file group does not occur in the id, the image is saved
    under the id of the input file itself. *)
Theorem deskew_page_image_id :
  forall self oplevel n input_file w w' d',
    Py.param_eq_str oplevel "page" = true ->
    Deskew.annotate self oplevel n input_file w = (w', inr d') ->
    let file_id := Py.replace (ID input_file) (input_file_grp self)
                              Deskew.FILEGRP_IMG in
    Pure.saved_ids (Spec.called (Deskew.annotate self oplevel n input_file) w)
    = [file_id] /\
    (Pure.occurs (input_file_grp self) (ID input_file) = false ->
     file_id = ID input_file).
Proof.
  intros self oplevel n input_file w w' d' Hl E file_id.
  split; [| intros Ho; now apply replace_absent].
  unfold Spec.called. rewrite E. cbn [fst].
  unfold Deskew.annotate in E. fold file_id in E.
  unbind E as w1 d1 E1. rewrite fetch_returns in E1. injection E1 as <- <-.
  unfold Deskew.annotate_page in E.
  destruct (image_from_page_info _ _) as [[page_image page_xywh] info].
  unbind E as w3 u3 E3. unbind E as w4 u4 E4. unbind E as w5 page' Ep.
  unfold Deskew.process_page in Ep. rewrite Hl in Ep.
  unbind Ep as w6 s Es. apply process_segment_returns in Es.
  destruct Es as (wa & sa & ia & Ea & _ & Hc & _). injection Ea as <- _.
  unfold ret in Ep, E. injection Ep as <- _. injection E as <- _.
  assert (H3 : exists l3, calls w3 = (calls w ++ WsDownloadFile input_file :: l3)%list
                          /\ Pure.saved_ids l3 = []).
  { destruct (num_ne_1 (xResolution info)).
    - unbind E3 as wx dpi Ex.
      assert (Hx : calls wx = (calls w ++ [WsDownloadFile input_file])%list).
      { destruct (String.eqb (resolutionUnit info) "cm").
        - unbind Ex as wy z Ey. unfold lift in Ey. injection Ey as <- _.
          unfold ret in Ex. now injection Ex as <- _.
        - unfold ret in Ex. now injection Ex as <- _. }
      unfold SetVariable in E3.
      cbv beta iota delta [bind get_tessapi call set_tessapi] in E3.
      injection E3 as <- _. cbn [calls]. rewrite Hx. eexists.
      rewrite <- app_assoc. split; reflexivity.
    - unfold ret in E3. injection E3 as <- _. exists []. now split. }
  destruct H3 as (l3 & H3 & Hs3).
  unfold LOG in E4. injection E4 as <- _. cbn [calls] in Hc.
  rewrite Hc, H3.
  rewrite <- app_assoc, skipn_app_length.
  change (WsDownloadFile input_file :: l3)%list
    with ([WsDownloadFile input_file] ++ l3)%list.
  rewrite !saved_ids_app, Hs3. reflexivity.
Qed.

End DeskewMore.

(* ===================================================================== *)
(** * Further properties the three processors share *)
(* ===================================================================== *)

Section Shared.
Context `{External}.

(** X16.  The tool's parameter is looked up before the engine is created:
    when it is missing, [process] raises KeyError on its name and nothing
    else has happened: no engine instance, no log record, no call. *)
Theorem missing_parameter_raises_KeyError :
  forall self w,
    (~ In "padding" (map fst (parameter self)) ->
     Crop.process self w = (w, inl (Py.KeyError "padding"))) /\
    (~ In "operation_level" (map fst (parameter self)) ->
     Deskew.process self w = (w, inl (Py.KeyError "operation_level"))) /\
    (~ In "overwrite_lines" (map fst (parameter self)) ->
     SegmentLine.process self w = (w, inl (Py.KeyError "overwrite_lines"))).
Proof.
  intros self w. repeat split; intros Hk.
  - unfold Crop.process. now erewrite bind_inl by exact (getitem_missing _ _ w Hk).
  - unfold Deskew.process. now erewrite bind_inl by exact (getitem_missing _ _ w Hk).
  - unfold SegmentLine.process.
    now erewrite bind_inl by exact (getitem_missing _ _ w Hk).
Qed.

(** X17.  The id of the output file, in all three processors: for an
    input file whose id is the input file group followed by a suffix in
    which the group does not occur again, it is the output file group
    followed by that suffix; it differs from the id of the input file, and
    the file name is [os.path.join] of the output file group and the id
    with ".xml" appended. *)
Theorem output_file_id_renamed :
  forall self n input_file pcgts suffix,
    input_file_grp self <> "" ->
    input_file_grp self <> output_file_grp self ->
    ID input_file = input_file_grp self ++ suffix ->
    Pure.occurs (input_file_grp self) suffix = false ->
    let out := output_file self n input_file pcgts in
    ID out = output_file_grp self ++ suffix /\
    ID out <> ID input_file /\
    local_filename out
    = Py.os_path_join (output_file_grp self) (output_file_grp self ++ suffix ++ ".xml").
Proof.
  intros self n input_file pcgts suffix Hne Hd Hid Ho out.
  assert (E : ID out = output_file_grp self ++ suffix).
  { unfold out, output_file. cbn [ID]. rewrite Hid.
    destruct (input_file_grp self) as [| c g] eqn:Eg; [congruence |].
    rewrite replace_prefix by exact Ho.
    destruct (String.eqb _ _) eqn:Eq; [| reflexivity].
    apply String.eqb_eq, append_inj_r in Eq. congruence. }
  split; [exact E |]. split.
  - rewrite E, Hid. intros Eq. apply append_inj_r in Eq. congruence.
  - unfold out, output_file in *. cbn [ID local_filename] in *. rewrite E.
    now rewrite append_assoc.
Qed.

(** X18.  When the input file group does not occur in the id of the input
    file, or is the output file group itself, replacing changes nothing
    and the id of the output file is [concat_padded(output_file_grp, n)]. *)
Theorem output_file_id_fallback :
  forall self n input_file pcgts,
    Pure.occurs (input_file_grp self) (ID input_file) = false \/
    input_file_grp self = output_file_grp self ->
    ID (output_file self n input_file pcgts)
    = concat_padded (output_file_grp self) n.
Proof.
  intros self n input_file pcgts Hc. unfold output_file. cbn [ID].
  assert (E : Py.replace (ID input_file) (input_file_grp self) (output_file_grp self)
              = ID input_file).
  { destruct Hc as [Ho | <-]; [now apply replace_absent | apply replace_same]. }
  now rewrite E, String.eqb_refl.
Qed.

Lemma set_regions_same page :
  Page.TextRegion page = [] -> Page.TableRegion page = [] ->
  Page.set_TableRegion (Page.set_TextRegion page []) [] = page.
Proof. destruct page. simpl. now intros -> ->. Qed.

(** X19.  A page without text regions: segment-line returns the document
    as it got it and asks nothing of the engine but, at most, to set the
    dpi; deskew on region level, the page having no table region either,
    logs the warning, calls nothing and returns the page as it got it. *)
Theorem pages_without_regions_pass_through :
  forall overwrite_lines oplevel input_file page_id file_id pcgts page_image
         page_xywh w,
    let page := Page.Page pcgts in
    Page.TextRegion page = [] ->
    (exists w',
        SegmentLine.annotate_page overwrite_lines input_file pcgts w
        = (w', inr pcgts) /\
        Forall (fun c => exists v, c = TessSetVariable "user_defined_dpi" v)
               (Spec.called (SegmentLine.annotate_page overwrite_lines input_file
                                                       pcgts) w)) /\
    (Py.param_eq_str oplevel "page" = false -> Page.TableRegion page = [] ->
     Deskew.process_page oplevel input_file page_id file_id page page_image
                         page_xywh w
     = ({| log := log w ++
             [{| lr_level := WARNING;
                 lr_msg := "Page '%s' contains no text regions";
                 lr_args := [Py.VStr page_id] |}];
           calls := calls w; tessapi := tessapi w |}, inr page)).
Proof.
  intros ow oplevel input_file page_id file_id pcgts page_image page_xywh w page Hr.
  split.
  - destruct (segment_line_no_regions ow input_file pcgts w Hr) as (w' & E & Hc).
    exists w'. split; [exact E |].
    unfold Spec.called. rewrite E. cbn [fst]. rewrite Hc, skipn_app_length.
    destruct (Py.num_truth _); repeat constructor. eauto.
  - intros Hl Hb. unfold Deskew.process_page. rewrite Hl, Hr, Hb.
    mred. simpl. now rewrite set_regions_same.
Qed.

End Shared.

(* ===================================================================== *)
(** * The further properties at work *)
(* ===================================================================== *)

(** Page a at zoom 1: the extent spans the block of 500 x 300 at 100, 200. *)
Lemma crop_extent_spans_blocks_witness :
  let f25 := Py.float_of_Z 25 in
  Py.truediv (Py.NInt 25) (Py.NInt 1) = inr f25 /\
  Py.isnan f25 = false /\
  exists w' st,
    @Crop.detect_extent Sample.ext (Py.NInt 1) (Pixels "a.png") None Sample.w_a
    = (w', inr st) /\
    Pure.spanned (100, 200, 600, 500) (snd st).
Proof.
  intros f25.
  assert (Ht : Py.truediv (Py.NInt 25) (Py.NInt 1) = inr f25)
    by (vm_compute; reflexivity).
  assert (Hn : Py.isnan f25 = false) by (vm_compute; reflexivity).
  split; [exact Ht |]. split; [exact Hn |].
  destruct (@crop_extent_spans_blocks Sample.ext (Py.NInt 1) f25 (Pixels "a.png")
              None Sample.w_a Ht Hn) as (w' & st & E & Hs & _).
  exists w', st. split; [exact E |].
  exact (Hs (Sample.block "block1" 100 200 500 300 0) (or_introl eq_refl) eq_refl).
Defined.

(** Page a, padding 4: the border contains the block 100..600 x 200..500. *)
Lemma crop_border_covers_blocks_witness :
  let f25 := Py.float_of_Z 25 in
  let c0 := Sample.block "block1" 100 200 500 300 0 in
  Py.truediv (Py.NInt 25) (Py.NInt 1) = inr f25 /\
  Py.isnan f25 = false /\
  Py.param_int (Py.PInt 4) = inr 4 /\
  0 <= 4 /\
  (forall c, In c (@GetComponentImages Sample.ext (tessapi Sample.w_a)
                     BLOCK true false) ->
             @Spec.within Sample.ext (@bbox_from_xywh Sample.ext (c_xywh c))
                          (Pixels "a.png")) /\
  In c0 (@GetComponentImages Sample.ext (tessapi Sample.w_a) BLOCK true false) /\
  @Pure.passes Sample.ext f25 c0 = true /\
  Pure.proper (@bbox_from_xywh Sample.ext (c_xywh c0)) /\
  exists w1 (st : option Image * Crop.Extent) w2 page' x0 y0 x1 y1,
    @Crop.set_border Sample.ext (Sample.crop [Sample.file_a]) (Py.PInt 4) 0
      Sample.file_a "PHYS_0001" Sample.page_a (Pixels "a.png") (snd st) w1
    = (w2, inr page') /\
    Page.Border page' = Some (@points_from_bbox Sample.ext x0 y0 x1 y1) /\
    x0 <= 100 /\ 600 <= x1 /\ y0 <= 200 /\ 500 <= y1.
Proof.
  intros f25 c0.
  assert (Ht : Py.truediv (Py.NInt 25) (Py.NInt 1) = inr f25)
    by (vm_compute; reflexivity).
  assert (Hn : Py.isnan f25 = false) by (vm_compute; reflexivity).
  assert (Hp : Py.param_int (Py.PInt 4) = inr 4) by reflexivity.
  assert (Hp0 : 0 <= 4) by lia.
  assert (Hin : forall c,
             In c (@GetComponentImages Sample.ext (tessapi Sample.w_a)
                     BLOCK true false) ->
             @Spec.within Sample.ext (@bbox_from_xywh Sample.ext (c_xywh c))
                          (Pixels "a.png")).
  { intros c [<- | [<- | [<- | []]]]; vm_compute; repeat split; discriminate. }
  assert (Hc0 : In c0 (@GetComponentImages Sample.ext (tessapi Sample.w_a)
                         BLOCK true false)) by (left; reflexivity).
  assert (Hpass : @Pure.passes Sample.ext f25 c0 = true) by reflexivity.
  assert (Hpr : Pure.proper (@bbox_from_xywh Sample.ext (c_xywh c0)))
    by (vm_compute; split; reflexivity).
  repeat (split; [assumption |]).
  destruct (@crop_border_covers_blocks Sample.ext (Sample.crop [Sample.file_a])
              (Py.PInt 4) 4 0 Sample.file_a "PHYS_0001" Sample.page_a
              (Pixels "a.png") (Py.NInt 1) f25 None Sample.w_a c0
              Ht Hn Hp Hp0 Hin Hc0 Hpass Hpr)
    as (w1 & st & w2 & page' & x0 & y0 & x1 & y1 & _ & Es & Hb & Hcov).
  exists w1, st, w2, page', x0, y0, x1, y1.
  split; [exact Es |]. split; [exact Hb |].
  exact (Hcov c0 Hc0 Hpass).
Defined.

(** The extent of page a is 500 wide: a padding of -300 inverts the box,
    and the run stops in [Image.crop] with nothing saved or added. *)
Lemma crop_negative_padding_raises_witness :
  let self := Sample.crop [Sample.file_a] in
  let r := @Crop.detect Sample.ext self 0 Sample.file_a None Sample.w0 in
  let st := (Some (Pixels "block3"), Sample.extent_a) in
  r = (fst r, inr (@open_page Sample.ext self Crop.TOOL Sample.file_a,
                   Pixels "a.png", st)) /\
  @Crop.valid (snd st) = true /\
  Py.param_int (Py.PInt (-300)) = inr (-300) /\
  Crop.max_x (snd st) - Crop.min_x (snd st) < - 2 * (-300) /\
  exists w2,
    for_enumerate 0 [Sample.file_a] None
      (@Crop.process_file Sample.ext self (Py.PInt (-300))) Sample.w0
    = (w2, inl Py.ValueError) /\
    calls w2 = [WsDownloadFile Sample.file_a;
                TessSetVariable "user_defined_dpi" "300";
                TessSetImage (Pixels "a.png"); TessSetPageSegMode SPARSE_TEXT;
                TessGetComponentImages BLOCK true false].
Proof.
  intros self r st.
  assert (Hd : r = (fst r, inr (@open_page Sample.ext self Crop.TOOL Sample.file_a,
                                Pixels "a.png", st)))
    by (vm_compute; reflexivity).
  assert (Hv : @Crop.valid (snd st) = true) by reflexivity.
  assert (Hp : Py.param_int (Py.PInt (-300)) = inr (-300)) by reflexivity.
  assert (Hs : Crop.max_x (snd st) - Crop.min_x (snd st) < - 2 * (-300))
    by (simpl; lia).
  repeat (split; [assumption |]).
  destruct (@crop_negative_padding_raises Sample.ext self (Py.PInt (-300)) (-300)
              0 Sample.file_a None [] Sample.w0 (fst r) _ (Pixels "a.png") st
              Hd Hv Hp (or_introl Hs))
    as (w2 & _ & Hc & Hl).
  exists w2. split; [exact Hl |]. rewrite Hc. vm_compute. reflexivity.
Defined.

(** Page d records a resolution of 0: the run stops there. *)
Lemma crop_zero_resolution_fails_witness :
  let self := Sample.crop [Corner.file_d; Sample.file_a] in
  let page := Page.Page (@page_from_file Corner.ext
                           (@download_file Corner.ext Corner.file_d)) in
  Page.TextRegion page = [] /\
  xResolution (@OcrdExif Corner.ext
                 (@resolve_image_as_pil Corner.ext (Page.imageFilename page)))
  = Py.NInt 0 /\
  exists w',
    for_enumerate 0 [Corner.file_d; Sample.file_a] None
      (@Crop.process_file Corner.ext self (Py.PInt 4)) Sample.w0
    = (w', inl Py.ZeroDivisionError) /\
    calls w' = [WsDownloadFile Corner.file_d;
                TessSetVariable "user_defined_dpi" "0"].
Proof.
  intros self page.
  assert (Hr : Page.TextRegion page = []) by reflexivity.
  assert (Hx : xResolution (@OcrdExif Corner.ext
                              (@resolve_image_as_pil Corner.ext
                                 (Page.imageFilename page))) = Py.NInt 0)
    by reflexivity.
  split; [exact Hr |]. split; [exact Hx |].
  destruct (@crop_zero_resolution_fails Corner.ext self (Py.PInt 4) 0
              Corner.file_d None [Sample.file_a] Sample.w0 (or_introl Hr) Hx)
    as (w' & _ & Hc & Hl).
  exists w'. split; [exact Hl | exact Hc].
Defined.

(** Page a: no region, 300 dpi, padding 4, all blocks within the page.  A
    Border is annotated, so one image file is saved beside the output
    file. *)
Lemma crop_file_goes_through_witness :
  let self := Sample.crop [Sample.file_a] in
  let f1 := Py.float_of_Z 1 in
  let f25 := Py.float_of_Z 25 in
  Page.TextRegion (Page.Page (@page_from_file Sample.ext
                                (@download_file Sample.ext Sample.file_a))) = [] /\
  snd (@Crop.resolution_zoom Sample.ext
         (@OcrdExif Sample.ext (Pixels "a.png")) Sample.w0) = inr (Py.NFloat f1) /\
  Py.truediv (Py.NInt 25) (Py.NFloat f1) = inr f25 /\
  Py.isnan f25 = false /\
  Py.param_int (Py.PInt 4) = inr 4 /\
  0 <= 4 /\
  0 <= @width Sample.ext (Pixels "a.png") /\
  0 <= @height Sample.ext (Pixels "a.png") /\
  (forall t0 c, ts_image t0 = Some (Pixels "a.png") ->
                In c (@GetComponentImages Sample.ext t0 BLOCK true false) ->
                @Spec.within Sample.ext (@bbox_from_xywh Sample.ext (c_xywh c))
                             (Pixels "a.png")) /\
  exists w' image' d' id,
    @Crop.process_file Sample.ext self (Py.PInt 4) 0 Sample.file_a None Sample.w0
    = (w', inr image') /\
    Pure.added (Spec.called (@Crop.process_file Sample.ext self (Py.PInt 4) 0
                                Sample.file_a None) Sample.w0)
    = [@output_file Sample.ext self 0 Sample.file_a d'] /\
    Pure.saved_ids (Spec.called (@Crop.process_file Sample.ext self (Py.PInt 4) 0
                                    Sample.file_a None) Sample.w0)
    = [id].
Proof.
  intros self f1 f25.
  assert (Hr : Page.TextRegion
                 (Page.Page (@page_from_file Sample.ext
                               (@download_file Sample.ext Sample.file_a))) = [])
    by reflexivity.
  assert (Hz : snd (@Crop.resolution_zoom Sample.ext
                      (@OcrdExif Sample.ext (Pixels "a.png")) Sample.w0)
               = inr (Py.NFloat f1)) by (vm_compute; reflexivity).
  assert (Ht : Py.truediv (Py.NInt 25) (Py.NFloat f1) = inr f25)
    by (vm_compute; reflexivity).
  assert (Hn : Py.isnan f25 = false) by (vm_compute; reflexivity).
  assert (Hp : Py.param_int (Py.PInt 4) = inr 4) by reflexivity.
  assert (Hp0 : 0 <= 4) by lia.
  assert (HW : 0 <= @width Sample.ext (Pixels "a.png")) by (vm_compute; discriminate).
  assert (HH : 0 <= @height Sample.ext (Pixels "a.png")) by (vm_compute; discriminate).
  assert (Hin : forall t0 c,
             ts_image t0 = Some (Pixels "a.png") ->
             In c (@GetComponentImages Sample.ext t0 BLOCK true false) ->
             @Spec.within Sample.ext (@bbox_from_xywh Sample.ext (c_xywh c))
                          (Pixels "a.png")).
  { intros t0 c Hi Hc.
    change (@GetComponentImages Sample.ext t0 BLOCK true false)
      with (Sample.sc_components Sample.scene (Sample.image_name t0) BLOCK) in Hc.
    unfold Sample.image_name in Hc. rewrite Hi in Hc.
    destruct Hc as [<- | [<- | [<- | []]]]; vm_compute; repeat split; discriminate. }
  repeat (split; [assumption |]).
  destruct (@crop_file_goes_through Sample.ext self (Py.PInt 4) 4 0 Sample.file_a
              None (Py.NFloat f1) f25 Sample.w0 (or_introl Hr) Hz Ht Hn Hp Hp0
              HW HH Hin)
    as (w' & image' & d' & E & Ha & _ & Hs).
  destruct Hs as [[_ Hs] | (pts & a & id & _ & Hs)];
    [vm_compute in Hs; discriminate Hs |].
  exists w', image', d', id. split; [exact E |]. split; [exact Ha | exact Hs].
Defined.


(** The two lines found in region r1. *)
Lemma segment_line_new_ids_distinct_witness :
  exists w' region' l1 l2,
    @SegmentLine.process_region Sample.ext (Py.PBool true) (Pixels "b.png")
      Sample.whole_page Sample.region1 Sample.w0 = (w', inr region') /\
    nth_error (Page.tr_TextLine region') 0 = Some l1 /\
    nth_error (Page.tr_TextLine region') 1 = Some l2 /\
    Page.tl_id l1 <> Page.tl_id l2.
Proof.
  destruct (@SegmentLine.process_region Sample.ext (Py.PBool true) (Pixels "b.png")
              Sample.whole_page Sample.region1 Sample.w0)
    as [w' [e | region']] eqn:E.
  - vm_compute in E. discriminate E.
  - pose proof E as E'. vm_compute in E'. injection E' as _ Er.
    assert (H1 : nth_error (Page.tr_TextLine region') 0
                 = Some {| Page.tl_id := "r1_line0000";
                           Page.tl_Coords := "110,210 590,210 590,250 110,250";
                           Page.tl_other := "" |}) by now rewrite <- Er.
    assert (H2 : nth_error (Page.tr_TextLine region') 1
                 = Some {| Page.tl_id := "r1_line0001";
                           Page.tl_Coords := "110,260 410,260 410,300 110,300";
                           Page.tl_other := "" |}) by now rewrite <- Er.
    exists w', region'. do 2 eexists.
    split; [reflexivity |]. split; [exact H1 |]. split; [exact H2 |].
    exact (@segment_line_new_ids_distinct Sample.ext (Py.PBool true)
             (Pixels "b.png") Sample.whole_page Sample.region1 Sample.w0 w'
             region' 0 1 _ _ E H1 H2 ltac:(discriminate)).
Defined.

(** Two passes over region r1, keeping its line r1_l0: the lines at
    places 1 and 3 are both r1_line0000. *)
Lemma segment_line_second_pass_repeats_ids_witness :
  exists w1 region1 w2 region2 c1 c2 l1 l2,
    Py.param_truth (Py.PBool false) = false /\
    @SegmentLine.process_region Sample.ext (Py.PBool false) (Pixels "b.png")
      Sample.whole_page Sample.region1 Sample.w0 = (w1, inr region1) /\
    @SegmentLine.process_region Sample.ext (Py.PBool false) (Pixels "b.png")
      Sample.whole_page region1 w1 = (w2, inr region2) /\
    nth_error (@Spec.detected_lines Sample.ext (Py.PBool false) (Pixels "b.png")
                 Sample.whole_page Sample.region1 Sample.w0) 0 = Some c1 /\
    nth_error (@Spec.detected_lines Sample.ext (Py.PBool false) (Pixels "b.png")
                 Sample.whole_page region1 w1) 0 = Some c2 /\
    nth_error (Page.tr_TextLine region2) 1 = Some l1 /\
    nth_error (Page.tr_TextLine region2) 3 = Some l2 /\
    Page.tl_id l1 = "r1_line0000" /\
    Page.tl_id l2 = Page.tl_id l1.
Proof.
  destruct (@SegmentLine.process_region Sample.ext (Py.PBool false) (Pixels "b.png")
              Sample.whole_page Sample.region1 Sample.w0)
    as [w1 [e | region1]] eqn:E1.
  { vm_compute in E1. discriminate E1. }
  destruct (@SegmentLine.process_region Sample.ext (Py.PBool false) (Pixels "b.png")
              Sample.whole_page region1 w1)
    as [w2 [e | region2]] eqn:E2.
  { pose proof E1 as E1'. vm_compute in E1'. injection E1' as <- <-.
    vm_compute in E2. discriminate E2. }
  assert (Hk : Py.param_truth (Py.PBool false) = false) by reflexivity.
  assert (H1 : nth_error (@Spec.detected_lines Sample.ext (Py.PBool false)
                            (Pixels "b.png") Sample.whole_page Sample.region1
                            Sample.w0) 0
               = Some (Sample.block "line1" 10 10 480 40 0)) by reflexivity.
  assert (H2 : nth_error (@Spec.detected_lines Sample.ext (Py.PBool false)
                            (Pixels "b.png") Sample.whole_page region1 w1) 0
               = Some (Sample.block "line1" 10 10 480 40 0)).
  { pose proof E1 as E1'. vm_compute in E1'. injection E1' as <- <-. reflexivity. }
  destruct (@segment_line_second_pass_repeats_ids Sample.ext (Py.PBool false)
              (Pixels "b.png") Sample.whole_page Sample.region1 Sample.w0 w1
              region1 w2 region2 0 _ _ Hk E1 E2 H1 H2)
    as (l1 & l2 & N1 & N2 & I1 & I2).
  exists w1, region1, w2, region2. do 2 eexists. exists l1, l2.
  split; [exact Hk |]. split; [reflexivity |]. split; [exact E2 |].
  split; [exact H1 |]. split; [exact H2 |].
  split; [exact N1 |]. split; [exact N2 |]. split; [exact I1 | exact I2].
Defined.

(** A run of segment-line over pages a and b. *)
Lemma segment_line_run_returns_witness :
  let self := Sample.segment_line true [Sample.file_a; Sample.file_b] in
  In "overwrite_lines" (map fst (parameter self)) /\
  exists w',
    @SegmentLine.process Sample.ext self Sample.w0 = (w', inr tt) /\
    map pageId (Pure.added (Spec.called (@SegmentLine.process Sample.ext self)
                                         Sample.w0))
    = [Some "PHYS_0001"; Some "PHYS_0002"].
Proof.
  intros self.
  assert (Hk : In "overwrite_lines" (map fst (parameter self))) by (simpl; auto).
  split; [exact Hk |].
  destruct (@segment_line_run_returns Sample.ext self Sample.w0 Hk)
    as (w' & E & Hp & _).
  exists w'. split; [exact E | exact Hp].
Defined.

(** Page a: OSD says 90 degrees, no skew; the image is rotated by -90. *)
Lemma deskew_rotates_by_orientation_plus_skew_witness :
  let t := ts_SetImage (tessapi Sample.w0) (Pixels "a.png") in
  let lo := {| lo_orientation := PAGE_LEFT;
               lo_writing_direction := WD_LEFT_TO_RIGHT;
               lo_textline_order := TO_TOP_TO_BOTTOM;
               lo_deskew_angle := S754_zero false |} in
  Spec.osd_ok (@DetectOrientationScript Sample.ext t) /\
  @AnalyseLayout Sample.ext t = Some lo /\
  (exists i, Py.int_of_float (Deskew.degrees (lo_deskew_angle lo)) = inr i) /\
  exists w' segment',
    @Deskew._process_segment Sample.ext (SegPage Sample.page_a) (Pixels "a.png")
      Sample.whole_page "page 'PHYS_0001'" (Some "PHYS_0001")
      "OCR-D-IMG-DESKEW_0001" Sample.w0 = (w', inr segment') /\
    calls w' = [TessSetImage (Pixels "a.png"); TessDetectOrientationScript;
                TessAnalyseLayout;
                SaveImageFile (Rotated (Pixels "a.png")
                                 (Py.fneg (Py.float_of_Z 90)) true "white")
                              "OCR-D-IMG-DESKEW_0001" (Some "PHYS_0001")
                              Deskew.FILEGRP_IMG] /\
    Pure.get_orientation segment' = Some (Py.float_of_Z 90).
Proof.
  intros t lo.
  assert (Ho : Spec.osd_ok (@DetectOrientationScript Sample.ext t))
    by (split; reflexivity).
  assert (Hl : @AnalyseLayout Sample.ext t = Some lo) by reflexivity.
  assert (Hi : exists i, Py.int_of_float (Deskew.degrees (lo_deskew_angle lo))
                         = inr i) by (exists 0; vm_compute; reflexivity).
  split; [exact Ho |]. split; [exact Hl |]. split; [exact Hi |].
  destruct (@deskew_rotates_by_orientation_plus_skew Sample.ext
              (SegPage Sample.page_a) (Pixels "a.png") Sample.whole_page
              "page 'PHYS_0001'" (Some "PHYS_0001") "OCR-D-IMG-DESKEW_0001"
              Sample.w0 lo Ho Hl Hi)
    as (w' & segment' & comments & E & Hc & _ & Hor).
  exists w', segment'. split; [exact E |]. split.
  - rewrite Hc. vm_compute. reflexivity.
  - rewrite Hor. vm_compute. reflexivity.
Defined.

(** Page e: OSD says 180 degrees, the layout analysis says nothing. *)
Lemma deskew_orientation_without_layout_witness :
  let t := ts_SetImage (tessapi Sample.w0) (Pixels "e.png") in
  let o := {| orient_deg := 180; orient_conf := Sample.f15;
              script_name := "Latin"; script_conf := Sample.f20 |} in
  @DetectOrientationScript Corner.ext t = Some o /\
  Py.isnan (orient_conf o) = false /\ Py.isnan (script_conf o) = false /\
  Py.float_lt_Z (orient_conf o) 10 = false /\
  orient_deg o <> 0 /\
  @AnalyseLayout Corner.ext t = None /\
  exists w' p,
    @Deskew._process_segment Corner.ext (SegPage Corner.page_e) (Pixels "e.png")
      Sample.whole_page "page 'PHYS_0005'" (Some "PHYS_0005")
      "OCR-D-IMG-DESKEW_0005" Sample.w0 = (w', inr (SegPage p)) /\
    Page.pg_AlternativeImage p
    = [{| Page.filename := "OCR-D-IMG-DESKEW/OCR-D-IMG-DESKEW_0005.png";
          Page.comments := ",rotated-180" |}] /\
    In (SaveImageFile (Pixels "e.png") "OCR-D-IMG-DESKEW_0005" (Some "PHYS_0005")
                      Deskew.FILEGRP_IMG) (calls w') /\
    Page.pg_orientation p = None.
Proof.
  intros t o.
  assert (Ho : @DetectOrientationScript Corner.ext t = Some o) by reflexivity.
  assert (Hn1 : Py.isnan (orient_conf o) = false) by reflexivity.
  assert (Hn2 : Py.isnan (script_conf o) = false) by reflexivity.
  assert (Hc : Py.float_lt_Z (orient_conf o) 10 = false) by reflexivity.
  assert (Hd : orient_deg o <> 0) by discriminate.
  assert (Hl : @AnalyseLayout Corner.ext t = None) by reflexivity.
  repeat (split; [assumption |]).
  destruct (@deskew_orientation_without_layout Corner.ext (SegPage Corner.page_e)
              (Pixels "e.png") Sample.whole_page "page 'PHYS_0005'"
              (Some "PHYS_0005") "OCR-D-IMG-DESKEW_0005" Sample.w0 o
              Ho Hn1 Hn2 Hc Hd Hl)
    as (w' & segment' & E & Hcalls & Ha & Hor).
  destruct segment' as [p | r | r];
    [| vm_compute in E; discriminate E | vm_compute in E; discriminate E].
  exists w', p. split; [exact E |]. split; [exact Ha |]. split; [| exact Hor].
  rewrite Hcalls. simpl. auto.
Defined.

(** Page f: no OSD result, a skew of 0.01 rad. *)
Lemma deskew_small_skew_is_not_commented_witness :
  let t := ts_SetImage (tessapi Sample.w0) (Pixels "f.png") in
  let lo := {| lo_orientation := PAGE_UP;
               lo_writing_direction := WD_LEFT_TO_RIGHT;
               lo_textline_order := TO_TOP_TO_BOTTOM;
               lo_deskew_angle := Corner.skew |} in
  let skew := Deskew.degrees (lo_deskew_angle lo) in
  Spec.osd_ok (@DetectOrientationScript Corner.ext t) /\
  Pure.no_orientation (@DetectOrientationScript Corner.ext t) /\
  @AnalyseLayout Corner.ext t = Some lo /\
  Py.int_of_float skew = inr 0 /\ Py.fis_zero skew = false /\
  exists w' p,
    @Deskew._process_segment Corner.ext (SegPage Corner.page_f) (Pixels "f.png")
      Sample.whole_page "page 'PHYS_0006'" (Some "PHYS_0006")
      "OCR-D-IMG-DESKEW_0006" Sample.w0 = (w', inr (SegPage p)) /\
    Page.pg_AlternativeImage p
    = [{| Page.filename := "OCR-D-IMG-DESKEW/OCR-D-IMG-DESKEW_0006.png";
          Page.comments := "" |}] /\
    In (SaveImageFile (Rotated (Pixels "f.png") (Py.fneg skew) true "white")
                      "OCR-D-IMG-DESKEW_0006" (Some "PHYS_0006")
                      Deskew.FILEGRP_IMG) (calls w') /\
    Page.pg_orientation p = Some (Spec.normalized skew).
Proof.
  intros t lo skew.
  assert (Ho : Spec.osd_ok (@DetectOrientationScript Corner.ext t)) by exact I.
  assert (Hno : Pure.no_orientation (@DetectOrientationScript Corner.ext t))
    by exact I.
  assert (Hl : @AnalyseLayout Corner.ext t = Some lo) by reflexivity.
  assert (Hi : Py.int_of_float skew = inr 0) by (vm_compute; reflexivity).
  assert (Hz : Py.fis_zero skew = false) by (vm_compute; reflexivity).
  repeat (split; [assumption |]).
  destruct (@deskew_small_skew_is_not_commented Corner.ext (SegPage Corner.page_f)
              (Pixels "f.png") Sample.whole_page "page 'PHYS_0006'"
              (Some "PHYS_0006") "OCR-D-IMG-DESKEW_0006" Sample.w0 lo
              Ho Hno Hl Hi Hz)
    as (w' & segment' & E & Hcalls & Ha & Hor).
  destruct segment' as [p | r | r];
    [| vm_compute in E; discriminate E | vm_compute in E; discriminate E].
  exists w', p. split; [exact E |]. split; [exact Ha |]. split; [| exact Hor].
  rewrite Hcalls. simpl. auto.
Defined.

(** Page a: Fraktur with confidence 20, left to right, top to bottom. *)
Lemma deskew_script_and_directions_witness :
  let t := ts_SetImage (tessapi Sample.w0) (Pixels "a.png") in
  Spec.osd_ok (@DetectOrientationScript Sample.ext t) /\
  Spec.layout_ok (@AnalyseLayout Sample.ext t) /\
  exists w' segment',
    @Deskew._process_segment Sample.ext (SegPage Sample.page_a) (Pixels "a.png")
      Sample.whole_page "page 'PHYS_0001'" (Some "PHYS_0001")
      "OCR-D-IMG-DESKEW_0001" Sample.w0 = (w', inr segment') /\
    Pure.get_primaryScript segment' = Some "Latf - Latin (Fraktur variant)" /\
    Pure.get_readingDirection segment' = Some "left-to-right" /\
    Pure.get_textLineOrder segment' = Some "top-to-bottom".
Proof.
  intros t.
  assert (Ho : Spec.osd_ok (@DetectOrientationScript Sample.ext t))
    by (split; reflexivity).
  assert (Hl : Spec.layout_ok (@AnalyseLayout Sample.ext t))
    by (exists 0; vm_compute; reflexivity).
  split; [exact Ho |]. split; [exact Hl |].
  destruct (@deskew_script_and_directions Sample.ext (SegPage Sample.page_a)
              (Pixels "a.png") Sample.whole_page "page 'PHYS_0001'"
              (Some "PHYS_0001") "OCR-D-IMG-DESKEW_0001" Sample.w0 Ho Hl)
    as (w' & segment' & E & Hp & Hr & Ht).
  exists w', segment'. split; [exact E |].
  split; [exact Hp |]. split; [exact Hr | exact Ht].
Defined.

(** Page b on region level: its region r1. *)
Lemma deskew_region_level_witness :
  Py.param_eq_str (Py.PStr "region") "page" = false /\
  exists w' page' r',
    @Deskew.process_page Sample.ext (Py.PStr "region") Sample.file_b "PHYS_0002"
      "OCR-D-IMG-DESKEW_0002" Sample.page_b (Pixels "b.png") Sample.whole_page
      Sample.w0 = (w', inr page') /\
    Page.TextRegion page' = [r'] /\
    (exists a, Page.tr_AlternativeImage r' = [a]) /\
    Pure.saved_ids (calls w') = ["OCR-D-IMG-DESKEW_0002_r1"].
Proof.
  assert (Hl : Py.param_eq_str (Py.PStr "region") "page" = false) by reflexivity.
  split; [exact Hl |].
  destruct (@Deskew.process_page Sample.ext (Py.PStr "region") Sample.file_b
              "PHYS_0002" "OCR-D-IMG-DESKEW_0002" Sample.page_b (Pixels "b.png")
              Sample.whole_page Sample.w0) as [w' [e | page']] eqn:E.
  { vm_compute in E. discriminate E. }
  destruct (@deskew_region_level Sample.ext (Py.PStr "region") Sample.file_b
              "PHYS_0002" "OCR-D-IMG-DESKEW_0002" Sample.page_b (Pixels "b.png")
              Sample.whole_page Sample.w0 w' page' Hl E)
    as (texts & tables & Ep & Ft & _ & Hs).
  pose proof E as E'. vm_compute in E'. injection E' as _ Ep'.
  exists w', page'. eexists. split; [reflexivity |].
  split; [rewrite <- Ep'; reflexivity |].
  split; [eexists; reflexivity |].
  unfold Spec.called in Hs. rewrite E in Hs. exact Hs.
Defined.

(** The file PAGE_0003 of group OCR-D-IMG: its image is saved as
    PAGE_0003. *)
Lemma deskew_page_image_id_witness :
  let self := Sample.any_tool [Corner.file_p] in
  Py.param_eq_str (Py.PStr "page") "page" = true /\
  Pure.occurs (input_file_grp self) (ID Corner.file_p) = false /\
  exists w' d',
    @Deskew.annotate Sample.ext self (Py.PStr "page") 0 Corner.file_p Sample.w0
    = (w', inr d') /\
    Pure.saved_ids (calls w') = ["PAGE_0003"].
Proof.
  intros self.
  assert (Hl : Py.param_eq_str (Py.PStr "page") "page" = true) by reflexivity.
  assert (Ho : Pure.occurs (input_file_grp self) (ID Corner.file_p) = false)
    by reflexivity.
  split; [exact Hl |]. split; [exact Ho |].
  destruct (@Deskew.annotate Sample.ext self (Py.PStr "page") 0 Corner.file_p
              Sample.w0) as [w' [e | d']] eqn:E.
  { vm_compute in E. discriminate E. }
  destruct (@deskew_page_image_id Sample.ext self (Py.PStr "page") 0
              Corner.file_p Sample.w0 w' d' Hl E) as (Hs & Hid).
  exists w', d'. split; [reflexivity |].
  unfold Spec.called in Hs. rewrite E in Hs. simpl fst in Hs.
  rewrite (Hid Ho) in Hs. exact Hs.
Defined.

(** A processor object without parameters. *)
Lemma missing_parameter_raises_KeyError_witness :
  let self := Sample.processor [] [Sample.file_a] "OCR-D-OUT" in
  ~ In "padding" (map fst (parameter self)) /\
  ~ In "operation_level" (map fst (parameter self)) /\
  ~ In "overwrite_lines" (map fst (parameter self)) /\
  @Crop.process Sample.ext self Sample.w0
  = (Sample.w0, inl (Py.KeyError "padding")) /\
  @Deskew.process Sample.ext self Sample.w0
  = (Sample.w0, inl (Py.KeyError "operation_level")) /\
  @SegmentLine.process Sample.ext self Sample.w0
  = (Sample.w0, inl (Py.KeyError "overwrite_lines")).
Proof.
  intros self.
  assert (H1 : ~ In "padding" (map fst (parameter self))) by (simpl; tauto).
  assert (H2 : ~ In "operation_level" (map fst (parameter self)))
    by (simpl; tauto).
  assert (H3 : ~ In "overwrite_lines" (map fst (parameter self)))
    by (simpl; tauto).
  destruct (@missing_parameter_raises_KeyError Sample.ext self Sample.w0)
    as (T1 & T2 & T3).
  repeat (split; [assumption |]).
  split; [exact (T1 H1) |]. split; [exact (T2 H2) | exact (T3 H3)].
Defined.

(** OCR-D-IMG_0001 becomes OCR-D-SEG-PAGE_0001. *)
Lemma output_file_id_renamed_witness :
  let self := Sample.crop [Sample.file_a] in
  input_file_grp self <> "" /\
  input_file_grp self <> output_file_grp self /\
  ID Sample.file_a = input_file_grp self ++ "_0001" /\
  Pure.occurs (input_file_grp self) "_0001" = false /\
  ID (@output_file Sample.ext self 0 Sample.file_a (Sample.page_of "a.png" []))
  = "OCR-D-SEG-PAGE_0001".
Proof.
  intros self.
  assert (H1 : input_file_grp self <> "") by discriminate.
  assert (H2 : input_file_grp self <> output_file_grp self) by discriminate.
  assert (H3 : ID Sample.file_a = input_file_grp self ++ "_0001") by reflexivity.
  assert (H4 : Pure.occurs (input_file_grp self) "_0001" = false) by reflexivity.
  repeat (split; [assumption |]).
  exact (proj1 (@output_file_id_renamed Sample.ext self 0 Sample.file_a
                  (Sample.page_of "a.png" []) "_0001" H1 H2 H3 H4)).
Defined.

(** PAGE_0003, third file of the run (n = 2), becomes OCR-D-SEG-PAGE_0003. *)
Lemma output_file_id_fallback_witness :
  let self := Sample.crop [Corner.file_p] in
  Pure.occurs (input_file_grp self) (ID Corner.file_p) = false /\
  ID (@output_file Sample.ext self 2 Corner.file_p (Sample.page_of "c.png" []))
  = "OCR-D-SEG-PAGE_0003".
Proof.
  intros self.
  assert (H1 : Pure.occurs (input_file_grp self) (ID Corner.file_p) = false)
    by reflexivity.
  split; [exact H1 |].
  exact (@output_file_id_fallback Sample.ext self 2 Corner.file_p
           (Sample.page_of "c.png" []) (or_introl H1)).
Defined.

(** Page c has no region. *)
Lemma pages_without_regions_pass_through_witness :
  let pcgts := Sample.page_of "c.png" [] in
  Page.TextRegion (Page.Page pcgts) = [] /\
  Py.param_eq_str (Py.PStr "region") "page" = false /\
  Page.TableRegion (Page.Page pcgts) = [] /\
  (exists w',
      @SegmentLine.annotate_page Sample.ext (Py.PBool true) Sample.file_c pcgts
        Sample.w0 = (w', inr pcgts)) /\
  snd (@Deskew.process_page Sample.ext (Py.PStr "region") Sample.file_c "PHYS_0003"
         "OCR-D-IMG-DESKEW_0003" (Page.Page pcgts) (Pixels "c.png")
         Sample.whole_page Sample.w0)
  = inr (Page.Page pcgts).
Proof.
  intros pcgts.
  assert (Hr : Page.TextRegion (Page.Page pcgts) = []) by reflexivity.
  assert (Hl : Py.param_eq_str (Py.PStr "region") "page" = false) by reflexivity.
  assert (Hb : Page.TableRegion (Page.Page pcgts) = []) by reflexivity.
  repeat (split; [assumption |]).
  destruct (@pages_without_regions_pass_through Sample.ext (Py.PBool true)
              (Py.PStr "region") Sample.file_c "PHYS_0003" "OCR-D-IMG-DESKEW_0003"
              pcgts (Pixels "c.png") Sample.whole_page Sample.w0 Hr)
    as ((w' & E & _) & Hd).
  split; [now exists w' |]. now rewrite (Hd Hl Hb).
Defined.
